(** * BIXI station snapshot builder: a model of [data_fetch.py]

    The development embeds [config.BIXI_FEEDS], the class
    [BIXIDataFetcher] of [data_fetch.py] (feed retrieval, table
    construction, merge, coordinate normalisation, availability metrics,
    persistence) and the script [main] that calls it, and states the
    properties of the station snapshot over that embedding.

    Modelling conventions.
    - Python objects held in a JSON payload or in a table cell are the
      inductive type [value].  An [int] is an integer of any size; in a
      table, the cells of an int64 or uint64 column are integers of 64
      bits, and the sum of two such columns wraps around as numpy's does.
      A float is an exact rational, or one of the two infinities, or NaN:
      a sum or quotient beyond the largest float64 is an infinity, and
      rounding within the range is not represented (so the float of an
      integer is that integer).
    - A column has the dtype pandas infers for it when the table is built
      ([pd.DataFrame]) and when it is read as numbers ([pd.to_numeric]);
      the model keeps the dtype in the cells.
    - An effectful method is a function from the [World] (network, clock,
      disk, trace of what happened so far) to an [outcome] and the next
      world.  An exception is the outcome [Raise e].
    - The libraries are modelled as of requests 2.27 (a body that is not
      JSON raises a [RequestException]) and pandas 2 ([merge] refuses
      suffixes that produce duplicate labels, [apply] over the rows of a
      table without rows gives an empty series), on the fragment the
      program exercises with GBFS payloads: tables built from a list of
      objects, joined on string keys, with counts that are floats,
      integers of 64 bits, texts or missing, and no booleans.  An input
      outside that fragment gives [Raise (Unmodelled _)], about which no
      theorem speaks.
    - The string-to-number grammar of [pd.to_numeric] is a parameter
      [str_to_num] of the model; so are, for [main], the wording of the
      [KeyError] of a column selection and the text a table prints as. *)

From Stdlib Require Import List String Ascii Bool Arith ZArith QArith Lia Lqa.
From Stdlib Require Import DecimalString.
Import ListNotations.

#[local] Set Warnings "-register-all".
Local Open Scope string_scope.
Local Open Scope list_scope.

(** ** Python values *)

Module Py.

(** A number: a Python [int] ([Int], of any size; in a table, also the
    cell of an int64 column), the cell of a uint64 column ([UInt], which no
    payload holds), or a float ([Fin] for a finite one). *)
Inductive num : Type :=
| Int (z : Z)
| UInt (z : Z)
| Fin (q : Q)
| PInf
| NInf
| NaN.

Inductive value : Type :=
| VNone
| VBool (b : bool)
| VNum (x : num)
| VStr (s : string)
| VList (l : list value)
| VDict (d : list (string * value)).

(** Request failures of the [requests] library; all of them are subclasses
    of [requests.exceptions.RequestException]. *)
Inductive request_error : Type :=
| ConnectionError
| Timeout
| HTTPError (status : nat)
| JSONDecodeError.

Inductive exn : Type :=
| ValueError (msg : string)
| KeyError (key : string)
| TypeError (msg : string)
| AttributeError (msg : string)
| OSError (msg : string)
| MergeError (msg : string)
| RequestException (kind : request_error) (msg : string)
| Unmodelled (what : string).

Inductive outcome (A : Type) : Type :=
| Return (a : A)
| Raise (e : exn).

Arguments Return {A} a.
Arguments Raise {A} e.

Definition obind {A B : Type} (o : outcome A) (k : A -> outcome B) : outcome B :=
  match o with
  | Return a => k a
  | Raise e => Raise e
  end.

(** *** 64-bit integers *)

Definition in_int64 (z : Z) : bool := ((- 2 ^ 63 <=? z) && (z <? 2 ^ 63))%Z.

Definition in_uint64 (z : Z) : bool := ((0 <=? z) && (z <? 2 ^ 64))%Z.

(** What is left of [z] in a signed, and in an unsigned, 64-bit word. *)
Definition wrap_int64 (z : Z) : Z := ((z + 2 ^ 63) mod 2 ^ 64 - 2 ^ 63)%Z.

Definition wrap_uint64 (z : Z) : Z := (z mod 2 ^ 64)%Z.

(** *** Floats *)

(** The magnitude from which a result rounds to infinity: halfway between
    the largest float64, [2^1024 - 2^971], and [2^1024]. *)
Definition float_overflow : Q := inject_Z (2 ^ 1024 - 2 ^ 970).

(** The float of an exact result: itself (rounding is not represented),
    or an infinity when it is out of range. *)
Definition float_of_Q (q : Q) : num :=
  if Qle_bool float_overflow q then PInf
  else if Qle_bool q (- float_overflow) then NInf
  else Fin q.

(** The float of a 64-bit integer. *)
Definition to_float (a : num) : num :=
  match a with
  | Int z | UInt z => Fin (inject_Z z)
  | _ => a
  end.

Definition Qsign_pos (x : Q) : bool := negb (Qle_bool x 0).
Definition Qsign_neg (x : Q) : bool := negb (Qle_bool 0 x).

(** Sum and quotient of two floats, as IEEE 754 orders the special
    cases. *)
Definition float_add (a b : num) : num :=
  match a, b with
  | NaN, _ | _, NaN => NaN
  | PInf, NInf | NInf, PInf => NaN
  | PInf, _ | _, PInf => PInf
  | NInf, _ | _, NInf => NInf
  | Fin x, Fin y => float_of_Q (x + y)
  | _, _ => NaN
  end.

Definition float_div (a b : num) : num :=
  match a, b with
  | NaN, _ | _, NaN => NaN
  | Fin x, Fin y =>
      if Qeq_bool y 0 then
        if Qsign_pos x then PInf else if Qsign_neg x then NInf else NaN
      else float_of_Q (x / y)
  | Fin _, (PInf | NInf) => Fin 0
  | (PInf | NInf), (PInf | NInf) => NaN
  | PInf, Fin y => if Qsign_neg y then NInf else PInf
  | NInf, Fin y => if Qsign_neg y then PInf else NInf
  | _, _ => NaN
  end.

(** *** Arithmetic on the cells of numeric columns *)

(** [a + b], as numpy adds two columns: two int64 give an int64 and two
    uint64 a uint64, both wrapping around; every other pair is added as
    float64. *)
Definition num_add (a b : num) : num :=
  match a, b with
  | Int x, Int y => Int (wrap_int64 (x + y))
  | UInt x, UInt y => UInt (wrap_uint64 (x + y))
  | _, _ => float_add (to_float a) (to_float b)
  end.

(** [x > 0]; a comparison with NaN is false. *)
Definition num_gt0 (a : num) : bool :=
  match a with
  | Int z | UInt z => (0 <? z)%Z
  | Fin x => negb (Qle_bool x 0)
  | PInf => true
  | NInf | NaN => false
  end.

(** [a / b], a float whatever the operands.  The program divides only
    behind the guard [b > 0]; the remaining cases follow numpy's
    float64. *)
Definition num_div (a b : num) : num := float_div (to_float a) (to_float b).

Definition is_nan (a : num) : bool :=
  match a with NaN => true | _ => false end.

(** *** Dictionaries as insertion-ordered association lists *)

Fixpoint dict_get {A : Type} (d : list (string * A)) (k : string) : option A :=
  match d with
  | [] => None
  | (k', v) :: d' => if String.eqb k' k then Some v else dict_get d' k
  end.

Definition dict_has {A : Type} (d : list (string * A)) (k : string) : bool :=
  match dict_get d k with Some _ => true | None => false end.

(** *** The operators the program applies to a payload *)

(** [bool(v)] *)
Definition truthy (v : value) : bool :=
  match v with
  | VNone => false
  | VBool b => b
  | VNum (Int z) | VNum (UInt z) => negb (Z.eqb z 0)
  | VNum (Fin q) => negb (Qeq_bool q 0)
  | VNum _ => true
  | VStr s => negb (String.eqb s "")
  | VList l => match l with [] => false | _ => true end
  | VDict d => match d with [] => false | _ => true end
  end.

Definition is_str (k : string) (v : value) : bool :=
  match v with VStr s => String.eqb s k | _ => false end.

(** [k in v] for a string [k] *)
Definition contains (k : string) (v : value) : outcome bool :=
  match v with
  | VDict d => Return (dict_has d k)
  | VList l => Return (existsb (is_str k) l)
  | VStr s => Return (match index 0 k s with Some _ => true | None => false end)
  | VNone => Raise (TypeError "argument of type 'NoneType' is not iterable")
  | VBool _ => Raise (TypeError "argument of type 'bool' is not iterable")
  | VNum _ => Raise (TypeError "argument of type 'int' is not iterable")
  end.

(** [v[k]] for a string [k] *)
Definition getitem (v : value) (k : string) : outcome value :=
  match v with
  | VDict d => match dict_get d k with
               | Some x => Return x
               | None => Raise (KeyError k)
               end
  | VList _ => Raise (TypeError "list indices must be integers or slices, not str")
  | VStr _ => Raise (TypeError "string indices must be integers, not 'str'")
  | _ => Raise (TypeError "object is not subscriptable")
  end.

(** [v.get(k, default)] *)
Definition get (v : value) (k : string) (default : value) : outcome value :=
  match v with
  | VDict d => Return (match dict_get d k with Some x => x | None => default end)
  | _ => Raise (AttributeError "object has no attribute 'get'")
  end.

(** [len(v)] *)
Definition len (v : value) : outcome nat :=
  match v with
  | VList l => Return (List.length l)
  | VDict d => Return (List.length d)
  | VStr s => Return (String.length s)
  | _ => Raise (TypeError "object has no len()")
  end.

Definition str_of_nat (n : nat) : string :=
  NilZero.string_of_uint (Nat.to_uint n).

End Py.

Import Py.

(** ** The fragment of pandas the program uses *)

Module Pandas.

(** A row keeps its cells under the column labels, in column order. *)
Definition row : Type := list (string * value).

Record DataFrame : Type := mkDataFrame {
  columns : list string;
  rows : list row
}.

(** [pd.DataFrame()] *)
Definition empty_frame : DataFrame := mkDataFrame [] [].

(** [df.empty]: some axis has length 0. *)
Definition empty (df : DataFrame) : bool :=
  match columns df, rows df with
  | [], _ | _, [] => true
  | _, _ => false
  end.

Definition mem (c : string) (l : list string) : bool :=
  existsb (String.eqb c) l.

Fixpoint has_dup (l : list string) : bool :=
  match l with
  | [] => false
  | x :: l' => mem x l' || has_dup l'
  end.

(** *** [pd.DataFrame(records)] for a list of dicts: the columns are the
    keys in order of first appearance, a missing key is NaN. *)

Fixpoint add_keys (cols : list string) (d : list (string * value)) : list string :=
  match d with
  | [] => cols
  | (k, _) :: d' => add_keys (if mem k cols then cols else cols ++ [k]) d'
  end.

Definition record_columns (records : list (list (string * value))) : list string :=
  fold_left add_keys records [].

Definition record_row (cols : list string) (d : list (string * value)) : row :=
  map (fun c => (c, match dict_get d c with Some v => v | None => VNum NaN end)) cols.

Fixpoint as_records (l : list value) : option (list (list (string * value))) :=
  match l with
  | [] => Some []
  | VDict d :: l' => option_map (cons d) (as_records l')
  | _ :: _ => None
  end.

Definition from_records (records : list (list (string * value))) : DataFrame :=
  let cols := record_columns records in
  mkDataFrame cols (map (record_row cols) records).

(** *** Cells and columns *)

(** The cell of a row under a label; a cell that is not there reads as
    the missing value NaN. *)
Definition cell (r : row) (c : string) : value :=
  match dict_get r c with
  | Some v => v
  | None => VNum NaN
  end.

(** [row[c]] inside [apply] *)
Definition row_getitem (r : row) (c : string) : outcome value :=
  match dict_get r c with
  | Some v => Return v
  | None => Raise (KeyError c)
  end.

(** [df[c]], one value per row *)
Definition df_getitem (df : DataFrame) (c : string) : outcome (list value) :=
  if mem c (columns df)
  then Return (map (fun r => cell r c) (rows df))
  else Raise (KeyError c).

Definition row_set (r : row) (c : string) (v : value) : row :=
  if dict_has r c
  then map (fun kv => if String.eqb (fst kv) c then (c, v) else kv) r
  else r ++ [(c, v)].

(** [df[c] = series]: overwrite the column in place, or append it. *)
Definition df_setitem (df : DataFrame) (c : string) (series : list value) : DataFrame :=
  mkDataFrame
    (if mem c (columns df) then columns df else columns df ++ [c])
    (map (fun rv => row_set (fst rv) c (snd rv)) (combine (rows df) series)).

(** *** The dtype of a column

    pandas holds a column in one dtype.  The model keeps the dtype in the
    cells: those of an int64 column are [Int]s of 64 bits, those of a uint64
    column [UInt]s, those of a float64 column floats; a column of any other
    cells is a column of Python objects. *)

Inductive dtype : Type := int64 | uint64 | float64.

Definition has_dtype (t : dtype) (v : value) : bool :=
  match t, v with
  | int64, VNum (Int z) => in_int64 z
  | uint64, VNum (UInt z) => in_uint64 z
  | float64, VNum (Fin _ | PInf | NInf | NaN) => true
  | _, _ => false
  end.

Definition dtype_of (series : list value) : option dtype :=
  if forallb (has_dtype int64) series then Some int64
  else if forallb (has_dtype uint64) series then Some uint64
  else if forallb (has_dtype float64) series then Some float64
  else None.

Definition is_int (v : value) : bool :=
  match v with VNum (Int _) => true | _ => false end.

Definition is_uint (v : value) : bool :=
  match v with VNum (UInt _) => true | _ => false end.

(** Every integer among the cells is within [range]. *)
Definition int_fits (range : Z -> bool) (v : value) : bool :=
  match v with VNum (Int z) => range z | _ => true end.

(** [None], an integer or a float: what a numeric column is made from. *)
Definition number_or_none (v : value) : bool :=
  match v with
  | VNone | VNum (Int _ | Fin _ | PInf | NInf | NaN) => true
  | _ => false
  end.

Definition is_number (v : value) : bool :=
  match v with VNum _ => true | _ => false end.

Definition as_uint (v : value) : value :=
  match v with VNum (Int z) => VNum (UInt z) | _ => v end.

Definition as_float (v : value) : value :=
  match v with
  | VNone => VNum NaN
  | VNum x => VNum (to_float x)
  | _ => v
  end.

(** The column [pd.DataFrame(records)] makes of the objects under one
    key: integers stay integers (int64, or uint64 when one needs the 64th
    bit and none is negative; integers beyond that stay Python objects);
    integers of 64 bits, floats and [None]s together make a float64 column,
    unless all are [None]; anything else is kept as it is. *)
Definition infer_dtype (cells : list value) : outcome (list value) :=
  if forallb is_int cells then
    if forallb (int_fits in_int64) cells then Return cells
    else if forallb (int_fits in_uint64) cells then Return (map as_uint cells)
    else Return cells
  else if forallb number_or_none cells && existsb is_number cells then
    if forallb (int_fits in_int64) cells then Return (map as_float cells)
    else Raise (Unmodelled "an integer beyond int64 next to a float or a missing value")
  else Return cells.

Definition infer_column (df : DataFrame) (c : string) : outcome DataFrame :=
  obind (infer_dtype (map (fun r => cell r c) (rows df)))
        (fun series => Return (df_setitem df c series)).

Definition infer_dtypes (df : DataFrame) : outcome DataFrame :=
  fold_left (fun acc c => obind acc (fun df => infer_column df c))
            (columns df) (Return df).

Definition DataFrame_of (v : value) : outcome DataFrame :=
  match v with
  | VList l =>
      match as_records l with
      | Some records => infer_dtypes (from_records records)
      | None => Raise (Unmodelled "pd.DataFrame of a list that holds a non-dict")
      end
  | _ => Raise (Unmodelled "pd.DataFrame of a value that is not a list")
  end.

(** *** [left.merge(right, on=key, how='inner', suffixes=(lsuffix, rsuffix))] *)

(** The model joins on string keys, as GBFS identifiers are; pandas'
    treatment of other key types is not represented. *)
Definition key_ok (v : value) : bool :=
  match v with
  | VStr _ => true
  | _ => false
  end.

Definition key_match (a b : value) : bool :=
  match a, b with
  | VStr s, VStr t => String.eqb s t
  | _, _ => false
  end.

Definition renamer (to_rename : list string) (suffix : string) (x : string) : string :=
  if mem x to_rename then x ++ suffix else x.

Definition relabel (to_rename : list string) (suffix : string) (r : row) : row :=
  map (fun kv => (renamer to_rename suffix (fst kv), snd kv)) r.

Definition row_drop (key : string) (r : row) : row :=
  filter (fun kv => negb (String.eqb (fst kv) key)) r.

Definition join_rows (key : string) (to_rename : list string) (lsuffix rsuffix : string)
    (left right : list row) : list row :=
  flat_map
    (fun l =>
       map (fun r => relabel to_rename lsuffix l
                       ++ relabel to_rename rsuffix (row_drop key r))
           (filter (fun r => key_match (cell l key) (cell r key)) right))
    left.

Definition merge (left right : DataFrame) (key lsuffix rsuffix : string)
    : outcome DataFrame :=
  if negb (mem key (columns left) && mem key (columns right))
  then Raise (KeyError key)
  else if negb (forallb (fun r => key_ok (cell r key)) (rows left)
                && forallb (fun r => key_ok (cell r key)) (rows right))
  then Raise (Unmodelled "merge on keys that are not strings")
  else
    let rcols := filter (fun c => negb (String.eqb c key)) (columns right) in
    let to_rename := filter (fun c => mem c rcols) (columns left) in
    let llabels := map (renamer to_rename lsuffix) (columns left) in
    let rlabels := map (renamer to_rename rsuffix) rcols in
    if has_dup llabels || has_dup rlabels
    then Raise (MergeError "Passing 'suffixes' which cause duplicate columns is not allowed.")
    else Return (mkDataFrame (llabels ++ rlabels)
                   (join_rows key to_rename lsuffix rsuffix (rows left) (rows right))).

(** *** Element-wise numeric operations *)

Fixpoint mapM {A B : Type} (f : A -> outcome B) (l : list A) : outcome (list B) :=
  match l with
  | [] => Return []
  | a :: l' => obind (f a) (fun b => obind (mapM f l') (fun bs => Return (b :: bs)))
  end.

Section Numeric.

(** The grammar by which pandas reads a string as a number is pandas' own;
    the model takes it as given: [None] for a string it rejects. *)
Variable str_to_num : string -> option num.

(** One cell of [pd.to_numeric(series, errors='coerce')]: what does not
    convert becomes NaN. *)
Definition to_numeric_coerce (v : value) : outcome value :=
  match v with
  | VNum x => Return (VNum x)
  | VStr s => Return (VNum (match str_to_num s with Some x => x | None => NaN end))
  | VNone | VList _ | VDict _ => Return (VNum NaN)
  | VBool _ => Raise (Unmodelled "pd.to_numeric of a boolean")
  end.

(** [pd.to_numeric(series, errors='coerce')]: a numeric column comes back
    as it is; of a column of objects every cell is read, and the result is
    int64 when every cell reads as an integer, float64 otherwise. *)
Definition to_numeric (series : list value) : outcome (list value) :=
  obind (mapM to_numeric_coerce series) (fun cells =>
  if forallb (has_dtype uint64) cells then Return cells
  else if existsb is_uint cells then
    Raise (Unmodelled "pd.to_numeric of uint64 cells among others")
  else if negb (forallb (int_fits in_int64) cells) then
    Raise (Unmodelled "pd.to_numeric of an integer beyond int64")
  else if forallb is_int cells then Return cells
  else Return (map as_float cells)).

End Numeric.

(** [pd.isna(v)] *)
Definition is_null (v : value) : bool :=
  match v with
  | VNone | VNum NaN => true
  | _ => false
  end.

(** [series.fillna(0)] *)
Definition fillna0 (series : list value) : list value :=
  map (fun v => if is_null v then VNum (Fin 0) else v) series.

(** [a + b] on two cells *)
Definition add (a b : value) : outcome value :=
  match a, b with
  | VNum x, VNum y => Return (VNum (num_add x y))
  | _, _ => Raise (Unmodelled "addition of cells that are not numbers")
  end.

(** [series_a + series_b] for two numeric columns *)
Definition series_add (a b : list value) : outcome (list value) :=
  match dtype_of a, dtype_of b with
  | Some _, Some _ => mapM (fun xy => add (fst xy) (snd xy)) (combine a b)
  | _, _ => Raise (Unmodelled "addition of columns that are not numeric")
  end.

(** [a > 0] and [a / b] on cells, inside [apply] *)
Definition gt0 (a : value) : outcome bool :=
  match a with
  | VNum x => Return (num_gt0 x)
  | _ => Raise (Unmodelled "comparison of a cell that is not a number")
  end.

Definition truediv (a b : value) : outcome value :=
  match a, b with
  | VNum x, VNum y => Return (VNum (num_div x y))
  | _, _ => Raise (Unmodelled "division of cells that are not numbers")
  end.

(** [df.apply(f, axis=1)] *)
Definition apply_rows (f : row -> outcome value) (df : DataFrame) : outcome (list value) :=
  mapM f (rows df).

End Pandas.

(** ** [config.py] *)

Module Config.

Definition BIXI_GBFS_BASE_URL : string := "https://gbfs.velobixi.com/gbfs".

Definition BIXI_FEEDS : list (string * string) :=
  [ ("station_information", "/en/station_information.json");
    ("station_status", "/en/station_status.json");
    ("system_information", "/en/system_information.json");
    ("system_alerts", "/en/system_alerts.json");
    ("vehicle_types", "/en/vehicle_types.json") ].

Definition DATA_DIR : string := "data".

End Config.

(** ** The world around the program *)

Module IO.

Import Pandas.

Inductive body : Type :=
| Json (data : value)
| NotJson (detail : string).

(** What a GET on a URL meets: no connection at all, or a server that
    answers after the client has waited [wait] seconds on the socket. *)
Inductive http_outcome : Type :=
| Unreachable (detail : string)
| Responds (wait : nat) (status_code : nat) (reason : string) (content : body).

Record Response : Type := mkResponse {
  url : string;
  status_code : nat;
  reason : string;
  content : body
}.

Inductive event : Type :=
| HttpGet (url : string) (timeout : nat)
| WriteJson (path : string) (data : value)
| WriteCsv (path : string) (df : DataFrame)
| Print (line : string).

Record World : Type := mkWorld {
  network : string -> http_outcome;
  clock : nat -> string;        (* the n-th reading of [datetime.now()], formatted *)
  ticks : nat;
  disk : string -> option string; (* [Some detail]: writing this path fails *)
  trace : list event
}.

Definition log (e : event) (w : World) : World :=
  mkWorld (network w) (clock w) (ticks w) (disk w) (trace w ++ [e]).

Definition M (A : Type) : Type := World -> outcome A * World.

Definition ret {A : Type} (a : A) : M A := fun w => (Return a, w).

Definition raise {A : Type} (e : exn) : M A := fun w => (Raise e, w).

Definition bind {A B : Type} (m : M A) (k : A -> M B) : M B :=
  fun w =>
    match m w with
    | (Return a, w') => k a w'
    | (Raise e, w') => (Raise e, w')
    end.

Definition lift {A : Type} (o : outcome A) : M A := fun w => (o, w).

(** [try: body except requests.exceptions.RequestException as e: handler] *)
Definition try_except_RequestException {A : Type} (body : M A) (handler : string -> M A)
    : M A :=
  fun w =>
    match body w with
    | (Raise (RequestException _ e), w') => handler e w'
    | r => r
    end.

(** [print(line)] *)
Definition print (line : string) : M unit :=
  fun w => (Return tt, log (Print line) w).

(** [datetime.now().strftime("%Y%m%d_%H%M%S")] *)
Definition now_strftime : M string :=
  fun w => (Return (clock w (ticks w)),
            mkWorld (network w) (clock w) (S (ticks w)) (disk w) (trace w)).

Fixpoint drop (n : nat) (s : string) : string :=
  match n, s with
  | S n', String _ s' => drop n' s'
  | _, _ => s
  end.

Fixpoint take_while (keep : ascii -> bool) (s : string) : string :=
  match s with
  | String c s' => if keep c then String c (take_while keep s') else EmptyString
  | EmptyString => EmptyString
  end.

(** The connection pool of [url] as the errors of the transport name it,
    for a URL [http://host/...] or [https://host:port/...] (the port of
    the scheme when none is written):
    [HTTPSConnectionPool(host='gbfs.velobixi.com', port=443)]. *)
Definition connection_pool (url : string) : string :=
  let https := String.prefix "https://" url in
  let rest := drop (if https then 8 else 7) url in
  let authority :=
    take_while (fun c => negb (Ascii.eqb c "/" || Ascii.eqb c "?" || Ascii.eqb c "#"))
      rest in
  let host := take_while (fun c => negb (Ascii.eqb c ":")) authority in
  let port := drop (S (String.length host)) authority in
  (if https then "HTTPSConnectionPool" else "HTTPConnectionPool")
    ++ "(host='" ++ host ++ "', port="
    ++ match port with
       | EmptyString => if https then "443" else "80"
       | _ => port
       end ++ ")".

(** The text of the [ReadTimeout] raised when the server has not answered
    within [timeout] seconds. *)
Definition read_timed_out (url : string) (timeout : nat) : string :=
  connection_pool url ++ ": Read timed out. (read timeout=" ++ str_of_nat timeout ++ ")".

(** [requests.get(url, timeout=timeout)] *)
Definition requests_get (url : string) (timeout : nat) : M Response :=
  fun w =>
    let w' := log (HttpGet url timeout) w in
    match network w url with
    | Unreachable detail => (Raise (RequestException ConnectionError detail), w')
    | Responds wait status reason content =>
        if (timeout <? wait)%nat
        then (Raise (RequestException Timeout (read_timed_out url timeout)), w')
        else (Return (mkResponse url status reason content), w')
    end.

(** [response.raise_for_status()] *)
Definition raise_for_status (response : Response) : M unit :=
  let status := status_code response in
  if (400 <=? status)%nat && (status <? 500)%nat then
    raise (RequestException (HTTPError status)
             (str_of_nat status ++ " Client Error: " ++ reason response
                ++ " for url: " ++ url response))
  else if (500 <=? status)%nat && (status <? 600)%nat then
    raise (RequestException (HTTPError status)
             (str_of_nat status ++ " Server Error: " ++ reason response
                ++ " for url: " ++ url response))
  else ret tt.

(** [response.json()] *)
Definition response_json (response : Response) : M value :=
  match content response with
  | Json data => ret data
  | NotJson detail => raise (RequestException JSONDecodeError detail)
  end.

(** [with open(path, 'w') as f: json.dump(data, f, indent=2)] *)
Definition json_dump (path : string) (data : value) : M unit :=
  fun w =>
    match disk w path with
    | Some detail => (Raise (OSError detail), w)
    | None => (Return tt, log (WriteJson path data) w)
    end.

(** [df.to_csv(path, index=False)] *)
Definition to_csv (df : DataFrame) (path : string) : M unit :=
  fun w =>
    match disk w path with
    | Some detail => (Raise (OSError detail), w)
    | None => (Return tt, log (WriteCsv path df) w)
    end.

End IO.

(** ** [data_fetch.py] *)

Module DataFetch.

Import Pandas IO.

Declare Scope py_scope.
Delimit Scope py_scope with py.

Notation "x <- m ;; k" := (bind m (fun x => k))
  (at level 61, m at next level, right associativity) : py_scope.
Notation "m ;; k" := (bind m (fun _ => k))
  (at level 61, right associativity) : py_scope.
Notation "x <~ o ;; k" := (obind o (fun x => k))
  (at level 61, o at next level, right associativity) : py_scope.

Local Open Scope py_scope.

Record BIXIDataFetcher : Type := mkFetcher {
  base_url : string;
  data_dir : string
}.

(** [BIXIDataFetcher()]; the creation of the data directory is left out. *)
Definition init : BIXIDataFetcher :=
  mkFetcher Config.BIXI_GBFS_BASE_URL Config.DATA_DIR.

(** [Path(dir) / name] *)
Definition path_join (dir name : string) : string := dir ++ "/" ++ name.

Definition fetch_feed (self : BIXIDataFetcher) (feed_name : string) : M value :=
  match dict_get Config.BIXI_FEEDS feed_name with
  | None => raise (ValueError ("Unknown feed: " ++ feed_name))
  | Some feed_path =>
      let url := (base_url self ++ feed_path)%string in
      try_except_RequestException
        (response <- requests_get url 10 ;;
         raise_for_status response ;;
         data <- response_json response ;;
         timestamp <- now_strftime ;;
         let filename :=
           path_join (data_dir self) (feed_name ++ "_" ++ timestamp ++ ".json")%string in
         json_dump filename data ;;
         d <- lift (Py.get data "data" (VDict [])) ;;
         stations <- lift (Py.get d "stations" (VList [])) ;;
         n <- lift (Py.len stations) ;;
         print ("✓ Fetched " ++ feed_name ++ " - " ++ str_of_nat n ++ " stations") ;;
         ret data)
        (fun e =>
           print ("✗ Error fetching " ++ feed_name ++ ": " ++ e) ;;
           ret VNone)
  end.

(** The body shared by [get_station_information] and [get_station_status]:
    [[
      if data and 'data' in data and 'stations' in data['data']:
          return pd.DataFrame(data['data']['stations'])
      return pd.DataFrame()
    ]] *)
Definition stations_frame (data : value) : outcome DataFrame :=
  if negb (truthy data) then Return empty_frame else
  has_data <~ contains "data" data ;;
  if negb has_data then Return empty_frame else
  d <~ Py.getitem data "data" ;;
  has_stations <~ contains "stations" d ;;
  if negb has_stations then Return empty_frame else
  stations <~ Py.getitem d "stations" ;;
  DataFrame_of stations.

Definition get_station_information (self : BIXIDataFetcher) : M DataFrame :=
  data <- fetch_feed self "station_information" ;;
  lift (stations_frame data).

Definition get_station_status (self : BIXIDataFetcher) : M DataFrame :=
  data <- fetch_feed self "station_status" ;;
  lift (stations_frame data).

(** Lines 90-94 of [get_combined_station_data]:
    [[
      if 'lon' not in combined.columns and 'longitude' in combined.columns:
          combined['lon'] = combined['longitude']
      if 'lat' not in combined.columns and 'latitude' in combined.columns:
          combined['lat'] = combined['latitude']
    ]] *)
Definition normalize_coordinates (combined : DataFrame) : outcome DataFrame :=
  combined <~ (if negb (mem "lon" (columns combined)) && mem "longitude" (columns combined)
               then longitude <~ df_getitem combined "longitude" ;;
                    Return (df_setitem combined "lon" longitude)
               else Return combined) ;;
  if negb (mem "lat" (columns combined)) && mem "latitude" (columns combined)
  then latitude <~ df_getitem combined "latitude" ;;
       Return (df_setitem combined "lat" latitude)
  else Return combined.

(** The function handed to [combined.apply(..., axis=1)]:
    [[
      lambda row: row['num_bikes_available'] / row['total_capacity']
                  if row['total_capacity'] > 0 else 0.0
    ]] *)
Definition utilization (row : row) : outcome value :=
  total <~ row_getitem row "total_capacity" ;;
  positive <~ gt0 total ;;
  if positive
  then bikes <~ row_getitem row "num_bikes_available" ;;
       total <~ row_getitem row "total_capacity" ;;
       truediv bikes total
  else Return (VNum (Fin 0)).

Section WithParser.

Variable str_to_num : string -> option num.

(** Lines 97-110 of [get_combined_station_data]. *)
Definition availability_metrics (combined : DataFrame) : outcome DataFrame :=
  if mem "num_bikes_available" (columns combined)
     && mem "num_docks_available" (columns combined)
  then
    bikes <~ df_getitem combined "num_bikes_available" ;;
    bikes <~ to_numeric str_to_num bikes ;;
    let combined := df_setitem combined "num_bikes_available" (fillna0 bikes) in
    docks <~ df_getitem combined "num_docks_available" ;;
    docks <~ to_numeric str_to_num docks ;;
    let combined := df_setitem combined "num_docks_available" (fillna0 docks) in
    bikes <~ df_getitem combined "num_bikes_available" ;;
    docks <~ df_getitem combined "num_docks_available" ;;
    total <~ series_add bikes docks ;;
    let combined := df_setitem combined "total_capacity" total in
    rate <~ apply_rows utilization combined ;;
    Return (df_setitem combined "utilization_rate" rate)
  else Return combined.

Definition get_combined_station_data (self : BIXIDataFetcher) : M DataFrame :=
  info_df <- get_station_information self ;;
  status_df <- get_station_status self ;;
  if empty info_df || empty status_df then
    print "⚠ Warning: Missing station data" ;;
    ret empty_frame
  else
    combined <- lift (merge info_df status_df "station_id" "_info" "_status") ;;
    combined <- lift (normalize_coordinates combined) ;;
    combined <- lift (availability_metrics combined) ;;
    timestamp <- now_strftime ;;
    let csv_path :=
      path_join (data_dir self) ("combined_stations_" ++ timestamp ++ ".csv")%string in
    to_csv combined csv_path ;;
    print ("✓ Saved combined data to " ++ csv_path) ;;
    ret combined.

End WithParser.

Definition get_system_alerts (self : BIXIDataFetcher) : M value :=
  fetch_feed self "system_alerts".

Definition get_system_information (self : BIXIDataFetcher) : M value :=
  fetch_feed self "system_information".

End DataFetch.

(** * Vocabulary of the properties *)

Module Props.

Import Pandas IO DataFetch.

(** ** Shape *)

(** Every row holds exactly the columns of its table, in their order. *)
Definition aligned (df : DataFrame) : Prop :=
  forall r, In r (rows df) -> map fst r = columns df.

(** ** Coordinate normalisation *)

(** What one canonical field looks like after normalisation of [df] into
    [df']: untouched when it was there, a copy of the alternate field when
    only that one was there, absent otherwise. *)
Definition canonical_after (canon alt : string) (df df' : DataFrame) : Prop :=
  if mem canon (columns df) then
    mem canon (columns df') = true /\
    Forall2 (fun r r' => dict_get r' canon = dict_get r canon) (rows df) (rows df')
  else if mem alt (columns df) then
    mem canon (columns df') = true /\
    Forall2 (fun r r' => cell r' canon = cell r alt) (rows df) (rows df')
  else
    mem canon (columns df') = false.

(** The effect of one of the two conditional assignments. *)
Definition copy_if_absent (canon alt : string) (df : DataFrame) : DataFrame :=
  if negb (mem canon (columns df)) && mem alt (columns df)
  then df_setitem df canon (map (fun r => cell r alt) (rows df))
  else df.

(** ** Availability metrics *)

(** The guard of the metrics block: both count columns are in the table. *)
Definition has_counts (df : DataFrame) : bool :=
  mem "num_bikes_available" (columns df) && mem "num_docks_available" (columns df).

(** [fillna(0)] on a number *)
Definition zero_if_nan (x : num) : num :=
  match x with NaN => Fin 0 | _ => x end.

(** The value the lambda computes from the bike count and the capacity. *)
Definition rate (bikes total : num) : num :=
  if num_gt0 total then num_div bikes total else Fin 0.

(** The number a count cell stands for once read and filled: a number
    is itself, a text the reader accepts is the number read, and whatever
    is missing or does not read is 0. *)
Definition count_value (str_to_num : string -> option num) (v : value) : num :=
  match v with
  | VNum x => zero_if_nan x
  | VStr s => match str_to_num s with
              | Some x => zero_if_nan x
              | None => Fin 0
              end
  | _ => Fin 0
  end.

(** The same number, possibly as the float its column holds it in. *)
Definition same_number (x y : num) : Prop := x = y \/ x = to_float y.

(** How a row [r'] of the result comes from the row [r] it was computed
    from: both counts read as numbers, capacity and rate set from them. *)
Definition derived (str_to_num : string -> option num) (r r' : row) : Prop :=
  exists b d,
    same_number b (count_value str_to_num (cell r "num_bikes_available")) /\
    same_number d (count_value str_to_num (cell r "num_docks_available")) /\
    r' = row_set
           (row_set
              (row_set
                 (row_set r "num_bikes_available" (VNum b))
                 "num_docks_available" (VNum d))
              "total_capacity" (VNum (num_add b d)))
           "utilization_rate" (VNum (rate b (num_add b d))).

(** A count the model reads: no boolean, no cell of a uint64 column, and
    as a number or a text an integer of the int64 range or a float. *)
Definition count_modelled (str_to_num : string -> option num) (v : value) : Prop :=
  match v with
  | VBool _ | VNum (UInt _) => False
  | VNum (Int z) => in_int64 z = true
  | VStr s => match str_to_num s with
              | Some (Int z) => in_int64 z = true
              | Some (UInt _) => False
              | _ => True
              end
  | _ => True
  end.

(** A count that is not a number and does not read as one. *)
Definition unparsable (str_to_num : string -> option num) (v : value) : Prop :=
  match v with
  | VStr s => str_to_num s = None
  | VNone | VList _ | VDict _ => True
  | VNum _ | VBool _ => False
  end.

(** A non-negative finite count: an integer below [2^63], or a float. *)
Definition small_count (x : num) : Prop :=
  match x with
  | Int z => (0 <= z < 2 ^ 63)%Z
  | Fin q => 0 <= q
  | _ => False
  end.

(** A fetched table is well formed in its counts when every cell under one
    of the two count labels is such a count. *)
Definition counts_well_formed (df : DataFrame) : Prop :=
  forall (r : row) (c : string) (v : value),
    In r (rows df) ->
    c = "num_bikes_available" \/ c = "num_docks_available" ->
    In (c, v) r ->
    exists x, v = VNum x /\ small_count x.

(** The number a cell holds, when it is finite. *)
Definition num_value (x : num) : option Q :=
  match x with
  | Int z | UInt z => Some (inject_Z z)
  | Fin q => Some q
  | _ => None
  end.

(** The exact sum of two counts is one their columns can hold: within 64
    bits for two integer columns of a kind, finite for floats. *)
Definition sum_in_range (bikes docks : num) : Prop :=
  match bikes, docks with
  | Int b, Int d => in_int64 (b + d) = true
  | UInt b, UInt d => in_uint64 (b + d) = true
  | _, _ =>
      match to_float bikes, to_float docks with
      | Fin x, Fin y => - float_overflow < x + y < float_overflow
      | _, _ => False
      end
  end.

(** ** The join *)

(** The identifiers a table holds. *)
Definition station_ids (df : DataFrame) : list value :=
  map (fun r => cell r "station_id") (rows df).

Fixpoint ends_with (suffix s : string) : bool :=
  if String.eqb s suffix then true
  else match s with
       | EmptyString => false
       | String _ s' => ends_with suffix s'
       end.

(** The labels [merge] renames: those the two sides share, the key apart. *)
Definition shared_labels (left right : DataFrame) (key : string) : list string :=
  filter (fun c => mem c (filter (fun c => negb (String.eqb c key)) (columns right)))
         (columns left).

(** The labels of the two sides of the join after suffixing. *)
Definition left_labels (left right : DataFrame) (key suffix : string) : list string :=
  map (renamer (shared_labels left right key) suffix) (columns left).

Definition right_labels (left right : DataFrame) (key suffix : string) : list string :=
  map (renamer (shared_labels left right key) suffix)
      (filter (fun c => negb (String.eqb c key)) (columns right)).

(** The two tables can be joined on [key]: both have the column, every
    cell of it is a text, and no two labels of a side coincide once
    suffixed. *)
Definition joinable (left right : DataFrame) (key lsuffix rsuffix : string) : Prop :=
  mem key (columns left) = true /\ mem key (columns right) = true /\
  (forall r, In r (rows left) \/ In r (rows right) -> exists s, cell r key = VStr s) /\
  has_dup (left_labels left right key lsuffix) = false /\
  has_dup (right_labels left right key rsuffix) = false.

(** ** Effects *)

(** The path of the merged snapshot written from the world [w]. *)
Definition csv_path (self : BIXIDataFetcher) (w : World) : string :=
  path_join (data_dir self) ("combined_stations_" ++ clock w (ticks w) ++ ".csv").

(** The GET requests in a trace. *)
Definition requests_issued (t : list event) : nat :=
  List.length (filter (fun e => match e with HttpGet _ _ => true | _ => false end) t).

(** The request meets no server, or waits longer than the 10 seconds the
    program allows, or is answered with a 4xx or 5xx status. *)
Definition request_fails (o : http_outcome) : Prop :=
  match o with
  | Unreachable _ => True
  | Responds wait status _ _ => (10 < wait \/ 400 <= status < 600)%nat
  end.

(** What the [requests] library says of a failed request to [url]: the
    words of the transport when no server is met, of the timeout after the
    10 seconds allowed, or else the status line of the 4xx or 5xx answer. *)
Definition failure_detail (url : string) (o : http_outcome) : string :=
  match o with
  | Unreachable detail => detail
  | Responds wait status reason _ =>
      if (10 <? wait)%nat then read_timed_out url 10
      else str_of_nat status
             ++ (if (status <? 500)%nat then " Client Error: " else " Server Error: ")
             ++ reason ++ " for url: " ++ url
  end.

(** The payload is an object in which [data.stations] is not there. *)
Definition stations_absent (data : value) : Prop :=
  match data with
  | VDict d =>
      match dict_get d "data" with
      | None => True
      | Some (VDict d') => dict_get d' "stations" = None
      | Some _ => False
      end
  | _ => False
  end.

End Props.

(** ** Worked runs *)

Module Examples.

Import Pandas IO DataFetch Props.

(** A reader of unsigned decimal integers, standing for pandas' reader. *)
Definition decimal (s : string) : option num :=
  match NilEmpty.uint_of_string s with
  | Some Decimal.Nil | None => None
  | Some u => Some (Int (Z.of_uint u))
  end.

Definition feed (stations : list value) : value :=
  VDict [("last_updated", VNum (Int 1700000000));
         ("data", VDict [("stations", VList stations)])].

Definition information_url : string :=
  "https://gbfs.velobixi.com/gbfs/en/station_information.json".

Definition serve (information status : value) (url : string) : http_outcome :=
  if String.eqb url information_url
  then Responds 1 200 "OK" (Json information)
  else Responds 1 200 "OK" (Json status).

Definition timestamp (n : nat) : string := "20240101_12000" ++ str_of_nat n.

Definition information_feed : value :=
  feed [VDict [("station_id", VStr "42"); ("name", VStr "Parc");
               ("lon", VNum (Fin (-735 # 10))); ("lat", VNum (Fin (455 # 10)))];
        VDict [("station_id", VStr "8"); ("name", VStr "Quai");
               ("lon", VNum (Fin (-736 # 10))); ("lat", VNum (Fin (454 # 10)))];
        VDict [("station_id", VStr "7"); ("name", VStr "Only in information");
               ("lon", VNum (Fin (-737 # 10))); ("lat", VNum (Fin (453 # 10)))]].

Definition status_feed : value :=
  feed [VDict [("station_id", VStr "42"); ("num_bikes_available", VNum (Int 3));
               ("num_docks_available", VNum (Int 7))];
        VDict [("station_id", VStr "8"); ("num_bikes_available", VStr "N/A");
               ("num_docks_available", VStr "5")];
        VDict [("station_id", VStr "9"); ("num_bikes_available", VNum (Int 0));
               ("num_docks_available", VNum (Int 0))]].

(** Both feeds answer, the disk takes every file. *)
Definition world_live : World :=
  mkWorld (serve information_feed status_feed) timestamp 0 (fun _ => None) [].

(** A status feed whose counts are all numbers. *)
Definition status_feed_clean : value :=
  feed [VDict [("station_id", VStr "42"); ("num_bikes_available", VNum (Int 3));
               ("num_docks_available", VNum (Int 7))];
        VDict [("station_id", VStr "8"); ("num_bikes_available", VNum (Int 0));
               ("num_docks_available", VNum (Int 0))]].

Definition world_clean : World :=
  mkWorld (serve information_feed status_feed_clean) timestamp 0 (fun _ => None) [].

(** No station of one feed is in the other. *)
Definition status_feed_elsewhere : value :=
  feed [VDict [("station_id", VStr "9"); ("num_bikes_available", VNum (Int 1));
               ("num_docks_available", VNum (Int 1))]].

Definition world_disjoint : World :=
  mkWorld (serve information_feed status_feed_elsewhere) timestamp 0 (fun _ => None) [].

(** The status feed has bike counts but no dock counts. *)
Definition status_feed_bikes_only : value :=
  feed [VDict [("station_id", VStr "42"); ("num_bikes_available", VStr "N/A")]].

Definition world_bikes_only : World :=
  mkWorld (serve information_feed status_feed_bikes_only) timestamp 0 (fun _ => None) [].

(** The disk takes the raw feeds and refuses the merged snapshot. *)
Definition disk_refusing_csv (path : string) : option string :=
  if prefix "data/combined_stations_" path
  then Some "[Errno 28] No space left on device"
  else None.

Definition world_disk_full : World :=
  mkWorld (serve information_feed status_feed) timestamp 0 disk_refusing_csv [].

(** The server answers after 30 seconds. *)
Definition world_slow : World :=
  mkWorld (fun _ => Responds 30 200 "OK" (Json status_feed)) timestamp 0
          (fun _ => None) [].

(** The information feed comes without a station list. *)
Definition world_no_stations : World :=
  mkWorld (serve (VDict [("data", VDict [])]) status_feed) timestamp 0
          (fun _ => None) [].

(** Station 42 reports the largest int64 as its bikes, and one dock. *)
Definition status_feed_largest : value :=
  feed [VDict [("station_id", VStr "42");
               ("num_bikes_available", VNum (Int (2 ^ 63 - 1)));
               ("num_docks_available", VNum (Int 1))]].

Definition world_largest : World :=
  mkWorld (serve information_feed status_feed_largest) timestamp 0 (fun _ => None) [].

(** Counts that need the 64th bit: pandas holds them as uint64. *)
Definition status_feed_unsigned : value :=
  feed [VDict [("station_id", VStr "42");
               ("num_bikes_available", VNum (Int (2 ^ 63)));
               ("num_docks_available", VNum (Int (2 ^ 63 + 1)))]].

Definition world_unsigned : World :=
  mkWorld (serve information_feed status_feed_unsigned) timestamp 0 (fun _ => None) [].

(** The entries of the status feed come without [station_id]. *)
Definition status_feed_unkeyed : value :=
  feed [VDict [("num_bikes_available", VNum (Int 3));
               ("num_docks_available", VNum (Int 7))]].

Definition world_unkeyed : World :=
  mkWorld (serve information_feed status_feed_unkeyed) timestamp 0 (fun _ => None) [].

(** The table of an outcome, or the empty table if it is an exception. *)
Definition returned (o : outcome DataFrame) : DataFrame :=
  match o with
  | Return df => df
  | Raise _ => empty_frame
  end.

(** The stages of [get_combined_station_data] from a world. *)
Definition information_of (w : World) : DataFrame :=
  returned (fst (get_station_information init w)).

Definition after_information (w : World) : World :=
  snd (get_station_information init w).

Definition status_of (w : World) : DataFrame :=
  returned (fst (get_station_status init (after_information w))).

Definition after_status (w : World) : World :=
  snd (get_station_status init (after_information w)).

Definition joined_of (w : World) : DataFrame :=
  returned (merge (information_of w) (status_of w) "station_id" "_info" "_status").

Definition normalized_of (w : World) : DataFrame :=
  returned (normalize_coordinates (joined_of w)).

Definition snapshot_of (w : World) : DataFrame :=
  returned (fst (get_combined_station_data decimal init w)).

Definition after_snapshot (w : World) : World :=
  snd (get_combined_station_data decimal init w).

(** The row of station 42 in the snapshot of [world_live]. *)
Definition row_parc : row := hd [] (rows (snapshot_of world_live)).

End Examples.

(** ** Vocabulary of the further properties *)

Module EffectProps.

Import Pandas IO DataFetch Props.

Local Open Scope py_scope.

Definition is_get (e : event) : bool :=
  match e with HttpGet _ _ => true | _ => false end.

(** The GET requests of a trace, in order. *)
Definition gets (t : list event) : list event := filter is_get t.

(** An event that is no request. *)
Definition quiet (e : event) : Prop := is_get e = false.

(** An event that is no write of a merged snapshot. *)
Definition no_csv (e : event) : Prop :=
  match e with WriteCsv _ _ => False | _ => True end.

(** The events a fetcher is entitled to: a GET under its base URL with
    timeout 10, a file under its data directory, a printed line. *)
Definition local_event (self : BIXIDataFetcher) (e : event) : Prop :=
  match e with
  | HttpGet u t => t = 10%nat /\ prefix (base_url self) u = true
  | WriteJson p _ | WriteCsv p _ => prefix (data_dir self ++ "/") p = true
  | Print _ => True
  end.

(** A computation that leaves network, clock and disk as they are, reads
    the clock forwards, and only appends events that satisfy [P]. *)
Definition emits {A : Type} (P : event -> Prop) (m : M A) : Prop :=
  forall w o w', m w = (o, w') ->
    network w' = network w /\ clock w' = clock w /\ disk w' = disk w /\
    (ticks w <= ticks w')%nat /\
    exists new, trace w' = trace w ++ new /\ Forall P new.

(** The number of station entries of a payload of GBFS shape: an object
    whose [data], if there, is an object whose [stations], if there, is a
    list. *)
Definition station_count (data : value) : option nat :=
  match data with
  | VDict d =>
      match dict_get d "data" with
      | None => Some 0%nat
      | Some (VDict d') =>
          match dict_get d' "stations" with
          | None => Some 0%nat
          | Some (VList l) => Some (List.length l)
          | Some _ => None
          end
      | Some _ => None
      end
  | _ => None
  end.

(** A payload on which [data.get('data', {}).get('stations', [])] has no
    [get] to call: not an object, or an object whose [data] is none. *)
Definition no_get (data : value) : Prop :=
  match data with
  | VDict d =>
      match dict_get d "data" with
      | None | Some (VDict _) => False
      | Some _ => True
      end
  | _ => True
  end.

(** The server answers in time with a status that [raise_for_status]
    lets through. *)
Definition answers (o : http_outcome) (content : body) : Prop :=
  exists wait status reason,
    o = Responds wait status reason content /\
    (wait <= 10)%nat /\ (status < 400 \/ 600 <= status)%nat.

(** The file of the raw feed written from the world [w]. *)
Definition json_path (self : BIXIDataFetcher) (feed_name : string) (w : World) : string :=
  path_join (data_dir self) (feed_name ++ "_" ++ clock w (ticks w) ++ ".json").

Definition tick (w : World) : World :=
  mkWorld (network w) (clock w) (S (ticks w)) (disk w) (trace w).

(** *** The parts of the methods *)

(** What remains of [fetch_feed] once the response is there. *)
Definition after_response (self : BIXIDataFetcher) (feed_name : string)
    (response : Response) : M value :=
  raise_for_status response ;;
  data <- response_json response ;;
  timestamp <- now_strftime ;;
  let filename :=
    path_join (data_dir self) (feed_name ++ "_" ++ timestamp ++ ".json")%string in
  json_dump filename data ;;
  d <- lift (Py.get data "data" (VDict [])) ;;
  stations <- lift (Py.get d "stations" (VList [])) ;;
  n <- lift (Py.len stations) ;;
  print ("✓ Fetched " ++ feed_name ++ " - " ++ str_of_nat n ++ " stations") ;;
  ret data.

Definition on_request_error (feed_name : string) (e : string) : M value :=
  print ("✗ Error fetching " ++ feed_name ++ ": " ++ e) ;;
  ret VNone.

(** What [get_combined_station_data] does with the two fetched tables. *)
Definition finish_combined (str_to_num : string -> option num)
    (self : BIXIDataFetcher) (info_df status_df : DataFrame) : M DataFrame :=
  if empty info_df || empty status_df then
    print "⚠ Warning: Missing station data" ;;
    ret empty_frame
  else
    combined <- lift (merge info_df status_df "station_id" "_info" "_status") ;;
    combined <- lift (normalize_coordinates combined) ;;
    combined <- lift (availability_metrics str_to_num combined) ;;
    timestamp <- now_strftime ;;
    let csv_path :=
      path_join (data_dir self) ("combined_stations_" ++ timestamp ++ ".csv")%string in
    to_csv combined csv_path ;;
    print ("✓ Saved combined data to " ++ csv_path) ;;
    ret combined.

End EffectProps.

Module TableProps.

Import Pandas IO DataFetch Props.

(** The labels that normalisation and the metrics block assign to. *)
Definition computed_label (c : string) : bool :=
  mem c ["lon"; "lat"; "num_bikes_available"; "num_docks_available";
         "total_capacity"; "utilization_rate"].

End TableProps.

(** ** The script at the end of [data_fetch.py] *)

Module Script.

Import Pandas IO DataFetch.

Local Open Scope py_scope.

(** The line feed of [\n]. *)
Definition nl : string := String "010"%char EmptyString.

(** [df.head(n)] *)
Definition head (n : nat) (df : DataFrame) : DataFrame :=
  mkDataFrame (columns df) (firstn n (rows df)).

Section WithPandas.

Variable str_to_num : string -> option num.

(** The wording of the [KeyError] of a selection (from the labels asked
    for and the ones not found) and the text a table prints as are pandas'
    own; the model takes them as given. *)
Variable not_found_message : list string -> list string -> string.
Variable to_string : DataFrame -> string.

(** [df[labels]] for a list of labels: the columns under each label in
    turn, or a [KeyError] if some label is no column. *)
Definition df_select (df : DataFrame) (labels : list string) : outcome DataFrame :=
  match filter (fun c => negb (mem c (columns df))) labels with
  | [] =>
      Return
        (mkDataFrame
           (flat_map (fun c => filter (String.eqb c) (columns df)) labels)
           (map (fun r =>
                   flat_map (fun c => filter (fun kv => String.eqb c (fst kv)) r) labels)
                (rows df)))
  | missing => Raise (KeyError (not_found_message labels missing))
  end.

Definition main : M unit :=
  let fetcher := init in
  print "Fetching BIXI data..." ;;
  combined_data <- get_combined_station_data str_to_num fetcher ;;
  if negb (empty combined_data) then
    print (nl ++ "✓ Successfully fetched "
              ++ str_of_nat (List.length (rows combined_data)) ++ " stations") ;;
    print (nl ++ "Sample data:") ;;
    sample <- lift (df_select combined_data
                      ["station_id"; "name"; "num_bikes_available";
                       "num_docks_available"; "utilization_rate"]) ;;
    print (to_string (head 5 sample))
  else
    print "✗ Failed to fetch data".

End WithPandas.

End Script.

(** ** More sample worlds *)

Module MoreExamples.

Import Pandas IO DataFetch Props Examples EffectProps Script.

(** The disk refuses the raw feeds. *)
Definition disk_refusing_json (path : string) : option string :=
  if prefix "data/station_" path
  then Some "[Errno 13] Permission denied"
  else None.

Definition world_read_only : World :=
  mkWorld (serve information_feed status_feed) timestamp 0 disk_refusing_json [].

(** The information feed is an object whose [data] is null. *)
Definition world_null_data : World :=
  mkWorld (serve (VDict [("data", VNone)]) status_feed) timestamp 0 (fun _ => None) [].

(** The server answers with a page that is no JSON. *)
Definition world_html : World :=
  mkWorld (fun _ => Responds 1 200 "OK" (NotJson "Expecting value: line 1 column 1 (char 0)"))
          timestamp 0 (fun _ => None) [].

(** The information feed is out of reach, the status feed answers. *)
Definition world_information_down : World :=
  mkWorld (fun url => if String.eqb url information_url
                      then Unreachable "Max retries exceeded"
                      else Responds 1 200 "OK" (Json status_feed))
          timestamp 0 (fun _ => None) [].

(** The information feed answers, the status feed answers 503. *)
Definition world_status_down : World :=
  mkWorld (fun url => if String.eqb url information_url
                      then Responds 1 200 "OK" (Json information_feed)
                      else Responds 1 503 "Service Unavailable" (Json VNone))
          timestamp 0 (fun _ => None) [].

(** Both feeds carry [name] and [num_bikes_available]. *)
Definition information_feed_with_bikes : value :=
  feed [VDict [("station_id", VStr "42"); ("name", VStr "Parc");
               ("num_bikes_available", VNum (Int 3))]].

Definition status_feed_with_name : value :=
  feed [VDict [("station_id", VStr "42"); ("name", VStr "Parc (status)");
               ("num_bikes_available", VNum (Int 4));
               ("num_docks_available", VNum (Int 6))]].

Definition world_overlap : World :=
  mkWorld (serve information_feed_with_bikes status_feed_with_name) timestamp 0
          (fun _ => None) [].

(** A station that is full, and one that is empty. *)
Definition status_feed_extremes : value :=
  feed [VDict [("station_id", VStr "42"); ("num_bikes_available", VNum (Int 10));
               ("num_docks_available", VNum (Int 0))];
        VDict [("station_id", VStr "8"); ("num_bikes_available", VNum (Int 0));
               ("num_docks_available", VNum (Int 12))]].

Definition world_extremes : World :=
  mkWorld (serve information_feed status_feed_extremes) timestamp 0 (fun _ => None) [].

(** A wording for the [KeyError] and a rendering of tables, standing for
    pandas' own. *)
Definition plain_message (labels missing : list string) : string :=
  String.concat ", " missing ++ " not in index".

Definition plain_text (df : DataFrame) : string :=
  String.concat " " (columns df) ++ " (" ++ str_of_nat (List.length (rows df)) ++ " rows)".

(** The world in which [main] calls the fetcher. *)
Definition announced (w : World) : World := log (Print "Fetching BIXI data...") w.

(** A server that answers every request with the system information. *)
Definition system_information_payload : value :=
  VDict [("last_updated", VNum (Int 1700000000));
         ("data", VDict [("system_id", VStr "bixi_montreal"); ("name", VStr "BIXI")])].

Definition world_system : World :=
  mkWorld (fun _ => Responds 2 200 "OK" (Json system_information_payload))
          timestamp 0 (fun _ => None) [].

(** The row of the full station 42 in the snapshot of [world_extremes]. *)
Definition row_full : row := hd [] (rows (snapshot_of world_extremes)).

End MoreExamples.

(** * Properties *)

(** ** Association lists, cells and columns *)

Module PandasFacts.

Import Pandas.

Lemma mem_In (c : string) (l : list string) : mem c l = true <-> In c l.
Proof.
  unfold mem. rewrite existsb_exists. split.
  - intros [x [Hin Heq]]. apply String.eqb_eq in Heq. now subst.
  - intro Hin. exists c. split; [assumption | apply String.eqb_refl].
Qed.

Lemma mem_app (c : string) (l1 l2 : list string) :
  mem c (l1 ++ l2) = mem c l1 || mem c l2.
Proof. unfold mem. apply existsb_app. Qed.

Lemma dict_get_app {A : Type} (d1 d2 : list (string * A)) (k : string) :
  dict_get (d1 ++ d2) k =
  match dict_get d1 k with Some v => Some v | None => dict_get d2 k end.
Proof.
  induction d1 as [|[k' v'] d1 IH]; simpl; [reflexivity|].
  destruct (String.eqb k' k); [reflexivity | apply IH].
Qed.

Lemma dict_get_In {A : Type} (d : list (string * A)) (k : string) (v : A) :
  dict_get d k = Some v -> In (k, v) d.
Proof.
  induction d as [|[k' v'] d IH]; simpl; [discriminate|].
  destruct (String.eqb k' k) eqn:E.
  - apply String.eqb_eq in E. intros [= ->]. left. now subst.
  - intro H. right. now apply IH.
Qed.

Lemma dict_get_keys {A : Type} (d : list (string * A)) (k : string) :
  dict_has d k = mem k (map fst d).
Proof.
  unfold dict_has. induction d as [|[k' v'] d IH]; simpl; [reflexivity|].
  rewrite (String.eqb_sym k k'). destruct (String.eqb k' k); [reflexivity | apply IH].
Qed.

Lemma dict_get_row_set_same (r : row) (c : string) (v : value) :
  dict_get (row_set r c v) c = Some v.
Proof.
  unfold row_set. destruct (dict_has r c) eqn:Hhas.
  - unfold dict_has in Hhas.
    induction r as [|[k x] r IH]; simpl in *; [discriminate|].
    destruct (String.eqb k c) eqn:E; simpl.
    + now rewrite String.eqb_refl.
    + rewrite E. now apply IH.
  - rewrite dict_get_app. unfold dict_has in Hhas.
    destruct (dict_get r c); [discriminate|].
    simpl. now rewrite String.eqb_refl.
Qed.

Lemma dict_get_row_set_other (r : row) (c c' : string) (v : value) :
  c' <> c -> dict_get (row_set r c v) c' = dict_get r c'.
Proof.
  intro Hne. unfold row_set. destruct (dict_has r c).
  - induction r as [|[k x] r IH]; simpl; [reflexivity|].
    destruct (String.eqb k c) eqn:E; simpl.
    + apply String.eqb_eq in E. subst k.
      assert (String.eqb c c' = false) as -> by (apply String.eqb_neq; congruence).
      apply IH.
    + destruct (String.eqb k c'); [reflexivity | apply IH].
  - rewrite dict_get_app. destruct (dict_get r c'); [reflexivity|].
    simpl. assert (String.eqb c c' = false) as -> by (apply String.eqb_neq; congruence).
    reflexivity.
Qed.

Lemma cell_row_set_same (r : row) (c : string) (v : value) :
  cell (row_set r c v) c = v.
Proof. unfold cell. now rewrite dict_get_row_set_same. Qed.

Lemma cell_row_set_other (r : row) (c c' : string) (v : value) :
  c' <> c -> cell (row_set r c v) c' = cell r c'.
Proof. intro H. unfold cell. now rewrite dict_get_row_set_other. Qed.

Lemma row_set_keys (r : row) (c : string) (v : value) :
  map fst (row_set r c v) =
  if mem c (map fst r) then map fst r else map fst r ++ [c].
Proof.
  unfold row_set. rewrite dict_get_keys. destruct (mem c (map fst r)).
  - rewrite map_map. apply map_ext_in. intros [k x] _. simpl.
    destruct (String.eqb k c) eqn:E; [|reflexivity].
    apply String.eqb_eq in E. now subst.
  - now rewrite map_app.
Qed.

(** *** [mapM] *)

Lemma mapM_Forall2 {A B : Type} (f : A -> outcome B) (l : list A) (bs : list B) :
  mapM f l = Return bs -> Forall2 (fun a b => f a = Return b) l bs.
Proof.
  revert bs. induction l as [|a l IH]; simpl; intros bs H.
  - injection H as <-. constructor.
  - destruct (f a) as [b|e] eqn:Ha; simpl in H; [|discriminate].
    destruct (mapM f l) as [bs'|e] eqn:Hl; simpl in H; [|discriminate].
    injection H as <-. constructor; [assumption | now apply IH].
Qed.

Lemma mapM_total {A B : Type} (f : A -> outcome B) (l : list A) :
  (forall a, In a l -> exists b, f a = Return b) ->
  exists bs, mapM f l = Return bs.
Proof.
  induction l as [|a l IH]; simpl; intro H.
  - now exists [].
  - destruct (H a (or_introl eq_refl)) as [b Hb].
    destruct IH as [bs Hbs]; [intros; apply H; now right|].
    exists (b :: bs). now rewrite Hb, Hbs.
Qed.

Lemma Forall2_map_l {A B C : Type} (g : A -> B) (P : B -> C -> Prop)
    (l : list A) (s : list C) :
  Forall2 P (map g l) s -> Forall2 (fun a c => P (g a) c) l s.
Proof.
  revert s. induction l as [|a l IH]; simpl; intros s H; inversion H; subst;
    constructor; auto.
Qed.

Lemma Forall2_map_r {A B C : Type} (h : B -> C) (P : A -> B -> Prop)
    (l : list A) (s : list B) :
  Forall2 P l s -> Forall2 (fun a c => exists b, P a b /\ c = h b) l (map h s).
Proof.
  induction 1; simpl; constructor; eauto.
Qed.

Lemma Forall2_combine {A B : Type} (P : A -> B -> Prop) (l : list A) (s : list B) :
  Forall2 P l s -> Forall2 (fun a ab => P a (snd ab) /\ fst ab = a) l (combine l s).
Proof.
  induction 1; simpl; constructor; auto.
Qed.

Lemma Forall2_trans {A B C : Type} (P : A -> B -> Prop) (Q : B -> C -> Prop)
    (l1 : list A) (l2 : list B) (l3 : list C) :
  Forall2 P l1 l2 -> Forall2 Q l2 l3 ->
  Forall2 (fun a c => exists b, P a b /\ Q b c) l1 l3.
Proof.
  intro H. revert l3. induction H; intros l3 H3; inversion H3; subst;
    constructor; eauto.
Qed.

Lemma Forall2_impl {A B : Type} (P Q : A -> B -> Prop) (l : list A) (s : list B) :
  (forall a b, P a b -> Q a b) -> Forall2 P l s -> Forall2 Q l s.
Proof. intros H F. induction F; constructor; auto. Qed.

Lemma Forall2_In_r {A B : Type} (P : A -> B -> Prop) (l : list A) (s : list B) (b : B) :
  Forall2 P l s -> In b s -> exists a, In a l /\ P a b.
Proof.
  induction 1; simpl; intros Hin; [contradiction|].
  destruct Hin as [<-|Hin]; [eauto|].
  destruct (IHForall2 Hin) as [a [Ha HP]]. eauto.
Qed.

Lemma Forall2_In_l {A B : Type} (P : A -> B -> Prop) (l : list A) (s : list B) (a : A) :
  Forall2 P l s -> In a l -> exists b, In b s /\ P a b.
Proof.
  induction 1; simpl; intros Hin; [contradiction|].
  destruct Hin as [<-|Hin]; [eauto|].
  destruct (IHForall2 Hin) as [b [Hb HP]]. eauto.
Qed.

(** *** Column assignment, row by row *)

Lemma df_setitem_rows (P : row -> value -> Prop) (df : DataFrame) (c : string)
    (series : list value) :
  Forall2 P (rows df) series ->
  Forall2 (fun r r' => exists v, P r v /\ r' = row_set r c v)
          (rows df) (rows (df_setitem df c series)).
Proof.
  unfold df_setitem; simpl. induction 1; simpl; constructor; eauto.
Qed.

Lemma df_setitem_columns (df : DataFrame) (c c' : string) (series : list value) :
  mem c' (columns (df_setitem df c series)) = mem c' (columns df) || String.eqb c' c.
Proof.
  unfold df_setitem; simpl. destruct (mem c (columns df)) eqn:E.
  - destruct (String.eqb c' c) eqn:E'; [|now rewrite orb_false_r].
    apply String.eqb_eq in E'. subst. now rewrite E.
  - rewrite mem_app. simpl. now rewrite orb_false_r.
Qed.

Lemma df_getitem_Return (df : DataFrame) (c : string) :
  mem c (columns df) = true ->
  df_getitem df c = Return (map (fun r => cell r c) (rows df)).
Proof. unfold df_getitem. now intros ->. Qed.

End PandasFacts.

(** ** Coordinate normalisation *)

Module Normalisation.

Import Pandas PandasFacts DataFetch Props.

Lemma Forall2_map_self {A B : Type} (f : A -> B) (l : list A) :
  Forall2 (fun a b => b = f a) l (map f l).
Proof. induction l; simpl; constructor; auto. Qed.

Lemma Forall2_refl {A : Type} (P : A -> A -> Prop) (l : list A) :
  (forall a, P a a) -> Forall2 P l l.
Proof. intro H. induction l; constructor; auto. Qed.

(** Copying column [alt] into column [canon]. *)
Lemma copy_column_rows (df : DataFrame) (canon alt : string) :
  Forall2 (fun r r' => r' = row_set r canon (cell r alt))
    (rows df)
    (rows (df_setitem df canon (map (fun r => cell r alt) (rows df)))).
Proof.
  eapply Forall2_impl;
    [| apply (df_setitem_rows (fun r v => v = cell r alt)), Forall2_map_self].
  intros r r' [v [-> ->]]. reflexivity.
Qed.

Lemma normalize_coordinates_eq (df : DataFrame) :
  normalize_coordinates df =
  Return (copy_if_absent "lat" "latitude" (copy_if_absent "lon" "longitude" df)).
Proof.
  assert (step : forall canon alt d,
    (if negb (mem canon (columns d)) && mem alt (columns d)
     then obind (df_getitem d alt) (fun s => Return (df_setitem d canon s))
     else Return d) = Return (copy_if_absent canon alt d)).
  { intros canon alt d. unfold copy_if_absent.
    destruct (mem canon (columns d)); cbn [negb andb]; [reflexivity|].
    destruct (mem alt (columns d)) eqn:Halt; [|reflexivity].
    now rewrite (df_getitem_Return _ _ Halt). }
  unfold normalize_coordinates. rewrite step. cbn [obind]. apply step.
Qed.

Lemma copy_if_absent_columns (canon alt c : string) (df : DataFrame) :
  mem c (columns (copy_if_absent canon alt df)) =
  mem c (columns df)
  || (String.eqb c canon && negb (mem canon (columns df)) && mem alt (columns df)).
Proof.
  unfold copy_if_absent.
  destruct (mem canon (columns df)) eqn:Hc; cbn [negb andb].
  - now rewrite andb_false_r, orb_false_r.
  - destruct (mem alt (columns df)).
    + rewrite df_setitem_columns. now rewrite !andb_true_r.
    + now rewrite andb_false_r, orb_false_r.
Qed.

Lemma copy_if_absent_other (canon alt c : string) (df : DataFrame) :
  c <> canon ->
  Forall2 (fun r r' => dict_get r' c = dict_get r c)
    (rows df) (rows (copy_if_absent canon alt df)).
Proof.
  intro Hne. unfold copy_if_absent.
  destruct (negb (mem canon (columns df)) && mem alt (columns df)).
  - eapply Forall2_impl; [| apply copy_column_rows].
    intros r r' ->. now apply dict_get_row_set_other.
  - apply Forall2_refl. reflexivity.
Qed.

Lemma copy_if_absent_spec (canon alt : string) (df : DataFrame) :
  canonical_after canon alt df (copy_if_absent canon alt df).
Proof.
  unfold canonical_after, copy_if_absent.
  destruct (mem canon (columns df)) eqn:Hc; cbn [negb andb].
  - split; [assumption | apply Forall2_refl; reflexivity].
  - destruct (mem alt (columns df)) eqn:Ha.
    + split.
      * rewrite df_setitem_columns, String.eqb_refl. apply orb_true_r.
      * eapply Forall2_impl; [| apply copy_column_rows].
        intros r r' ->. apply cell_row_set_same.
    + assumption.
Qed.

Lemma copy_if_absent_idem (canon alt : string) (df : DataFrame) :
  copy_if_absent canon alt (copy_if_absent canon alt df) = copy_if_absent canon alt df.
Proof.
  unfold copy_if_absent at 1.
  rewrite !copy_if_absent_columns, String.eqb_refl.
  destruct (mem canon (columns df)); cbn [negb andb orb]; [reflexivity|].
  destruct (mem alt (columns df)); cbn [negb andb orb]; [reflexivity|].
  assert (String.eqb alt canon && true && false = false) as ->
    by now rewrite andb_false_r.
  reflexivity.
Qed.

Lemma copy_if_absent_noop (canon alt : string) (df : DataFrame) :
  negb (mem canon (columns df)) && mem alt (columns df) = false ->
  copy_if_absent canon alt df = df.
Proof. unfold copy_if_absent. now intros ->. Qed.

Lemma cell_of_dict_get (r r' : row) (c : string) :
  dict_get r' c = dict_get r c -> cell r' c = cell r c.
Proof. unfold cell. now intros ->. Qed.

(** C8. For every table, coordinate normalisation returns a table in which
    each canonical field ([lon], [lat]) is untouched if the input had it, is
    a copy of the alternate field ([longitude], [latitude]) if the input had
    only that one, and is absent if the input had neither; and normalising
    the result again gives the result back. *)
Theorem normalize_coordinates_canonical_idempotent (df : DataFrame) :
  exists df',
    normalize_coordinates df = Return df' /\
    canonical_after "lon" "longitude" df df' /\
    canonical_after "lat" "latitude" df df' /\
    normalize_coordinates df' = Return df'.
Proof.
  set (df1 := copy_if_absent "lon" "longitude" df).
  set (df2 := copy_if_absent "lat" "latitude" df1).
  exists df2. split; [apply normalize_coordinates_eq|].
  assert (Hlon : forall c, mem c (columns df1) =
            mem c (columns df)
            || (String.eqb c "lon" && negb (mem "lon" (columns df))
                && mem "longitude" (columns df)))
    by (intro c; apply copy_if_absent_columns).
  assert (Hlat : forall c, mem c (columns df2) =
            mem c (columns df1)
            || (String.eqb c "lat" && negb (mem "lat" (columns df1))
                && mem "latitude" (columns df1)))
    by (intro c; apply copy_if_absent_columns).
  split; [|split].
  - (* lon: settled by the first assignment, kept by the second *)
    pose proof (copy_if_absent_spec "lon" "longitude" df) as S1. fold df1 in S1.
    assert (K : Forall2 (fun r r' => dict_get r' "lon" = dict_get r "lon")
                  (rows df1) (rows df2))
      by (apply copy_if_absent_other; discriminate).
    unfold canonical_after in *. rewrite (Hlat "lon").
    change (String.eqb "lon" "lat") with false. cbn [andb]. rewrite orb_false_r.
    destruct (mem "lon" (columns df)).
    + destruct S1 as [S1c S1r]. split; [assumption|].
      eapply Forall2_impl; [| apply (Forall2_trans _ _ _ _ _ S1r K)].
      intros r r' [r1 [E1 E2]]. congruence.
    + destruct (mem "longitude" (columns df)); [|assumption].
      destruct S1 as [S1c S1r]. split; [assumption|].
      eapply Forall2_impl; [| apply (Forall2_trans _ _ _ _ _ S1r K)].
      intros r r' [r1 [E1 E2]]. rewrite <- E1. now apply cell_of_dict_get.
  - (* lat: the first assignment leaves lat and latitude as they were *)
    pose proof (copy_if_absent_spec "lat" "latitude" df1) as S2. fold df2 in S2.
    assert (K1 : Forall2 (fun r r' => dict_get r' "lat" = dict_get r "lat")
                   (rows df) (rows df1))
      by (apply copy_if_absent_other; discriminate).
    assert (K2 : Forall2 (fun r r' => dict_get r' "latitude" = dict_get r "latitude")
                   (rows df) (rows df1))
      by (apply copy_if_absent_other; discriminate).
    unfold canonical_after in *.
    rewrite (Hlon "lat"), (Hlon "latitude") in S2.
    change (String.eqb "lat" "lon") with false in S2.
    change (String.eqb "latitude" "lon") with false in S2.
    cbn [andb] in S2. rewrite !orb_false_r in S2.
    destruct (mem "lat" (columns df)).
    + destruct S2 as [S2c S2r]. split; [assumption|].
      eapply Forall2_impl; [| apply (Forall2_trans _ _ _ _ _ K1 S2r)].
      intros r r' [r1 [E1 E2]]. congruence.
    + destruct (mem "latitude" (columns df)); [|assumption].
      destruct S2 as [S2c S2r]. split; [assumption|].
      assert (K2' : Forall2 (fun r r' => cell r' "latitude" = cell r "latitude")
                      (rows df) (rows df1))
        by (eapply Forall2_impl; [| apply K2]; intros; now apply cell_of_dict_get).
      eapply Forall2_impl; [| apply (Forall2_trans _ _ _ _ _ K2' S2r)].
      intros r r' [r1 [E1 E2]]. congruence.
  - (* idempotence: after one pass neither guard holds any more *)
    rewrite normalize_coordinates_eq. f_equal.
    assert (N1 : copy_if_absent "lon" "longitude" df2 = df2).
    { apply copy_if_absent_noop.
      rewrite (Hlat "lon"), (Hlat "longitude"), (Hlon "lon"), (Hlon "longitude").
      change (String.eqb "lon" "lat") with false.
      change (String.eqb "longitude" "lat") with false.
      change (String.eqb "longitude" "lon") with false.
      change (String.eqb "lon" "lon") with true.
      cbn [andb]. rewrite !orb_false_r.
      destruct (mem "lon" (columns df)), (mem "longitude" (columns df)); reflexivity. }
    rewrite N1. apply copy_if_absent_idem.
Qed.

End Normalisation.

(** ** Availability metrics *)

Module Numbers.

Import Pandas Props.

Ltac powers :=
  change (2 ^ 63)%Z with 9223372036854775808%Z in *;
  change (2 ^ 64)%Z with 18446744073709551616%Z in *.

Lemma in_int64_range (z : Z) :
  in_int64 z = true <-> (- 2 ^ 63 <= z < 2 ^ 63)%Z.
Proof. unfold in_int64. rewrite andb_true_iff, Z.leb_le, Z.ltb_lt. tauto. Qed.

Lemma in_uint64_range (z : Z) :
  in_uint64 z = true <-> (0 <= z < 2 ^ 64)%Z.
Proof. unfold in_uint64. rewrite andb_true_iff, Z.leb_le, Z.ltb_lt. tauto. Qed.

(** Within 64 bits nothing wraps. *)
Lemma wrap_int64_exact (z : Z) : in_int64 z = true -> wrap_int64 z = z.
Proof.
  intro H. apply in_int64_range in H. unfold wrap_int64. powers.
  rewrite Z.mod_small; lia.
Qed.

Lemma wrap_uint64_exact (z : Z) : in_uint64 z = true -> wrap_uint64 z = z.
Proof.
  intro H. apply in_uint64_range in H. unfold wrap_uint64. powers.
  apply Z.mod_small. lia.
Qed.

(** The sum of two non-negative int64 that passes [2^63] wraps to a
    negative number. *)
Lemma wrap_int64_negative (b d : Z) :
  (0 <= b < 2 ^ 63)%Z -> (0 <= d < 2 ^ 63)%Z -> (2 ^ 63 <= b + d)%Z ->
  (wrap_int64 (b + d) < 0)%Z.
Proof.
  intros Hb Hd Hs. unfold wrap_int64. powers.
  assert (E : ((b + d + 9223372036854775808) mod 18446744073709551616
               = b + d - 9223372036854775808)%Z).
  { symmetry. apply (Z.mod_unique _ _ 1); lia. }
  rewrite E. lia.
Qed.

Lemma float_overflow_above_1 : 1 < float_overflow.
Proof. unfold float_overflow, Qlt. simpl Qnum. simpl Qden. vm_compute. reflexivity. Qed.

Lemma float_of_Q_finite (q : Q) :
  - float_overflow < q < float_overflow -> float_of_Q q = Fin q.
Proof.
  intros [Hlo Hhi]. unfold float_of_Q.
  destruct (Qle_bool float_overflow q) eqn:E1.
  { apply Qle_bool_iff in E1. exfalso. apply (Qlt_irrefl q). now apply Qlt_le_trans with float_overflow. }
  destruct (Qle_bool q (- float_overflow)) eqn:E2; [|reflexivity].
  apply Qle_bool_iff in E2. exfalso. apply (Qlt_irrefl q).
  now apply Qle_lt_trans with (- float_overflow).
Qed.

Lemma float_of_Q_unit (q : Q) : 0 <= q -> q <= 1 -> float_of_Q q = Fin q.
Proof.
  intros H0 H1. apply float_of_Q_finite. pose proof float_overflow_above_1 as H.
  split.
  - apply Qlt_le_trans with 0; [|assumption].
    apply Qlt_trans with (-(1)); [|reflexivity].
    now apply Qopp_lt_compat.
  - now apply Qle_lt_trans with 1.
Qed.

(** A sum that passes the largest float is infinite. *)
Lemma float_of_Q_infinite (q : Q) : float_overflow <= q -> float_of_Q q = PInf.
Proof. intro H. unfold float_of_Q. apply Qle_bool_iff in H. now rewrite H. Qed.

Lemma zero_if_nan_to_float (x : num) :
  zero_if_nan (to_float x) = to_float (zero_if_nan x).
Proof. destruct x; reflexivity. Qed.

Lemma zero_if_nan_not_nan (x : num) : is_nan (zero_if_nan x) = false.
Proof. now destruct x. Qed.

Lemma to_float_not_nan (x : num) : is_nan x = false -> is_nan (to_float x) = false.
Proof. now destruct x. Qed.

End Numbers.

(** ** The availability metrics *)

Module Metrics.

Import Pandas PandasFacts DataFetch Props Numbers.

Section WithParser.

Variable str_to_num : string -> option num.

Lemma to_numeric_coerce_num (v x : value) :
  to_numeric_coerce str_to_num v = Return x -> exists n, x = VNum n.
Proof.
  destruct v; simpl; intros [= <-]; eauto.
Qed.

Lemma coerced_is_count_value (v : value) (x : num) :
  to_numeric_coerce str_to_num v = Return (VNum x) ->
  zero_if_nan x = count_value str_to_num v.
Proof.
  destruct v; simpl; try discriminate; intros [= <-]; try reflexivity.
  now destruct (str_to_num s).
Qed.

Lemma count_value_not_nan (v : value) :
  is_nan (count_value str_to_num v) = false.
Proof.
  destruct v as [| |x|s| |]; simpl; try reflexivity.
  - now destruct x.
  - destruct (str_to_num s) as [x|]; [now destruct x | reflexivity].
Qed.

Lemma same_number_not_nan (x y : num) :
  same_number x y -> is_nan y = false -> is_nan x = false.
Proof. intros [-> | ->] H; [assumption | now apply to_float_not_nan]. Qed.

Lemma fillna0_num (n : num) :
  (if is_null (VNum n) then VNum (Fin 0) else VNum n) = VNum (zero_if_nan n).
Proof. destruct n; reflexivity. Qed.

Lemma combine_map_map {A B C : Type} (f : A -> B) (g : A -> C) (l : list A) :
  combine (map f l) (map g l) = map (fun a => (f a, g a)) l.
Proof. induction l; simpl; congruence. Qed.

(** What [to_numeric] makes of each cell: the number read, or its float. *)
Lemma to_numeric_cells (series out : list value) :
  to_numeric str_to_num series = Return out ->
  Forall2
    (fun v x => exists y,
         to_numeric_coerce str_to_num v = Return (VNum y) /\
         (x = VNum y \/ x = VNum (to_float y)))
    series out.
Proof.
  unfold to_numeric.
  destruct (mapM (to_numeric_coerce str_to_num) series) as [cells|] eqn:E;
    [|discriminate].
  cbn [obind]. apply mapM_Forall2 in E.
  assert (F : Forall2 (fun v c => exists y,
                         to_numeric_coerce str_to_num v = Return (VNum y) /\ c = VNum y)
                series cells).
  { eapply Forall2_impl; [| exact E]. intros v c Hc.
    destruct (to_numeric_coerce_num _ _ Hc) as [y ->]. eauto. }
  assert (Fl : Forall2 (fun v x => exists y,
                          to_numeric_coerce str_to_num v = Return (VNum y) /\
                          (x = VNum y \/ x = VNum (to_float y))) series cells).
  { eapply Forall2_impl; [| exact F]. intros v c [y [Hy ->]]. eauto. }
  destruct (forallb (has_dtype uint64) cells); [now intros [= <-]|].
  destruct (existsb is_uint cells); [discriminate|].
  destruct (negb (forallb (int_fits in_int64) cells)); [discriminate|].
  destruct (forallb is_int cells); intros [= <-]; [exact Fl|].
  eapply Forall2_impl; [| apply (Forall2_map_r as_float _ _ _ F)].
  intros v x [c [[y [Hy ->]] ->]]. exists y. split; [exact Hy | now right].
Qed.

(** One coerced column, row by row. *)
Lemma coerce_column_rows (df : DataFrame) (c : string) (series : list value) :
  to_numeric str_to_num (map (fun r => cell r c) (rows df)) = Return series ->
  Forall2
    (fun r r' => exists b,
         same_number b (count_value str_to_num (cell r c)) /\
         r' = row_set r c (VNum b))
    (rows df) (rows (df_setitem df c (fillna0 series))).
Proof.
  intro H. apply to_numeric_cells, Forall2_map_l in H.
  apply (Forall2_map_r (fun v => if is_null v then VNum (Fin 0) else v)) in H.
  eapply Forall2_impl; [| apply (df_setitem_rows _ _ _ _ H)].
  intros r r' [v [[x [[y [Hy Hx]] ->]] ->]].
  destruct Hx as [-> | ->]; rewrite fillna0_num.
  - exists (zero_if_nan y). split; [|reflexivity].
    left. apply (coerced_is_count_value _ _ Hy).
  - exists (zero_if_nan (to_float y)). split; [|reflexivity].
    right. now rewrite zero_if_nan_to_float, (coerced_is_count_value _ _ Hy).
Qed.

Lemma utilization_derived (r : row) (b t : num) :
  dict_get r "num_bikes_available" = Some (VNum b) ->
  dict_get r "total_capacity" = Some (VNum t) ->
  utilization r = Return (VNum (rate b t)).
Proof.
  intros Hb Ht. unfold utilization, row_getitem, rate. rewrite Ht. cbn [obind gt0].
  destruct (num_gt0 t); [|reflexivity].
  rewrite Hb. reflexivity.
Qed.

Lemma series_add_cells (a b ts : list value) :
  series_add a b = Return ts ->
  mapM (fun xy => add (fst xy) (snd xy)) (combine a b) = Return ts.
Proof.
  unfold series_add. destruct (dtype_of a); [|discriminate].
  now destruct (dtype_of b).
Qed.

Lemma availability_metrics_rows (df df' : DataFrame) :
  mem "num_bikes_available" (columns df) && mem "num_docks_available" (columns df) = true ->
  availability_metrics str_to_num df = Return df' ->
  Forall2 (derived str_to_num) (rows df) (rows df').
Proof.
  intros Hcols H. unfold availability_metrics in H. rewrite Hcols in H.
  apply andb_prop in Hcols. destruct Hcols as [Hb Hd].
  rewrite (df_getitem_Return _ _ Hb) in H. cbn [obind] in H.
  destruct (to_numeric str_to_num _) as [bs|] eqn:Ebs in H; [|discriminate].
  cbn [obind] in H.
  set (df1 := df_setitem df "num_bikes_available" (fillna0 bs)) in *.
  assert (Hd1 : mem "num_docks_available" (columns df1) = true)
    by (unfold df1; rewrite df_setitem_columns, Hd; reflexivity).
  assert (Hb1 : mem "num_bikes_available" (columns df1) = true)
    by (unfold df1; rewrite df_setitem_columns, Hb; reflexivity).
  rewrite (df_getitem_Return _ _ Hd1) in H. cbn [obind] in H.
  destruct (to_numeric str_to_num _) as [ds|] eqn:Eds in H; [|discriminate].
  cbn [obind] in H.
  set (df2 := df_setitem df1 "num_docks_available" (fillna0 ds)) in *.
  assert (Hd2 : mem "num_docks_available" (columns df2) = true)
    by (unfold df2; rewrite df_setitem_columns, Hd1; reflexivity).
  assert (Hb2 : mem "num_bikes_available" (columns df2) = true)
    by (unfold df2; rewrite df_setitem_columns, Hb1; reflexivity).
  rewrite (df_getitem_Return _ _ Hb2), (df_getitem_Return _ _ Hd2) in H.
  cbn [obind] in H.
  destruct (series_add _ _) as [ts|] eqn:Ets in H; [|discriminate].
  cbn [obind] in H.
  set (df3 := df_setitem df2 "total_capacity" ts) in *.
  destruct (apply_rows utilization df3) as [us|] eqn:Eus in H; [|discriminate].
  cbn [obind] in H. injection H as <-.
  (* the four assignments, each as a relation between rows *)
  pose proof (coerce_column_rows df _ _ Ebs) as F1. fold df1 in F1.
  pose proof (coerce_column_rows df1 _ _ Eds) as F2. fold df2 in F2.
  apply series_add_cells in Ets. rewrite combine_map_map in Ets.
  apply mapM_Forall2, Forall2_map_l in Ets. cbn [fst snd] in Ets.
  pose proof (df_setitem_rows _ df2 "total_capacity" _ Ets) as F3. fold df3 in F3.
  unfold apply_rows in Eus. apply mapM_Forall2 in Eus.
  pose proof (df_setitem_rows _ df3 "utilization_rate" _ Eus) as F4.
  pose proof (Forall2_trans _ _ _ _ _ (Forall2_trans _ _ _ _ _
                (Forall2_trans _ _ _ _ _ F1 F2) F3) F4) as F.
  eapply Forall2_impl; [| exact F].
  clear. intros r r4 [r3 [[r2 [[r1 [S1 S2]] S3]] S4]].
  destruct S1 as [b [Cb ->]]. destruct S2 as [d [Cd ->]].
  destruct S3 as [t [At ->]]. destruct S4 as [u [Uu ->]].
  rewrite cell_row_set_other in Cd by discriminate.
  rewrite cell_row_set_other, cell_row_set_same, cell_row_set_same in At
    by discriminate.
  cbn [add] in At. injection At as <-.
  rewrite (utilization_derived _ b (num_add b d)) in Uu.
  - injection Uu as <-. exists b, d. auto.
  - rewrite !dict_get_row_set_other by discriminate.
    apply dict_get_row_set_same.
  - apply dict_get_row_set_same.
Qed.

Lemma availability_metrics_skip (df : DataFrame) :
  mem "num_bikes_available" (columns df) && mem "num_docks_available" (columns df) = false ->
  availability_metrics str_to_num df = Return df.
Proof. unfold availability_metrics. now intros ->. Qed.

Lemma availability_metrics_columns (df df' : DataFrame) (c : string) :
  mem "num_bikes_available" (columns df) && mem "num_docks_available" (columns df) = true ->
  availability_metrics str_to_num df = Return df' ->
  mem c (columns df') =
  mem c (columns df) || String.eqb c "total_capacity" || String.eqb c "utilization_rate".
Proof.
  intros Hcols H. unfold availability_metrics in H. rewrite Hcols in H.
  apply andb_prop in Hcols. destruct Hcols as [Hb Hd].
  destruct (df_getitem df _) as [s1|]; [|discriminate]. cbn [obind] in H.
  destruct (to_numeric str_to_num s1) as [bs|]; [|discriminate]. cbn [obind] in H.
  destruct (df_getitem _ "num_docks_available") as [s2|]; [|discriminate].
  cbn [obind] in H.
  destruct (to_numeric str_to_num s2) as [ds|]; [|discriminate]. cbn [obind] in H.
  destruct (df_getitem _ "num_bikes_available") as [s3|]; [|discriminate].
  cbn [obind] in H.
  destruct (df_getitem _ "num_docks_available") as [s4|]; [|discriminate].
  cbn [obind] in H.
  destruct (series_add s3 s4) as [ts|]; [|discriminate]. cbn [obind] in H.
  destruct (apply_rows utilization _) as [us|]; [|discriminate]. cbn [obind] in H.
  injection H as <-. rewrite !df_setitem_columns.
  destruct (String.eqb c "num_bikes_available") eqn:E1.
  { apply String.eqb_eq in E1. subst c. rewrite Hb. reflexivity. }
  destruct (String.eqb c "num_docks_available") eqn:E2.
  { apply String.eqb_eq in E2. subst c. rewrite Hd. reflexivity. }
  now rewrite !orb_false_r.
Qed.

(** *** When the metrics are computed *)

(** A count the model reads is read as a number that is no uint64 and,
    when an integer, has 64 bits. *)
Lemma count_modelled_coerced (v : value) :
  count_modelled str_to_num v ->
  exists y,
    to_numeric_coerce str_to_num v = Return (VNum y) /\
    is_uint (VNum y) = false /\ int_fits in_int64 (VNum y) = true.
Proof.
  destruct v as [| |x|s| |]; simpl; try contradiction; eauto.
  - destruct x; try contradiction; eauto.
  - destruct (str_to_num s) as [[]|]; try contradiction; eauto.
Qed.

Lemma has_dtype_filled (t : dtype) (v : value) :
  has_dtype t v = true ->
  has_dtype t (if is_null v then VNum (Fin 0) else v) = true.
Proof. destruct t, v as [| |[]| | |]; simpl; auto. Qed.

Lemma has_dtype_num (t : dtype) (v : value) :
  has_dtype t v = true -> exists x, v = VNum x.
Proof. destruct t, v as [| |x| | |]; simpl; try discriminate; eauto. Qed.

Lemma dtype_of_typed (t : dtype) (series : list value) :
  forallb (has_dtype t) series = true -> exists t', dtype_of series = Some t'.
Proof.
  intro H. unfold dtype_of.
  destruct (forallb (has_dtype int64) series) eqn:E1; [eauto|].
  destruct (forallb (has_dtype uint64) series) eqn:E2; [eauto|].
  destruct (forallb (has_dtype float64) series) eqn:E3; [eauto|].
  destruct t; congruence.
Qed.

(** On counts the model reads, [to_numeric] returns a column of one dtype,
    as long as the column it was given. *)
Lemma to_numeric_total (series : list value) :
  (forall v, In v series -> count_modelled str_to_num v) ->
  exists out t,
    to_numeric str_to_num series = Return out /\
    forallb (has_dtype t) (fillna0 out) = true /\
    List.length out = List.length series.
Proof.
  intro Hm.
  destruct (mapM_total (to_numeric_coerce str_to_num) series) as [cells E].
  { intros v Hv. destruct (count_modelled_coerced v (Hm v Hv)) as [y [Hy _]]. eauto. }
  pose proof (mapM_Forall2 _ _ _ E) as F.
  assert (Q : forall c, In c cells ->
                exists y, c = VNum y /\ is_uint c = false /\ int_fits in_int64 c = true).
  { intros c Hc. destruct (Forall2_In_r _ _ _ _ F Hc) as [v [Hv Hvc]].
    destruct (count_modelled_coerced v (Hm v Hv)) as [y [Hy [H1 H2]]].
    rewrite Hy in Hvc. injection Hvc as <-. eauto. }
  assert (L : List.length cells = List.length series)
    by (symmetry; apply (Forall2_length F)).
  assert (Filled : forall t s, forallb (has_dtype t) s = true ->
                     forallb (has_dtype t) (fillna0 s) = true).
  { intros t s H. unfold fillna0. rewrite forallb_forall in *.
    intros x Hx. apply in_map_iff in Hx. destruct Hx as [v [<- Hv]].
    apply has_dtype_filled, H, Hv. }
  unfold to_numeric. rewrite E. cbn [obind].
  destruct (forallb (has_dtype uint64) cells) eqn:Eu.
  { exists cells, uint64. auto. }
  destruct (existsb is_uint cells) eqn:Ex.
  { apply existsb_exists in Ex. destruct Ex as [c [Hc Hu]].
    destruct (Q c Hc) as [y [_ [Hn _]]]. congruence. }
  assert (Hfit : forallb (int_fits in_int64) cells = true).
  { apply forallb_forall. intros c Hc. now destruct (Q c Hc) as [y [_ [_ H]]]. }
  rewrite Hfit. cbn [negb].
  destruct (forallb is_int cells) eqn:Ei.
  - exists cells, int64. split; [reflexivity|]. split; [|exact L].
    apply Filled, forallb_forall. intros c Hc.
    rewrite forallb_forall in Ei, Hfit.
    specialize (Ei c Hc). specialize (Hfit c Hc).
    destruct c as [| |[]| | |]; try discriminate. exact Hfit.
  - exists (map as_float cells), float64. split; [reflexivity|].
    split; [|now rewrite length_map].
    apply Filled, forallb_forall. intros x Hx.
    apply in_map_iff in Hx. destruct Hx as [c [<- Hc]].
    destruct (Q c Hc) as [y [-> [Hn _]]]. now destruct y.
Qed.

(** The column read back after an assignment. *)
Lemma column_assigned (df : DataFrame) (c : string) (series : list value) :
  List.length series = List.length (rows df) ->
  map (fun r => cell r c) (rows (df_setitem df c series)) = series.
Proof.
  unfold df_setitem. cbn [rows]. generalize (rows df) as l.
  induction series as [|v series IH]; intros [|r l] H; try discriminate; [reflexivity|].
  simpl. rewrite cell_row_set_same. f_equal. apply IH. now injection H.
Qed.

Lemma column_kept (df : DataFrame) (c c' : string) (series : list value) :
  c' <> c ->
  List.length series = List.length (rows df) ->
  map (fun r => cell r c') (rows (df_setitem df c series))
  = map (fun r => cell r c') (rows df).
Proof.
  intro Hne. unfold df_setitem. cbn [rows]. generalize (rows df) as l.
  induction series as [|v series IH]; intros [|r l] H; try discriminate; [reflexivity|].
  simpl. rewrite cell_row_set_other by assumption. f_equal. apply IH. now injection H.
Qed.

Lemma df_setitem_length (df : DataFrame) (c : string) (series : list value) :
  List.length series = List.length (rows df) ->
  List.length (rows (df_setitem df c series)) = List.length (rows df).
Proof.
  intro H. unfold df_setitem. cbn [rows]. rewrite length_map, length_combine. lia.
Qed.

(** On counts the model reads the metrics are computed for every row:
    nothing is raised. *)
Lemma availability_metrics_total (df : DataFrame) :
  (forall r, In r (rows df) ->
     count_modelled str_to_num (cell r "num_bikes_available") /\
     count_modelled str_to_num (cell r "num_docks_available")) ->
  exists df', availability_metrics str_to_num df = Return df'.
Proof.
  intro Hnb. unfold availability_metrics.
  destruct (mem "num_bikes_available" (columns df)
            && mem "num_docks_available" (columns df)) eqn:Hcols; [|eauto].
  apply andb_prop in Hcols. destruct Hcols as [Hb Hd].
  rewrite (df_getitem_Return _ _ Hb). cbn [obind].
  destruct (to_numeric_total (map (fun r => cell r "num_bikes_available") (rows df)))
    as [bs [tb [Ebs [Tb Lb]]]].
  { intros v Hv. apply in_map_iff in Hv. destruct Hv as [r [<- Hr]]. apply Hnb, Hr. }
  rewrite Ebs. cbn [obind]. rewrite length_map in Lb.
  assert (Lb' : List.length (fillna0 bs) = List.length (rows df))
    by (unfold fillna0; now rewrite length_map).
  pose proof (coerce_column_rows df _ _ Ebs) as F1.
  set (df1 := df_setitem df "num_bikes_available" (fillna0 bs)) in *.
  assert (L1 : List.length (rows df1) = List.length (rows df))
    by (apply df_setitem_length, Lb').
  assert (Hd1 : mem "num_docks_available" (columns df1) = true)
    by (unfold df1; rewrite df_setitem_columns, Hd; reflexivity).
  assert (Hb1 : mem "num_bikes_available" (columns df1) = true)
    by (unfold df1; rewrite df_setitem_columns, Hb; reflexivity).
  rewrite (df_getitem_Return _ _ Hd1). cbn [obind].
  destruct (to_numeric_total (map (fun r => cell r "num_docks_available") (rows df1)))
    as [ds [td [Eds [Td Ld]]]].
  { intros v Hv. apply in_map_iff in Hv. destruct Hv as [r1 [<- Hr1]].
    destruct (Forall2_In_r _ _ _ _ F1 Hr1) as [r [Hr [n [_ ->]]]].
    rewrite cell_row_set_other by discriminate. apply Hnb, Hr. }
  rewrite Eds. cbn [obind]. rewrite length_map in Ld.
  assert (Ld' : List.length (fillna0 ds) = List.length (rows df1))
    by (unfold fillna0; now rewrite length_map).
  pose proof (coerce_column_rows df1 _ _ Eds) as F2.
  set (df2 := df_setitem df1 "num_docks_available" (fillna0 ds)) in *.
  assert (Hd2 : mem "num_docks_available" (columns df2) = true)
    by (unfold df2; rewrite df_setitem_columns, Hd1; reflexivity).
  assert (Hb2 : mem "num_bikes_available" (columns df2) = true)
    by (unfold df2; rewrite df_setitem_columns, Hb1; reflexivity).
  rewrite (df_getitem_Return _ _ Hb2), (df_getitem_Return _ _ Hd2). cbn [obind].
  assert (Cd : map (fun r => cell r "num_docks_available") (rows df2) = fillna0 ds)
    by (apply column_assigned, Ld').
  assert (Cb : map (fun r => cell r "num_bikes_available") (rows df2) = fillna0 bs).
  { unfold df2. rewrite column_kept by (discriminate || exact Ld').
    apply column_assigned, Lb'. }
  pose proof (Forall2_trans _ _ _ _ _ F1 F2) as F12.
  unfold series_add. rewrite Cb, Cd.
  destruct (dtype_of_typed _ _ Tb) as [tb' ->].
  destruct (dtype_of_typed _ _ Td) as [td' ->].
  rewrite <- Cb, <- Cd, combine_map_map.
  destruct (mapM_total (fun xy : value * value => add (fst xy) (snd xy))
              (map (fun r => (cell r "num_bikes_available", cell r "num_docks_available"))
                   (rows df2))) as [ts Ets].
  { intros xy Hxy. apply in_map_iff in Hxy. destruct Hxy as [r2 [<- Hr2]].
    destruct (Forall2_In_r _ _ _ _ F12 Hr2)
      as [r [_ [r1 [[n [_ ->]] [m [_ ->]]]]]].
    cbn [fst snd].
    rewrite cell_row_set_other, !cell_row_set_same by discriminate.
    cbn [add]. eauto. }
  rewrite Ets. cbn [obind].
  pose proof Ets as Ets'. apply mapM_Forall2, Forall2_map_l in Ets'.
  cbn [fst snd] in Ets'.
  pose proof (df_setitem_rows _ df2 "total_capacity" _ Ets') as F3.
  set (df3 := df_setitem df2 "total_capacity" ts) in *.
  pose proof (Forall2_trans _ _ _ _ _ F12 F3) as F123.
  destruct (mapM_total utilization (rows df3)) as [us Eus].
  { intros r3 Hr3.
    destruct (Forall2_In_r _ _ _ _ F123 Hr3)
      as [r [_ [r2 [[r1 [[n [_ ->]] [m [_ ->]]]] [t [At ->]]]]]].
    rewrite cell_row_set_other, !cell_row_set_same in At by discriminate.
    cbn [add] in At. injection At as <-.
    eexists. apply utilization_derived.
    - rewrite !dict_get_row_set_other by discriminate. apply dict_get_row_set_same.
    - apply dict_get_row_set_same. }
  unfold apply_rows. rewrite Eus. cbn [obind]. eauto.
Qed.

End WithParser.

End Metrics.

(** ** The inner join on [station_id] *)

Module Join.

Import Pandas PandasFacts Props.

Lemma ends_with_unfold (suffix s : string) :
  ends_with suffix s =
  if String.eqb s suffix then true
  else match s with
       | EmptyString => false
       | String _ s' => ends_with suffix s'
       end.
Proof. destruct s; reflexivity. Qed.

Lemma ends_with_append (x suffix : string) : ends_with suffix (x ++ suffix) = true.
Proof.
  induction x as [|a x IH]; rewrite ends_with_unfold.
  - simpl. now rewrite String.eqb_refl.
  - cbn [append]. rewrite IH. now destruct (String.eqb _ _).
Qed.

(** A label that does not end in the suffix is not the renaming of another. *)
Lemma renamer_fixes (to_rename : list string) (suffix key x : string) :
  ends_with suffix key = false ->
  renamer to_rename suffix x = key -> x = key.
Proof.
  intros Hend. unfold renamer. destruct (mem x to_rename); [|auto].
  intros <-. now rewrite ends_with_append in Hend.
Qed.

Lemma dict_get_relabel (to_rename : list string) (suffix key : string) (r : row) :
  ends_with suffix key = false ->
  mem key to_rename = false ->
  dict_get (relabel to_rename suffix r) key = dict_get r key.
Proof.
  intros Hend Hmem. induction r as [|[k v] r IH]; simpl; [reflexivity|].
  destruct (String.eqb k key) eqn:E.
  - apply String.eqb_eq in E. subst k. unfold renamer. rewrite Hmem.
    now rewrite String.eqb_refl.
  - destruct (String.eqb (renamer to_rename suffix k) key) eqn:E'; [|exact IH].
    apply String.eqb_eq, (renamer_fixes _ _ _ _ Hend) in E'.
    subst k. now rewrite String.eqb_refl in E.
Qed.

Lemma dict_get_row_drop_same (key : string) (r : row) :
  dict_get (row_drop key r) key = None.
Proof.
  unfold row_drop. induction r as [|[k v] r IH]; simpl; [reflexivity|].
  destruct (String.eqb k key) eqn:E; simpl; [exact IH|]. now rewrite E.
Qed.

Lemma dict_get_row_drop_other (key c : string) (r : row) :
  c <> key -> dict_get (row_drop key r) c = dict_get r c.
Proof.
  intro Hne. unfold row_drop. induction r as [|[k v] r IH]; simpl; [reflexivity|].
  destruct (String.eqb k key) eqn:E; simpl.
  - apply String.eqb_eq in E. subst k.
    assert (String.eqb key c = false) as -> by (apply String.eqb_neq; congruence).
    exact IH.
  - destruct (String.eqb k c); [reflexivity | exact IH].
Qed.

Lemma mem_filter (c : string) (f : string -> bool) (l : list string) :
  mem c (filter f l) = mem c l && f c.
Proof.
  induction l as [|x l IH]; simpl; [reflexivity|].
  destruct (String.eqb c x) eqn:E.
  - apply String.eqb_eq in E. subst x. destruct (f c); simpl.
    + now rewrite String.eqb_refl.
    + rewrite IH. now rewrite andb_false_r.
  - destruct (f x); simpl; [rewrite E|]; exact IH.
Qed.

Lemma key_not_shared (left right : DataFrame) (key : string) :
  mem key (shared_labels left right key) = false.
Proof.
  unfold shared_labels. rewrite !mem_filter, String.eqb_refl. cbn [negb].
  now rewrite !andb_false_r.
Qed.

Lemma merge_Return (left right m : DataFrame) (key lsuffix rsuffix : string) :
  merge left right key lsuffix rsuffix = Return m ->
  rows m = join_rows key (shared_labels left right key) lsuffix rsuffix
             (rows left) (rows right) /\
  columns m =
    map (renamer (shared_labels left right key) lsuffix) (columns left)
    ++ map (renamer (shared_labels left right key) rsuffix)
         (filter (fun c => negb (String.eqb c key)) (columns right)).
Proof.
  unfold merge, shared_labels.
  destruct (negb (mem key (columns left) && mem key (columns right)));
    [discriminate|].
  destruct (negb (forallb _ (rows left) && forallb _ (rows right)));
    [discriminate|].
  destruct (has_dup _ || has_dup _); [discriminate|].
  intros [= <-]. split; reflexivity.
Qed.

(** Every joined row is made of a left row and a right row with matching
    keys, and carries the left row's key. *)
Lemma join_rows_origin (key : string) (to_rename : list string)
    (lsuffix rsuffix : string) (left right : list row) (r : row) :
  ends_with lsuffix key = false ->
  ends_with rsuffix key = false ->
  mem key to_rename = false ->
  In r (join_rows key to_rename lsuffix rsuffix left right) ->
  exists l rr,
    In l left /\ In rr right /\
    key_match (cell l key) (cell rr key) = true /\
    r = relabel to_rename lsuffix l ++ relabel to_rename rsuffix (row_drop key rr) /\
    cell r key = cell l key.
Proof.
  intros Hl Hr Hmem Hin. unfold join_rows in Hin.
  apply in_flat_map in Hin. destruct Hin as [l [Hinl Hin]].
  apply in_map_iff in Hin. destruct Hin as [rr [<- Hin]].
  apply filter_In in Hin. destruct Hin as [Hinr Hmatch].
  exists l, rr. repeat split; try assumption.
  unfold cell. rewrite dict_get_app, (dict_get_relabel _ _ _ _ Hl Hmem).
  destruct (dict_get l key); [reflexivity|].
  now rewrite (dict_get_relabel _ _ _ _ Hr Hmem), dict_get_row_drop_same.
Qed.

Lemma join_rows_disjoint (key : string) (to_rename : list string)
    (lsuffix rsuffix : string) (left right : list row) :
  (forall l rr, In l left -> In rr right ->
     key_match (cell l key) (cell rr key) = false) ->
  join_rows key to_rename lsuffix rsuffix left right = [].
Proof.
  intro H. unfold join_rows. induction left as [|l left IH]; simpl; [reflexivity|].
  rewrite IH by (intros; apply H; simpl; auto). rewrite app_nil_r.
  assert (E : filter (fun r => key_match (cell l key) (cell r key)) right = []).
  { assert (G : forall rr, In rr right ->
                  key_match (cell l key) (cell rr key) = false)
      by (intros; apply H; simpl; auto).
    clear -G. induction right as [|rr right IHr]; simpl; [reflexivity|].
    rewrite G by (simpl; auto). apply IHr. intros; apply G; simpl; auto. }
  now rewrite E.
Qed.

Lemma dict_get_relabel_In (to_rename : list string) (suffix c : string)
    (r : row) (v : value) :
  ends_with suffix c = false ->
  dict_get (relabel to_rename suffix r) c = Some v -> In (c, v) r.
Proof.
  intro Hend. induction r as [|[k x] r IH]; simpl; [discriminate|].
  destruct (String.eqb (renamer to_rename suffix k) c) eqn:E.
  - apply String.eqb_eq, (renamer_fixes _ _ _ _ Hend) in E. subst k.
    intros [= ->]. now left.
  - intro H. right. now apply IH.
Qed.

(** A cell of a joined row, under a label that is no renaming, is a cell of
    one of the two rows it was made of. *)
Lemma join_cell_origin (key : string) (to_rename : list string)
    (lsuffix rsuffix c : string) (left right : list row) (r : row) (v : value) :
  ends_with lsuffix c = false ->
  ends_with rsuffix c = false ->
  In r (join_rows key to_rename lsuffix rsuffix left right) ->
  dict_get r c = Some v ->
  exists r0, (In r0 left \/ In r0 right) /\ In (c, v) r0.
Proof.
  intros Hl Hr Hin Hget. unfold join_rows in Hin.
  apply in_flat_map in Hin. destruct Hin as [l [Hinl Hin]].
  apply in_map_iff in Hin. destruct Hin as [rr [<- Hin]].
  apply filter_In in Hin. destruct Hin as [Hinr _].
  rewrite dict_get_app in Hget.
  destruct (dict_get (relabel to_rename lsuffix l) c) as [v'|] eqn:E.
  - injection Hget as ->. exists l. split; [now left|].
    now apply (dict_get_relabel_In _ _ _ _ _ Hl E).
  - exists rr. split; [now right|].
    apply (dict_get_relabel_In _ _ _ _ _ Hr) in Hget.
    unfold row_drop in Hget. now apply filter_In in Hget.
Qed.

Lemma key_match_eq (a b : value) : key_match a b = true -> b = a.
Proof.
  destruct a, b; simpl; try discriminate.
  intro H. apply String.eqb_eq in H. now subst.
Qed.

Lemma key_match_false (a b : value) :
  (forall s, a = VStr s -> b = VStr s -> False) -> key_match a b = false.
Proof.
  intro H. destruct a, b; try reflexivity. simpl.
  destruct (String.eqb s s0) eqn:E; [|reflexivity].
  apply String.eqb_eq in E. subst. exfalso. eauto.
Qed.

End Join.

(** ** Running [get_combined_station_data] *)

Module Run.

Import Pandas PandasFacts IO DataFetch Props.

Section WithParser.

Variable str_to_num : string -> option num.
Variable self : BIXIDataFetcher.

(** Whatever is returned was computed from the two fetched tables: nothing
    when one of them is empty, and otherwise by join, normalisation and
    metrics. *)
Lemma get_combined_inv (w w' : World) (df : DataFrame) :
  get_combined_station_data str_to_num self w = (Return df, w') ->
  exists info w1 status w2,
    get_station_information self w = (Return info, w1) /\
    get_station_status self w1 = (Return status, w2) /\
    ((empty info || empty status = true /\ df = empty_frame) \/
     (empty info || empty status = false /\
      disk w2 (csv_path self w2) = None /\
      exists m n,
        merge info status "station_id" "_info" "_status" = Return m /\
        normalize_coordinates m = Return n /\
        availability_metrics str_to_num n = Return df)).
Proof.
  unfold get_combined_station_data, bind.
  destruct (get_station_information self w) as [[info|e] w1] eqn:E1; [|discriminate].
  destruct (get_station_status self w1) as [[status|e] w2] eqn:E2; [|discriminate].
  intro H. exists info, w1, status, w2. split; [reflexivity|]. split; [exact E2|].
  destruct (empty info || empty status) eqn:Em.
  - left. split; [reflexivity|]. unfold print, ret in H. now injection H as <- _.
  - right. split; [reflexivity|]. unfold lift in H.
    destruct (merge info status _ _ _) as [m|e] eqn:Hm; [|discriminate].
    destruct (normalize_coordinates m) as [n|e] eqn:Hn; [|discriminate].
    destruct (availability_metrics str_to_num n) as [df0|e] eqn:Hdf; [|discriminate].
    unfold now_strftime, to_csv in H. cbn [disk] in H.
    fold (csv_path self w2) in H.
    destruct (disk w2 (csv_path self w2)) as [detail|]; [discriminate|].
    unfold print, ret in H. injection H as <- _.
    split; [reflexivity|]. exists m, n. auto.
Qed.

(** The run after the three table computations have succeeded: all that is
    left is persistence. *)
Lemma get_combined_run (w w1 w2 : World) (info status m n df : DataFrame) :
  get_station_information self w = (Return info, w1) ->
  get_station_status self w1 = (Return status, w2) ->
  empty info || empty status = false ->
  merge info status "station_id" "_info" "_status" = Return m ->
  normalize_coordinates m = Return n ->
  availability_metrics str_to_num n = Return df ->
  get_combined_station_data str_to_num self w =
  match disk w2 (csv_path self w2) with
  | Some detail =>
      (Raise (OSError detail),
       mkWorld (network w2) (clock w2) (S (ticks w2)) (disk w2) (trace w2))
  | None =>
      (Return df,
       mkWorld (network w2) (clock w2) (S (ticks w2)) (disk w2)
         (trace w2 ++ [WriteCsv (csv_path self w2) df;
                       Print ("✓ Saved combined data to " ++ csv_path self w2)]))
  end.
Proof.
  intros E1 E2 Em Hm Hn Hdf.
  unfold get_combined_station_data, bind. rewrite E1, E2, Em.
  unfold lift. rewrite Hm, Hn, Hdf.
  unfold now_strftime, to_csv. cbn [disk]. fold (csv_path self w2).
  destruct (disk w2 (csv_path self w2)); [reflexivity|].
  unfold print, ret, log. cbn [network clock ticks disk trace].
  now rewrite <- app_assoc.
Qed.

Lemma get_combined_early (w w1 w2 : World) (info status : DataFrame) :
  get_station_information self w = (Return info, w1) ->
  get_station_status self w1 = (Return status, w2) ->
  empty info || empty status = true ->
  get_combined_station_data str_to_num self w =
  (Return empty_frame, log (Print "⚠ Warning: Missing station data") w2).
Proof.
  intros E1 E2 Em. unfold get_combined_station_data, bind. now rewrite E1, E2, Em.
Qed.

End WithParser.

End Run.

(** ** The shape of the tables *)

Module Shape.

Import Pandas PandasFacts IO DataFetch Props Normalisation Metrics Join Run.

Lemma from_records_aligned (records : list (list (string * value))) :
  aligned (from_records records).
Proof.
  unfold aligned, from_records; simpl. intros r Hr.
  apply in_map_iff in Hr. destruct Hr as [d [<- _]].
  unfold record_row. rewrite map_map. simpl. apply map_id.
Qed.

Lemma df_setitem_aligned (df : DataFrame) (c : string) (series : list value) :
  aligned df -> aligned (df_setitem df c series).
Proof.
  intros A r' Hr'. unfold df_setitem in *; simpl in *.
  apply in_map_iff in Hr'. destruct Hr' as [[r v] [<- Hin]].
  apply in_combine_l in Hin. simpl.
  rewrite row_set_keys, (A r Hin). reflexivity.
Qed.

(** The inference of the dtypes changes cells, not labels. *)
Lemma infer_dtypes_aligned (df df' : DataFrame) :
  aligned df -> infer_dtypes df = Return df' -> aligned df'.
Proof.
  unfold infer_dtypes. intro A.
  assert (G : forall cols acc,
            (forall d, acc = Return d -> aligned d) ->
            fold_left (fun acc c => obind acc (fun df => infer_column df c)) cols acc
              = Return df' ->
            aligned df').
  { induction cols as [|c cols IH]; simpl; intros acc Hacc H; [now apply Hacc|].
    refine (IH _ _ H). clear H. intros d Hd.
    destruct acc as [d0|e]; [|discriminate]. cbn [obind] in Hd.
    unfold infer_column in Hd.
    destruct (infer_dtype _) as [series|]; [|discriminate].
    cbn [obind] in Hd. injection Hd as <-.
    apply df_setitem_aligned, Hacc. reflexivity. }
  apply G. now intros d [= <-].
Qed.

Lemma stations_frame_aligned (data : value) (df : DataFrame) :
  stations_frame data = Return df -> aligned df.
Proof.
  assert (E : aligned empty_frame) by (intros r []).
  unfold stations_frame.
  destruct (truthy data); cbn [negb]; [|now intros [= <-]].
  destruct (contains "data" data) as [[|]|]; cbn [obind negb];
    [| now intros [= <-] | discriminate].
  destruct (Py.getitem data "data") as [d|]; cbn [obind]; [|discriminate].
  destruct (contains "stations" d) as [[|]|]; cbn [obind negb];
    [| now intros [= <-] | discriminate].
  destruct (Py.getitem d "stations") as [st|]; cbn [obind]; [|discriminate].
  unfold DataFrame_of. destruct st; try discriminate.
  destruct (as_records l); [|discriminate].
  apply infer_dtypes_aligned, from_records_aligned.
Qed.

Lemma fetched_table_aligned (self : BIXIDataFetcher) (w w' : World) (df : DataFrame) :
  get_station_information self w = (Return df, w') \/
  get_station_status self w = (Return df, w') ->
  aligned df.
Proof.
  unfold get_station_information, get_station_status, bind, lift.
  intros [H | H];
    destruct (fetch_feed self _ w) as [[data|e] w1]; try discriminate;
    destruct (stations_frame data) as [df0|e] eqn:E; try discriminate;
    injection H as <- _; exact (stations_frame_aligned _ _ E).
Qed.

Lemma row_drop_keys (key : string) (r : row) :
  map fst (row_drop key r) = filter (fun c => negb (String.eqb c key)) (map fst r).
Proof.
  unfold row_drop. induction r as [|[k v] r IH]; simpl; [reflexivity|].
  destruct (negb (String.eqb k key)); simpl; now rewrite IH.
Qed.

Lemma relabel_keys (to_rename : list string) (suffix : string) (r : row) :
  map fst (relabel to_rename suffix r) = map (renamer to_rename suffix) (map fst r).
Proof. unfold relabel. now rewrite !map_map. Qed.

Lemma merge_aligned (left right m : DataFrame) (key lsuffix rsuffix : string) :
  aligned left -> aligned right ->
  merge left right key lsuffix rsuffix = Return m -> aligned m.
Proof.
  intros Al Ar Hm r Hr.
  destruct (merge_Return _ _ _ _ _ _ Hm) as [Hrows Hcols].
  rewrite Hrows in Hr. unfold join_rows in Hr.
  apply in_flat_map in Hr. destruct Hr as [l [Hl Hr]].
  apply in_map_iff in Hr. destruct Hr as [rr [<- Hrr]].
  apply filter_In in Hrr. destruct Hrr as [Hrr _].
  rewrite Hcols, map_app, !relabel_keys, row_drop_keys.
  now rewrite (Al l Hl), (Ar rr Hrr).
Qed.

Lemma normalize_coordinates_aligned (m n : DataFrame) :
  aligned m -> normalize_coordinates m = Return n -> aligned n.
Proof.
  intros A Hn. rewrite normalize_coordinates_eq in Hn. injection Hn as <-.
  assert (step : forall canon alt d, aligned d -> aligned (copy_if_absent canon alt d)).
  { intros canon alt d Ad. unfold copy_if_absent.
    destruct (negb (mem canon (columns d)) && mem alt (columns d));
      [now apply df_setitem_aligned | assumption]. }
  now apply step, step.
Qed.

Lemma availability_metrics_aligned (str_to_num : string -> option num)
    (n df : DataFrame) :
  aligned n -> availability_metrics str_to_num n = Return df -> aligned df.
Proof.
  intros A H. unfold availability_metrics in H.
  destruct (mem "num_bikes_available" (columns n)
            && mem "num_docks_available" (columns n)); [|now injection H as <-].
  destruct (df_getitem n _) as [s1|]; [|discriminate]. cbn [obind] in H.
  destruct (to_numeric str_to_num s1) as [bs|]; [|discriminate]. cbn [obind] in H.
  destruct (df_getitem _ "num_docks_available") as [s2|]; [|discriminate].
  cbn [obind] in H.
  destruct (to_numeric str_to_num s2) as [ds|]; [|discriminate]. cbn [obind] in H.
  destruct (df_getitem _ "num_bikes_available") as [s3|]; [|discriminate].
  cbn [obind] in H.
  destruct (df_getitem _ "num_docks_available") as [s4|]; [|discriminate].
  cbn [obind] in H.
  destruct (series_add s3 s4) as [ts|]; [|discriminate]. cbn [obind] in H.
  destruct (apply_rows utilization _) as [us|]; [|discriminate]. cbn [obind] in H.
  injection H as <-. now repeat apply df_setitem_aligned.
Qed.

(** Every table [get_combined_station_data] returns has, in each row, a
    cell for each of its columns and no other. *)
Lemma snapshot_aligned (str_to_num : string -> option num) (self : BIXIDataFetcher)
    (w w' : World) (df : DataFrame) :
  get_combined_station_data str_to_num self w = (Return df, w') -> aligned df.
Proof.
  intro Hrun.
  destruct (get_combined_inv _ _ _ _ _ Hrun)
    as [info [w1 [status [w2 [E1 [E2 [[_ ->] | [_ [_ [m [n [Hm [Hn Hdf]]]]]]]]]]]]].
  - intros r [].
  - apply (availability_metrics_aligned _ _ _
             (normalize_coordinates_aligned _ _
                (merge_aligned _ _ _ _ _ _
                   (fetched_table_aligned _ _ _ _ (or_introl E1))
                   (fetched_table_aligned _ _ _ _ (or_intror E2)) Hm) Hn) Hdf).
Qed.

End Shape.

(** ** The station snapshot *)

Module Snapshot.

Import Pandas PandasFacts IO DataFetch Props Numbers Normalisation Metrics Join Run.

Lemma derived_cells (str_to_num : string -> option num) (r r' : row) :
  derived str_to_num r r' ->
  exists b d,
    same_number b (count_value str_to_num (cell r "num_bikes_available")) /\
    same_number d (count_value str_to_num (cell r "num_docks_available")) /\
    cell r' "num_bikes_available" = VNum b /\
    cell r' "num_docks_available" = VNum d /\
    cell r' "total_capacity" = VNum (num_add b d) /\
    cell r' "utilization_rate" = VNum (rate b (num_add b d)) /\
    (forall c, c <> "num_bikes_available" -> c <> "num_docks_available" ->
               c <> "total_capacity" -> c <> "utilization_rate" ->
               cell r' c = cell r c).
Proof.
  intros [b [d [Hb [Hd ->]]]]. exists b, d.
  repeat split; try assumption.
  - rewrite !cell_row_set_other by discriminate. apply cell_row_set_same.
  - rewrite !cell_row_set_other by discriminate. apply cell_row_set_same.
  - rewrite !cell_row_set_other by discriminate. apply cell_row_set_same.
  - apply cell_row_set_same.
  - intros c H1 H2 H3 H4. now rewrite !cell_row_set_other by assumption.
Qed.

(** When the count columns are in the returned table, the metrics block has
    run on the normalised join. *)
Lemma returned_with_counts (str_to_num : string -> option num)
    (self : BIXIDataFetcher) (w w' : World) (df : DataFrame) :
  get_combined_station_data str_to_num self w = (Return df, w') ->
  has_counts df = true ->
  exists n, has_counts n = true /\ availability_metrics str_to_num n = Return df.
Proof.
  intros Hrun Hcols.
  destruct (get_combined_inv _ _ _ _ _ Hrun)
    as [info [w1 [status [w2 [_ [_ [[_ ->] | [_ [_ [m [n [_ [_ Hdf]]]]]]]]]]]]].
  - discriminate.
  - exists n. split; [|assumption].
    destruct (has_counts n) eqn:Hn; [reflexivity|].
    unfold has_counts in Hn. rewrite (availability_metrics_skip _ _ Hn) in Hdf.
    injection Hdf as ->. unfold has_counts in Hcols. congruence.
Qed.

Lemma returned_rows_derived (str_to_num : string -> option num)
    (self : BIXIDataFetcher) (w w' : World) (df : DataFrame) (r' : row) :
  get_combined_station_data str_to_num self w = (Return df, w') ->
  has_counts df = true ->
  In r' (rows df) ->
  exists r, derived str_to_num r r'.
Proof.
  intros Hrun Hcols Hin.
  destruct (returned_with_counts _ _ _ _ _ Hrun Hcols) as [n [Hn Hdf]].
  pose proof (availability_metrics_rows _ _ _ Hn Hdf) as F.
  destruct (Forall2_In_r _ _ _ _ F Hin) as [r [_ Hr]]. eauto.
Qed.

(** *** The sum and the quotient within range *)

Lemma to_float_value (a : num) (x : Q) : to_float a = Fin x -> num_value a = Some x.
Proof. destruct a; simpl; congruence. Qed.

(** A sum the columns can hold is the exact one. *)
Lemma num_add_exact (bikes docks : num) :
  sum_in_range bikes docks ->
  exists b d t,
    num_value bikes = Some b /\ num_value docks = Some d /\
    num_value (num_add bikes docks) = Some t /\ t == b + d.
Proof.
  assert (F : forall a c x y,
            to_float a = Fin x -> to_float c = Fin y ->
            - float_overflow < x + y < float_overflow ->
            exists b d t,
              num_value a = Some b /\ num_value c = Some d /\
              num_value (float_add (to_float a) (to_float c)) = Some t /\ t == b + d).
  { intros a c x y Ha Hc Hr. exists x, y, (x + y).
    rewrite (to_float_value _ _ Ha), (to_float_value _ _ Hc), Ha, Hc.
    cbn [float_add]. rewrite (float_of_Q_finite _ Hr).
    repeat split; reflexivity. }
  destruct bikes as [b|b|x| | |], docks as [d|d|y| | |]; cbn [sum_in_range];
    try contradiction;
    try (intro Hr; cbn [to_float] in Hr;
         match goal with
         | |- exists _ _ _, num_value ?a = _ /\ num_value ?c = _ /\ _ =>
             exact (F a c _ _ eq_refl eq_refl Hr)
         end).
  - intro Hr. exists (inject_Z b), (inject_Z d), (inject_Z (b + d)).
    cbn [num_add num_value]. rewrite (wrap_int64_exact _ Hr).
    repeat split; try reflexivity. now rewrite inject_Z_plus.
  - intro Hr. exists (inject_Z b), (inject_Z d), (inject_Z (b + d)).
    cbn [num_add num_value]. rewrite (wrap_uint64_exact _ Hr).
    repeat split; try reflexivity. now rewrite inject_Z_plus.
Qed.

Lemma num_gt0_value (t : num) (q : Q) :
  num_value t = Some q -> (num_gt0 t = true <-> 0 < q).
Proof.
  assert (G : forall x, negb (Qle_bool x 0) = true <-> 0 < x).
  { intro x. rewrite negb_true_iff. split; intro H.
    - apply Qnot_le_lt. intro L. apply Qle_bool_iff in L. congruence.
    - destruct (Qle_bool x 0) eqn:E; [|reflexivity].
      apply Qle_bool_iff in E. exfalso. apply (Qlt_irrefl 0).
      now apply Qlt_le_trans with x. }
  destruct t; simpl; intros [= <-]; try apply G;
    unfold Qlt; simpl; rewrite Z.ltb_lt; lia.
Qed.

(** The quotient of two finite numbers, the divisor positive, when it is
    a float in range. *)
Lemma num_div_exact (bikes total : num) (b t : Q) :
  num_value bikes = Some b -> num_value total = Some t -> 0 < t ->
  - float_overflow < b / t < float_overflow ->
  num_div bikes total = Fin (b / t).
Proof.
  intros Hb Ht Hpos Hr.
  assert (Eb : to_float bikes = Fin b) by (destruct bikes; simpl in *; congruence).
  assert (Et : to_float total = Fin t) by (destruct total; simpl in *; congruence).
  unfold num_div. rewrite Eb, Et. cbn [float_div].
  assert (Qeq_bool t 0 = false) as ->.
  { destruct (Qeq_bool t 0) eqn:E; [|reflexivity].
    apply Qeq_bool_iff in E. rewrite E in Hpos. now apply Qlt_irrefl in Hpos. }
  now apply float_of_Q_finite.
Qed.

(** C1, amended. In every row of a returned table that has the two count
    columns, [total_capacity] is the sum of the two counts as the columns
    are added, and [utilization_rate] is bikes divided by [total_capacity]
    when that is positive and exactly 0.0 otherwise.  While the exact sum
    is one the columns can hold, [total_capacity] is bikes + docks, and the
    rate is bikes / (bikes + docks) when that sum is positive (the quotient
    being a float in range) and 0.0 when it is not. *)
Theorem utilization_rate_is_bikes_over_capacity
    (str_to_num : string -> option num) (self : BIXIDataFetcher)
    (w w' : World) (df : DataFrame) :
  get_combined_station_data str_to_num self w = (Return df, w') ->
  has_counts df = true ->
  forall r, In r (rows df) ->
    exists bikes docks total,
      cell r "num_bikes_available" = VNum bikes /\
      cell r "num_docks_available" = VNum docks /\
      total = num_add bikes docks /\
      cell r "total_capacity" = VNum total /\
      (num_gt0 total = true ->
       cell r "utilization_rate" = VNum (num_div bikes total)) /\
      (num_gt0 total = false ->
       cell r "utilization_rate" = VNum (Fin 0)) /\
      (sum_in_range bikes docks ->
       exists b d t : Q,
         num_value bikes = Some b /\ num_value docks = Some d /\
         num_value total = Some t /\ t == b + d /\
         (0 < b + d -> - float_overflow < b / (b + d) < float_overflow ->
          exists u : Q,
            cell r "utilization_rate" = VNum (Fin u) /\ u == b / (b + d)) /\
         (b + d <= 0 -> cell r "utilization_rate" = VNum (Fin 0))).
Proof.
  intros Hrun Hcols r Hin.
  destruct (returned_rows_derived _ _ _ _ _ _ Hrun Hcols Hin) as [r0 Hd].
  destruct (derived_cells _ _ _ Hd) as [b [d [_ [_ [Hb [Hk [Ht [Hu _]]]]]]]].
  exists b, d, (num_add b d).
  repeat split; try assumption.
  - intro Hpos. rewrite Hu. unfold rate. now rewrite Hpos.
  - intro Hneg. rewrite Hu. unfold rate. now rewrite Hneg.
  - intro Hr. destruct (num_add_exact _ _ Hr) as [qb [qd [t [Vb [Vd [Vt Et]]]]]].
    exists qb, qd, t. repeat split; try assumption.
    + intros Hpos Hq.
      assert (Hpos' : 0 < t) by now rewrite Et.
      assert (Hq' : - float_overflow < qb / t < float_overflow) by now rewrite Et.
      exists (qb / t). split; [|now rewrite Et].
      rewrite Hu. unfold rate.
      rewrite (proj2 (num_gt0_value _ _ Vt) Hpos').
      now rewrite (num_div_exact _ _ _ _ Vb Vt Hpos' Hq').
    + intro Hle. rewrite Hu. unfold rate.
      destruct (num_gt0 (num_add b d)) eqn:G; [|reflexivity].
      apply (num_gt0_value _ _ Vt) in G. rewrite Et in G.
      exfalso. apply (Qlt_irrefl 0). now apply Qlt_le_trans with (qb + qd).
Qed.

(** *** The bound on the rate *)

Lemma unit_quotient (x t : Q) :
  0 <= x -> x <= t -> 0 < t ->
  float_div (Fin x) (Fin t) = Fin (x / t) /\ 0 <= x / t /\ x / t <= 1.
Proof.
  intros H0 Hle Hpos.
  assert (B : 0 <= x / t /\ x / t <= 1).
  { split.
    - apply Qle_shift_div_l; [assumption|]. now rewrite Qmult_0_l.
    - apply Qle_shift_div_r; [assumption|]. now rewrite Qmult_1_l. }
  split; [|exact B]. cbn [float_div].
  assert (Qeq_bool t 0 = false) as ->.
  { destruct (Qeq_bool t 0) eqn:E; [|reflexivity].
    apply Qeq_bool_iff in E. rewrite E in Hpos. now apply Qlt_irrefl in Hpos. }
  apply float_of_Q_unit; tauto.
Qed.

(** The rate of two non-negative floats. *)
Lemma rate_of_floats (bikes : num) (x y : Q) :
  to_float bikes = Fin x -> 0 <= x -> 0 <= y ->
  exists u : Q,
    rate bikes (float_add (Fin x) (Fin y)) = Fin u /\ 0 <= u /\ u <= 1.
Proof.
  intros Eb Hx Hy.
  assert (Hs : 0 <= x + y).
  { rewrite <- (Qplus_0_r 0). now apply Qplus_le_compat. }
  assert (Hxs : x <= x + y).
  { rewrite <- (Qplus_0_r x) at 1. now apply Qplus_le_r. }
  assert (Zero : exists u : Q, Fin 0 = Fin u /\ 0 <= u /\ u <= 1).
  { exists 0. repeat split; [apply Qle_refl | discriminate]. }
  unfold rate, num_div. rewrite Eb. cbn [float_add]. unfold float_of_Q.
  destruct (Qle_bool float_overflow (x + y)); [exact Zero|].
  destruct (Qle_bool (x + y) (- float_overflow)) eqn:E2.
  { cbn [num_gt0]. exact Zero. }
  cbn [num_gt0 to_float].
  destruct (Qle_bool (x + y) 0) eqn:E; cbn [negb]; [exact Zero|].
  assert (Hpos : 0 < x + y).
  { apply Qnot_le_lt. intro L. apply Qle_bool_iff in L. congruence. }
  destruct (unit_quotient x (x + y) Hx Hxs Hpos) as [-> B]. eauto.
Qed.

Lemma inject_Z_nonneg (z : Z) : (0 <= z)%Z -> 0 <= inject_Z z.
Proof. intro H. unfold Qle. simpl. lia. Qed.

(** The rate of two counts that are non-negative and finite, the integers
    below [2^63]: where the sum of two integer columns wraps around, the
    capacity is negative and the rate 0. *)
Lemma rate_of_small_counts (bikes docks : num) :
  small_count bikes -> small_count docks ->
  exists u : Q, rate bikes (num_add bikes docks) = Fin u /\ 0 <= u /\ u <= 1.
Proof.
  assert (Zero : exists u : Q, Fin 0 = Fin u /\ 0 <= u /\ u <= 1).
  { exists 0. repeat split; [apply Qle_refl | discriminate]. }
  destruct bikes as [b| |x| | |], docks as [d| |y| | |]; simpl; try contradiction;
    intros Hb Hd.
  - (* two int64 columns *)
    destruct (Z.ltb_spec (b + d) (2 ^ 63)) as [Hs | Hs].
    + rewrite wrap_int64_exact by (apply in_int64_range; powers; lia).
      unfold rate. cbn [num_gt0].
      destruct (Z.ltb_spec 0 (b + d)) as [Hpos | Hz]; [|exact Zero].
      unfold num_div. cbn [to_float].
      destruct (unit_quotient (inject_Z b) (inject_Z (b + d))) as [-> B]; eauto.
      * apply inject_Z_nonneg; lia.
      * unfold Qle. simpl. lia.
      * unfold Qlt. simpl. lia.
    + pose proof (wrap_int64_negative b d Hb Hd Hs) as Hneg.
      unfold rate. cbn [num_gt0].
      destruct (Z.ltb_spec 0 (wrap_int64 (b + d))); [lia | exact Zero].
  - apply (rate_of_floats (Int b) (inject_Z b) y eq_refl);
      [apply inject_Z_nonneg; lia | assumption].
  - apply (rate_of_floats (Fin x) x (inject_Z d) eq_refl);
      [assumption | apply inject_Z_nonneg; lia].
  - now apply (rate_of_floats (Fin x) x y eq_refl).
Qed.

Lemma small_count_same_number (x y : num) :
  same_number x y -> small_count y -> small_count x.
Proof.
  intros [-> | ->]; [auto|]. destruct y; simpl; try tauto.
  intro H. apply inject_Z_nonneg. lia.
Qed.

(** A count of the joined and normalised table is missing, or is a cell of
    one of the two fetched tables. *)
Lemma count_origin (info status m n : DataFrame) (c : string) (r : row) :
  c = "num_bikes_available" \/ c = "num_docks_available" ->
  merge info status "station_id" "_info" "_status" = Return m ->
  normalize_coordinates m = Return n ->
  In r (rows n) ->
  dict_get r c = None \/
  exists v r0,
    dict_get r c = Some v /\
    (In r0 (rows info) \/ In r0 (rows status)) /\ In (c, v) r0.
Proof.
  intros Hc Hm Hn Hr. rewrite normalize_coordinates_eq in Hn. injection Hn as <-.
  assert (Hlon : c <> "lon") by (destruct Hc as [-> | ->]; discriminate).
  assert (Hlat : c <> "lat") by (destruct Hc as [-> | ->]; discriminate).
  assert (K : Forall2 (fun r0 r' => dict_get r' c = dict_get r0 c) (rows m)
                (rows (copy_if_absent "lat" "latitude"
                         (copy_if_absent "lon" "longitude" m)))).
  { eapply Forall2_impl;
      [| apply (Forall2_trans _ _ _ _ _
                  (copy_if_absent_other "lon" "longitude" c m Hlon)
                  (copy_if_absent_other "lat" "latitude" c _ Hlat))].
    intros a b [x [E1 E2]]. congruence. }
  destruct (Forall2_In_r _ _ _ _ K Hr) as [rm [Hrm ->]].
  destruct (dict_get rm c) as [v|] eqn:E; [right | now left].
  destruct (merge_Return _ _ _ _ _ _ Hm) as [Hrows _]. rewrite Hrows in Hrm.
  destruct (join_cell_origin "station_id" (shared_labels info status "station_id")
              "_info" "_status" c (rows info) (rows status) rm v) as [r0 [H0 H1]];
    try assumption; try (destruct Hc as [-> | ->]; reflexivity).
  exists v, r0. auto.
Qed.

Lemma well_formed_count_small (str_to_num : string -> option num)
    (info status m n : DataFrame) (c : string) (r : row) :
  c = "num_bikes_available" \/ c = "num_docks_available" ->
  counts_well_formed info -> counts_well_formed status ->
  merge info status "station_id" "_info" "_status" = Return m ->
  normalize_coordinates m = Return n ->
  In r (rows n) ->
  small_count (count_value str_to_num (cell r c)).
Proof.
  intros Hc Wi Ws Hm Hn Hr.
  destruct (count_origin _ _ _ _ _ _ Hc Hm Hn Hr) as [E | [v [r0 [E [H0 H1]]]]];
    unfold cell; rewrite E.
  - simpl. apply Qle_refl.
  - assert (W : exists x, v = VNum x /\ small_count x)
      by (destruct H0 as [H0 | H0]; [eapply Wi | eapply Ws]; eauto).
    destruct W as [x [-> Hx]]. simpl. now destruct x.
Qed.

(** C3, amended. In every row of a returned table that has the two count
    columns: if the bike count and the dock count of the row are
    non-negative finite numbers, the integers below [2^63], then
    [utilization_rate] is a number between 0 and 1; and when every count
    of the two fetched tables is such a number this holds of every row. *)
Theorem utilization_rate_between_0_and_1
    (str_to_num : string -> option num) (self : BIXIDataFetcher)
    (w w' : World) (df : DataFrame) :
  get_combined_station_data str_to_num self w = (Return df, w') ->
  has_counts df = true ->
  (forall (r : row) (bikes docks : num),
     In r (rows df) ->
     cell r "num_bikes_available" = VNum bikes ->
     cell r "num_docks_available" = VNum docks ->
     small_count bikes -> small_count docks ->
     exists u : Q, cell r "utilization_rate" = VNum (Fin u) /\ 0 <= u /\ u <= 1)
  /\
  (forall (info status : DataFrame) (w1 w2 : World),
     get_station_information self w = (Return info, w1) ->
     get_station_status self w1 = (Return status, w2) ->
     counts_well_formed info -> counts_well_formed status ->
     forall r : row,
       In r (rows df) ->
       exists u : Q, cell r "utilization_rate" = VNum (Fin u) /\ 0 <= u /\ u <= 1).
Proof.
  intros Hrun Hcols. split.
  - intros r bikes docks Hin Hbikes Hdocks Hb0 Hd0.
    destruct (returned_rows_derived _ _ _ _ _ _ Hrun Hcols Hin) as [r0 Hd].
    destruct (derived_cells _ _ _ Hd) as [b [d [_ [_ [Hb [Hk [_ [Hu _]]]]]]]].
    rewrite Hbikes in Hb. rewrite Hdocks in Hk.
    injection Hb as <-. injection Hk as <-.
    rewrite Hu.
    destruct (rate_of_small_counts _ _ Hb0 Hd0) as [u [-> Hbound]]. eauto.
  - intros info status w1 w2 E1 E2 Wi Ws r Hin.
    destruct (get_combined_inv _ _ _ _ _ Hrun)
      as [info' [w1' [status' [w2' [E1' [E2' Hcase]]]]]].
    rewrite E1 in E1'. injection E1' as <- <-.
    rewrite E2 in E2'. injection E2' as <- <-.
    destruct Hcase as [[_ ->] | [_ [_ [m [n [Hm [Hn Hdf]]]]]]]; [contradiction|].
    assert (Hc : has_counts n = true).
    { destruct (has_counts n) eqn:Hc; [reflexivity|]. unfold has_counts in Hc.
      rewrite (availability_metrics_skip _ _ Hc) in Hdf. injection Hdf as ->.
      unfold has_counts in Hcols. congruence. }
    pose proof (availability_metrics_rows _ _ _ Hc Hdf) as F.
    destruct (Forall2_In_r _ _ _ _ F Hin) as [r0 [Hr0 Hd]].
    destruct (derived_cells _ _ _ Hd) as [b [d [Sb [Sd [_ [_ [_ [Hu _]]]]]]]].
    pose proof (small_count_same_number _ _ Sb
                  (well_formed_count_small str_to_num _ _ _ _ _ _
                     (or_introl eq_refl) Wi Ws Hm Hn Hr0)) as Hb.
    pose proof (small_count_same_number _ _ Sd
                  (well_formed_count_small str_to_num _ _ _ _ _ _
                     (or_intror eq_refl) Wi Ws Hm Hn Hr0)) as Hk.
    rewrite Hu.
    destruct (rate_of_small_counts _ _ Hb Hk) as [u [-> Hbound]]. eauto.
Qed.

(** *** The join *)

Lemma station_id_kept (str_to_num : string -> option num) (m n df : DataFrame) :
  normalize_coordinates m = Return n ->
  availability_metrics str_to_num n = Return df ->
  Forall2 (fun r r' => cell r' "station_id" = cell r "station_id") (rows m) (rows df).
Proof.
  intros Hn Hdf. rewrite normalize_coordinates_eq in Hn. injection Hn as <-.
  set (m1 := copy_if_absent "lon" "longitude" m) in *.
  set (n := copy_if_absent "lat" "latitude" m1) in *.
  assert (K1 : Forall2 (fun r r' => dict_get r' "station_id" = dict_get r "station_id")
                 (rows m) (rows m1)) by (apply copy_if_absent_other; discriminate).
  assert (K2 : Forall2 (fun r r' => dict_get r' "station_id" = dict_get r "station_id")
                 (rows m1) (rows n)) by (apply copy_if_absent_other; discriminate).
  assert (K3 : Forall2 (fun r r' => cell r' "station_id" = cell r "station_id")
                 (rows n) (rows df)).
  { destruct (has_counts n) eqn:Hc; unfold has_counts in Hc.
    - eapply Forall2_impl; [| apply (availability_metrics_rows _ _ _ Hc Hdf)].
      intros r r' Hd.
      destruct (derived_cells _ _ _ Hd) as [b [d [_ [_ [_ [_ [_ [_ Hother]]]]]]]].
      apply Hother; discriminate.
    - rewrite (availability_metrics_skip _ _ Hc) in Hdf. injection Hdf as <-.
      apply Forall2_refl. reflexivity. }
  eapply Forall2_impl;
    [| apply (Forall2_trans _ _ _ _ _ (Forall2_trans _ _ _ _ _ K1 K2) K3)].
  intros r r' [r2 [[r1 [E1 E2]] E3]]. rewrite E3. unfold cell. now rewrite E2, E1.
Qed.

Lemma Forall2_nil_l {A B : Type} (P : A -> B -> Prop) (l : list B) :
  Forall2 P [] l -> l = [].
Proof. now inversion 1. Qed.

(** Tables that can be joined are joined. *)
Lemma joinable_merge (left right : DataFrame) (key lsuffix rsuffix : string) :
  joinable left right key lsuffix rsuffix ->
  exists m, merge left right key lsuffix rsuffix = Return m.
Proof.
  intros [Hl [Hr [Hkeys [Dl Dr]]]]. unfold merge. rewrite Hl, Hr. cbn [andb negb].
  assert (K : forall rows0,
            (forall r, In r rows0 -> exists s, cell r key = VStr s) ->
            forallb (fun r => key_ok (cell r key)) rows0 = true).
  { intros rows0 H. apply forallb_forall. intros r Hr0.
    destruct (H r Hr0) as [s ->]. reflexivity. }
  rewrite (K (rows left)), (K (rows right)) by (intros; apply Hkeys; auto).
  cbn [andb negb].
  unfold left_labels, right_labels, shared_labels in Dl, Dr.
  rewrite Dl, Dr. cbn [orb]. eauto.
Qed.

(** Two tables that share no identifier join into a table without rows,
    on which the metrics raise nothing. *)
Lemma no_shared_station_no_row (str_to_num : string -> option num)
    (info status m : DataFrame) :
  (forall s, In (VStr s) (station_ids info) -> In (VStr s) (station_ids status) ->
             False) ->
  merge info status "station_id" "_info" "_status" = Return m ->
  exists n df,
    normalize_coordinates m = Return n /\
    availability_metrics str_to_num n = Return df /\
    rows df = [].
Proof.
  intros Hdisj Hm.
  destruct (merge_Return _ _ _ _ _ _ Hm) as [Hrows _].
  rewrite join_rows_disjoint in Hrows.
  2:{ intros l rr Hl Hrr. apply key_match_false. intros s Ha Hb.
      apply (Hdisj s); unfold station_ids; apply in_map_iff; eauto. }
  pose proof (normalize_coordinates_eq m) as Hn.
  set (n := copy_if_absent "lat" "latitude" (copy_if_absent "lon" "longitude" m)) in *.
  assert (Hn0 : rows n = []).
  { unfold n.
    pose proof (copy_if_absent_other "lon" "longitude" "station_id" m) as K1.
    pose proof (copy_if_absent_other "lat" "latitude" "station_id"
                  (copy_if_absent "lon" "longitude" m)) as K2.
    rewrite Hrows in K1. apply Forall2_nil_l in K1; [|discriminate].
    rewrite K1 in K2. apply Forall2_nil_l in K2; [assumption | discriminate]. }
  destruct (availability_metrics_total str_to_num n) as [df Hdf].
  { intros r Hr. rewrite Hn0 in Hr. contradiction. }
  pose proof (station_id_kept _ _ _ _ Hn Hdf) as K. rewrite Hrows in K.
  apply Forall2_nil_l in K. exists n, df. auto.
Qed.

(** C2, amended. The merge is an inner join on [station_id]: an
    identifier in the returned table is an identifier of the information
    table and of the status table; and when the two tables can be joined
    (each has the [station_id] column, holding texts, and no two labels of
    a side coincide once suffixed), share no identifier and the snapshot
    file can be written, the call raises nothing and returns a table with
    no row. *)
Theorem merge_is_inner_join_on_station_id
    (str_to_num : string -> option num) (self : BIXIDataFetcher)
    (w w1 w2 : World) (info status : DataFrame) :
  get_station_information self w = (Return info, w1) ->
  get_station_status self w1 = (Return status, w2) ->
  (forall df w' id,
     get_combined_station_data str_to_num self w = (Return df, w') ->
     In id (station_ids df) ->
     In id (station_ids info) /\ In id (station_ids status))
  /\
  ((forall s, In (VStr s) (station_ids info) -> In (VStr s) (station_ids status) ->
               False) ->
   joinable info status "station_id" "_info" "_status" ->
   disk w2 (csv_path self w2) = None ->
   exists df w',
     get_combined_station_data str_to_num self w = (Return df, w') /\
     rows df = [] /\ empty df = true).
Proof.
  intros E1 E2. split.
  - intros df w' id Hrun Hin.
    destruct (get_combined_inv _ _ _ _ _ Hrun)
      as [info' [w1' [status' [w2' [E1' [E2' Hcase]]]]]].
    rewrite E1 in E1'. injection E1' as <- <-.
    rewrite E2 in E2'. injection E2' as <- <-.
    destruct Hcase as [[_ ->] | [_ [_ [m [n [Hm [Hn Hdf]]]]]]]; [contradiction|].
    unfold station_ids in Hin. apply in_map_iff in Hin.
    destruct Hin as [r' [Hs Hr']].
    destruct (Forall2_In_r _ _ _ _ (station_id_kept _ _ _ _ Hn Hdf) Hr')
      as [r [Hr Hkept]].
    destruct (merge_Return _ _ _ _ _ _ Hm) as [Hrows _]. rewrite Hrows in Hr.
    destruct (join_rows_origin "station_id" (shared_labels info status "station_id")
                "_info" "_status" (rows info) (rows status) r eq_refl eq_refl
                (key_not_shared info status "station_id") Hr)
      as [l [rr [Hl [Hrr [Hmatch [_ Hkey]]]]]].
    assert (Hls : cell l "station_id" = id) by congruence.
    apply key_match_eq in Hmatch. rewrite Hls in Hmatch.
    unfold station_ids. split; apply in_map_iff; eauto.
  - intros Hdisj Hjoin Hdisk.
    destruct (empty info || empty status) eqn:Em.
    + rewrite (get_combined_early _ _ _ _ _ _ _ E1 E2 Em). eauto.
    + destruct (joinable_merge _ _ _ _ _ Hjoin) as [m Hm].
      destruct (no_shared_station_no_row str_to_num _ _ _ Hdisj Hm)
        as [n [df [Hn [Hdf K]]]].
      rewrite (get_combined_run _ _ _ _ _ _ _ _ _ _ E1 E2 Em Hm Hn Hdf), Hdisk.
      eexists. eexists. split; [reflexivity|]. split; [assumption|].
      unfold empty. rewrite K. now destruct (columns df).
Qed.

(** *** Coercion of the counts *)

Lemma unparsable_count_value (str_to_num : string -> option num) (v : value) (x : num) :
  unparsable str_to_num v ->
  same_number x (count_value str_to_num v) ->
  x = Fin 0.
Proof.
  intros Hu Hx.
  assert (E : count_value str_to_num v = Fin 0).
  { destruct v; simpl in *; try contradiction; try reflexivity. now rewrite Hu. }
  rewrite E in Hx. now destruct Hx.
Qed.

(** C7, amended. When the joined table has both count columns, each
    count being one the model reads (a float, an integer of the signed
    64-bit range as a number or a text, any other text, or missing: no
    boolean, no column of unsigned integers), and the snapshot file can be
    written,
    the call returns a table, raising nothing, in which every count that
    was not parsable as a number is 0.  When the joined table lacks one of
    the two columns the call returns it as it is: nothing is coerced. *)
Theorem unparsable_counts_become_zero
    (str_to_num : string -> option num) (self : BIXIDataFetcher)
    (w w1 w2 : World) (info status m n : DataFrame) :
  get_station_information self w = (Return info, w1) ->
  get_station_status self w1 = (Return status, w2) ->
  empty info || empty status = false ->
  merge info status "station_id" "_info" "_status" = Return m ->
  normalize_coordinates m = Return n ->
  disk w2 (csv_path self w2) = None ->
  (has_counts n = true ->
   (forall r, In r (rows n) ->
      count_modelled str_to_num (cell r "num_bikes_available") /\
      count_modelled str_to_num (cell r "num_docks_available")) ->
   exists df w',
     get_combined_station_data str_to_num self w = (Return df, w') /\
     Forall2
       (fun r r' =>
          (unparsable str_to_num (cell r "num_bikes_available") ->
           cell r' "num_bikes_available" = VNum (Fin 0)) /\
          (unparsable str_to_num (cell r "num_docks_available") ->
           cell r' "num_docks_available" = VNum (Fin 0)))
       (rows n) (rows df))
  /\
  (has_counts n = false ->
   exists w', get_combined_station_data str_to_num self w = (Return n, w')).
Proof.
  intros E1 E2 Em Hm Hn Hdisk. split.
  - intros Hc Hnb.
    destruct (availability_metrics_total str_to_num n Hnb) as [df Hdf].
    exists df. eexists.
    rewrite (get_combined_run _ _ _ _ _ _ _ _ _ _ E1 E2 Em Hm Hn Hdf), Hdisk.
    split; [reflexivity|].
    eapply Forall2_impl; [| apply (availability_metrics_rows _ _ _ Hc Hdf)].
    intros r r' Hd.
    destruct (derived_cells _ _ _ Hd) as [b [d [Sb [Sd [Hb [Hk _]]]]]].
    split; intro Hu.
    + rewrite Hb. now rewrite (unparsable_count_value _ _ _ Hu Sb).
    + rewrite Hk. now rewrite (unparsable_count_value _ _ _ Hu Sd).
  - intro Hc. unfold has_counts in Hc.
    rewrite (get_combined_run _ _ _ _ _ _ _ _ _ _ E1 E2 Em Hm Hn
               (availability_metrics_skip str_to_num _ Hc)), Hdisk.
    eauto.
Qed.


(** *** Persistence *)

(** C6, amended. When the tables have been fetched, joined and derived
    and the snapshot file cannot be written, the call raises the [OSError]
    of the write: no table is returned, and nothing more is logged. *)
Theorem persistence_failure_is_raised
    (str_to_num : string -> option num) (self : BIXIDataFetcher)
    (w w1 w2 : World) (info status m n df : DataFrame) (detail : string) :
  get_station_information self w = (Return info, w1) ->
  get_station_status self w1 = (Return status, w2) ->
  empty info || empty status = false ->
  merge info status "station_id" "_info" "_status" = Return m ->
  normalize_coordinates m = Return n ->
  availability_metrics str_to_num n = Return df ->
  disk w2 (csv_path self w2) = Some detail ->
  exists w',
    get_combined_station_data str_to_num self w = (Raise (OSError detail), w') /\
    trace w' = trace w2.
Proof.
  intros E1 E2 Em Hm Hn Hdf Hdisk.
  rewrite (get_combined_run _ _ _ _ _ _ _ _ _ _ E1 E2 Em Hm Hn Hdf), Hdisk.
  eexists. split; reflexivity.
Qed.

End Snapshot.

(** ** Feed retrieval and table construction *)

Module Feeds.

Import Pandas PandasFacts IO DataFetch Props.

Lemma dict_get_None {A : Type} (d : list (string * A)) (k : string) :
  ~ In k (map fst d) -> dict_get d k = None.
Proof.
  induction d as [|[k' v] d IH]; simpl; intro H; [reflexivity|].
  destruct (String.eqb k' k) eqn:E.
  - apply String.eqb_eq in E. tauto.
  - apply IH. tauto.
Qed.

(** C9. For a feed name that is not a key of [BIXI_FEEDS], [fetch_feed]
    raises its configuration error, the [ValueError] "Unknown feed: ...",
    and leaves the world as it was: no request has been issued. *)
Theorem unknown_feed_raises_before_any_request
    (self : BIXIDataFetcher) (feed_name : string) (w : World) :
  ~ In feed_name (map fst Config.BIXI_FEEDS) ->
  fetch_feed self feed_name w = (Raise (ValueError ("Unknown feed: " ++ feed_name)), w) /\
  requests_issued (trace (snd (fetch_feed self feed_name w))) = requests_issued (trace w).
Proof.
  intro H. apply dict_get_None in H.
  assert (E : fetch_feed self feed_name w =
              (Raise (ValueError ("Unknown feed: " ++ feed_name)), w))
    by (unfold fetch_feed; rewrite H; reflexivity).
  split; [exact E | now rewrite E].
Qed.

(** C4, amended. For a known feed, when the request meets no server,
    times out after the 10 seconds allowed, or is answered with a 4xx or 5xx
    status, [fetch_feed] raises nothing: it has issued the one GET with
    timeout 10, printed the error with the detail of that failure (the
    words of the transport, of the timeout, or the status line), and
    returns [None]. *)
Theorem failed_request_prints_and_returns_None
    (self : BIXIDataFetcher) (feed_name feed_path : string) (w : World) :
  dict_get Config.BIXI_FEEDS feed_name = Some feed_path ->
  request_fails (network w (base_url self ++ feed_path)) ->
  fetch_feed self feed_name w =
  (Return VNone,
   log (Print ("✗ Error fetching " ++ feed_name ++ ": "
                 ++ failure_detail (base_url self ++ feed_path)
                      (network w (base_url self ++ feed_path))))
     (log (HttpGet (base_url self ++ feed_path) 10) w)).
Proof.
  intros Hfeed Hfail. unfold fetch_feed. rewrite Hfeed.
  unfold try_except_RequestException, bind at 1, requests_get.
  destruct (network w (base_url self ++ feed_path))
    as [detail | wait status reason content] eqn:Hnet.
  - reflexivity.
  - cbn [failure_detail]. destruct (10 <? wait)%nat eqn:Hwait.
    + reflexivity.
    + destruct Hfail as [Hlate | [Hlo Hhi]].
      { apply Nat.ltb_lt in Hlate. congruence. }
      unfold bind at 1, raise_for_status. cbn [status_code].
      destruct (400 <=? status)%nat eqn:H400; [|apply Nat.leb_gt in H400; lia].
      destruct (status <? 500)%nat eqn:H500; cbn [andb].
      * reflexivity.
      * destruct (500 <=? status)%nat eqn:H5; [|apply Nat.leb_gt in H5;
                                                 apply Nat.ltb_ge in H500; lia].
        destruct (status <? 600)%nat eqn:H6; [|apply Nat.ltb_ge in H6; lia].
        reflexivity.
Qed.

Lemma stations_frame_absent (data : value) :
  stations_absent data -> stations_frame data = Return empty_frame.
Proof.
  destruct data as [| | | | |d]; simpl; try contradiction.
  intros Habs. unfold stations_frame.
  destruct (truthy (VDict d)); cbn [negb]; [|reflexivity].
  cbn [contains obind]. unfold dict_has.
  destruct (dict_get d "data") as [v|] eqn:Hd; cbn [negb]; [|reflexivity].
  destruct v as [| | | | |d']; try contradiction.
  cbn [Py.getitem obind]. rewrite Hd. cbn [obind contains]. unfold dict_has.
  now rewrite Habs.
Qed.

(** C5, amended. For a payload that is an object without [data], or
    whose [data] is an object without [stations], the table builders raise
    nothing and return the empty table. *)
Theorem absent_station_list_gives_empty_table (data : value) :
  stations_absent data ->
  stations_frame data = Return empty_frame /\
  forall (self : BIXIDataFetcher) (w w' : World),
    (fetch_feed self "station_information" w = (Return data, w') ->
     get_station_information self w = (Return empty_frame, w')) /\
    (fetch_feed self "station_status" w = (Return data, w') ->
     get_station_status self w = (Return empty_frame, w')).
Proof.
  intro H. pose proof (stations_frame_absent _ H) as E. split; [exact E|].
  intros self w w'. split; intro Hf.
  - unfold get_station_information, bind. rewrite Hf. unfold lift. now rewrite E.
  - unfold get_station_status, bind. rewrite Hf. unfold lift. now rewrite E.
Qed.

End Feeds.

Module Witnesses.

Import Pandas IO DataFetch Props Examples Normalisation Metrics Join Run Snapshot Feeds.

(** A run of the model on a concrete world is settled by evaluation. *)
Ltac run := vm_compute; reflexivity.

(** A small count, by evaluation. *)
Ltac small := simpl; first [ unfold Qle; simpl; lia | split; [lia | reflexivity] ].

(** The example of the specification: station 42 with 3 bikes and 7 docks
    gets capacity 10 and rate 0.3. *)
Example station_42_capacity_and_rate :
  cell row_parc "station_id" = VStr "42" /\
  cell row_parc "total_capacity" = VNum (Fin 10) /\
  cell row_parc "utilization_rate" = VNum (Fin (3 # 10)).
Proof. repeat split; run. Qed.

(** C1, amended, on the row of station 42 in the snapshot of
    [world_live]. *)
Lemma utilization_rate_is_bikes_over_capacity_witness :
  exists bikes docks total,
    cell row_parc "num_bikes_available" = VNum bikes /\
    cell row_parc "num_docks_available" = VNum docks /\
    total = num_add bikes docks /\
    cell row_parc "total_capacity" = VNum total /\
    (num_gt0 total = true ->
     cell row_parc "utilization_rate" = VNum (num_div bikes total)) /\
    (num_gt0 total = false ->
     cell row_parc "utilization_rate" = VNum (Fin 0)) /\
    (sum_in_range bikes docks ->
     exists b d t : Q,
       num_value bikes = Some b /\ num_value docks = Some d /\
       num_value total = Some t /\ t == b + d /\
       (0 < b + d -> - float_overflow < b / (b + d) < float_overflow ->
        exists u : Q,
          cell row_parc "utilization_rate" = VNum (Fin u) /\ u == b / (b + d)) /\
       (b + d <= 0 -> cell row_parc "utilization_rate" = VNum (Fin 0))).
Proof.
  apply (utilization_rate_is_bikes_over_capacity decimal init world_live
           (after_snapshot world_live) (snapshot_of world_live)).
  - run.
  - run.
  - vm_compute. left. reflexivity.
Defined.

(** C3, amended, on the row of station 42 (3 bikes, 7 docks) of
    [world_live], and on every row of the snapshot of [world_clean], whose
    feeds are well formed in their counts. *)
Lemma utilization_rate_between_0_and_1_witness :
  (exists u : Q, cell row_parc "utilization_rate" = VNum (Fin u) /\ 0 <= u /\ u <= 1)
  /\
  (forall r : row,
     In r (rows (snapshot_of world_clean)) ->
     exists u : Q, cell r "utilization_rate" = VNum (Fin u) /\ 0 <= u /\ u <= 1).
Proof.
  split.
  - apply (proj1 (utilization_rate_between_0_and_1 decimal init world_live
                    (after_snapshot world_live) (snapshot_of world_live)
                    ltac:(run) ltac:(run))
             row_parc (Fin 3) (Int 7)).
    + vm_compute. left. reflexivity.
    + run.
    + run.
    + small.
    + small.
  - apply (proj2 (utilization_rate_between_0_and_1 decimal init world_clean
                    (after_snapshot world_clean) (snapshot_of world_clean)
                    ltac:(run) ltac:(run))
             (information_of world_clean) (status_of world_clean)
             (after_information world_clean) (after_status world_clean)
             ltac:(run) ltac:(run)).
    + intros r c v Hr Hc Hin. vm_compute in Hr.
      destruct Hr as [<-|[<-|[<-|[]]]]; destruct Hc as [-> | ->];
        simpl in Hin; intuition discriminate.
    + intros r c v Hr Hc Hin. vm_compute in Hr.
      destruct Hr as [<-|[<-|[]]]; destruct Hc as [-> | ->]; simpl in Hin;
        repeat (destruct Hin as [Hin | Hin]; try discriminate Hin;
                try (injection Hin as <-; eexists; split; [reflexivity | small]));
        contradiction.
Defined.

(** C2, amended: station 42 of the snapshot of [world_live] is in both
    fetched tables; the feeds of [world_disjoint] can be joined, share no
    station and give a table without rows. *)
Lemma merge_is_inner_join_on_station_id_witness :
  (In (VStr "42") (station_ids (information_of world_live)) /\
   In (VStr "42") (station_ids (status_of world_live)))
  /\
  (exists df w',
     get_combined_station_data decimal init world_disjoint = (Return df, w') /\
     rows df = [] /\ empty df = true).
Proof.
  split.
  - apply (proj1 (merge_is_inner_join_on_station_id decimal init world_live
                    (after_information world_live) (after_status world_live)
                    (information_of world_live) (status_of world_live)
                    ltac:(run) ltac:(run))
             (snapshot_of world_live) (after_snapshot world_live) (VStr "42")).
    + run.
    + vm_compute. left. reflexivity.
  - apply (proj2 (merge_is_inner_join_on_station_id decimal init world_disjoint
                    (after_information world_disjoint) (after_status world_disjoint)
                    (information_of world_disjoint) (status_of world_disjoint)
                    ltac:(run) ltac:(run))).
    + intros s Ha Hb. vm_compute in Ha, Hb.
      destruct Hb as [Hb|[]]. injection Hb as <-.
      destruct Ha as [Ha|[Ha|[Ha|[]]]]; discriminate.
    + split; [run|]. split; [run|]. split; [|split; run].
      intros r [Hr | Hr]; vm_compute in Hr;
        repeat (destruct Hr as [<- | Hr]; [eexists; reflexivity|]); contradiction.
    + run.
Defined.

(** C7, amended: on [world_live], where station 8 reports "N/A" bikes; and
    on [world_bikes_only], whose table has no dock column. *)
Lemma unparsable_counts_become_zero_witness :
  (exists df w',
     get_combined_station_data decimal init world_live = (Return df, w') /\
     Forall2
       (fun r r' =>
          (unparsable decimal (cell r "num_bikes_available") ->
           cell r' "num_bikes_available" = VNum (Fin 0)) /\
          (unparsable decimal (cell r "num_docks_available") ->
           cell r' "num_docks_available" = VNum (Fin 0)))
       (rows (normalized_of world_live)) (rows df))
  /\
  (exists w',
     get_combined_station_data decimal init world_bikes_only =
     (Return (normalized_of world_bikes_only), w')).
Proof.
  split.
  - apply (proj1 (unparsable_counts_become_zero decimal init world_live
                    (after_information world_live) (after_status world_live)
                    (information_of world_live) (status_of world_live)
                    (joined_of world_live) (normalized_of world_live)
                    ltac:(run) ltac:(run) ltac:(run) ltac:(run) ltac:(run)
                    ltac:(run))).
    + run.
    + intros r Hr. vm_compute in Hr.
      destruct Hr as [<-|[<-|[]]]; split; vm_compute; first [exact I | reflexivity].
  - apply (proj2 (unparsable_counts_become_zero decimal init world_bikes_only
                    (after_information world_bikes_only)
                    (after_status world_bikes_only)
                    (information_of world_bikes_only) (status_of world_bikes_only)
                    (joined_of world_bikes_only) (normalized_of world_bikes_only)
                    ltac:(run) ltac:(run) ltac:(run) ltac:(run) ltac:(run)
                    ltac:(run))).
    run.
Defined.


(** C6, amended, on [world_disk_full]. *)
Lemma persistence_failure_is_raised_witness :
  exists w',
    get_combined_station_data decimal init world_disk_full =
    (Raise (OSError "[Errno 28] No space left on device"), w') /\
    trace w' = trace (after_status world_disk_full).
Proof.
  apply (persistence_failure_is_raised decimal init world_disk_full
           (after_information world_disk_full) (after_status world_disk_full)
           (information_of world_disk_full) (status_of world_disk_full)
           (joined_of world_disk_full) (normalized_of world_disk_full)
           (returned (availability_metrics decimal (normalized_of world_disk_full)))).
  - run.
  - run.
  - run.
  - run.
  - run.
  - run.
  - run.
Defined.

(** C4, amended, on [world_slow], where the server answers after 30 s:
    the detail printed is that of the timeout. *)
Lemma failed_request_prints_and_returns_None_witness :
  fetch_feed init "station_status" world_slow =
  (Return VNone,
   log (Print ("✗ Error fetching " ++ "station_status" ++ ": "
                 ++ failure_detail (base_url init ++ "/en/station_status.json")
                      (network world_slow (base_url init ++ "/en/station_status.json"))))
     (log (HttpGet (base_url init ++ "/en/station_status.json") 10) world_slow))
  /\
  failure_detail (base_url init ++ "/en/station_status.json")
    (network world_slow (base_url init ++ "/en/station_status.json"))
  = "HTTPSConnectionPool(host='gbfs.velobixi.com', port=443): Read timed out. (read timeout=10)".
Proof.
  split; [|run].
  apply (failed_request_prints_and_returns_None init "station_status"
           "/en/station_status.json" world_slow).
  - run.
  - left. vm_compute. lia.
Defined.

(** C5, amended, on the payload [{"data": {}}]. *)
Lemma absent_station_list_gives_empty_table_witness :
  stations_frame (VDict [("data", VDict [])]) = Return empty_frame /\
  get_station_information init world_no_stations =
  (Return empty_frame, after_information world_no_stations).
Proof.
  destruct (absent_station_list_gives_empty_table (VDict [("data", VDict [])])
              ltac:(run))
    as [Hpure Hrun].
  split; [exact Hpure|].
  apply (proj1 (Hrun init world_no_stations (after_information world_no_stations))).
  run.
Defined.

(** C9 on the feed name "trips". *)
Lemma unknown_feed_raises_before_any_request_witness :
  fetch_feed init "trips" world_live =
  (Raise (ValueError "Unknown feed: trips"), world_live) /\
  requests_issued (trace (snd (fetch_feed init "trips" world_live))) =
  requests_issued (trace world_live).
Proof.
  apply (unknown_feed_raises_before_any_request init "trips" world_live).
  simpl. intuition discriminate.
Defined.

(** *** Runs on which the wording of the specification does not hold *)

(** C1: with the largest int64 as the bikes and one dock, bikes + docks
    is [2^63], a positive number, but the capacity column has wrapped
    around to [-2^63] and the rate is 0.0, not bikes / (bikes + docks). *)
Lemma capacity_wraps_around_beyond_int64 :
  exists r,
    fst (get_combined_station_data decimal init world_largest)
      = Return (snapshot_of world_largest) /\
    In r (rows (snapshot_of world_largest)) /\
    cell r "num_bikes_available" = VNum (Int (2 ^ 63 - 1)) /\
    cell r "num_docks_available" = VNum (Int 1) /\
    (0 < (2 ^ 63 - 1) + 1)%Z /\
    cell r "total_capacity" = VNum (Int (- 2 ^ 63)) /\
    cell r "utilization_rate" = VNum (Fin 0) /\
    ~ 0 == inject_Z (2 ^ 63 - 1) / inject_Z ((2 ^ 63 - 1) + 1).
Proof.
  exists (hd [] (rows (snapshot_of world_largest))).
  split; [run|]. split; [vm_compute; left; reflexivity|].
  split; [run|]. split; [run|]. split; [reflexivity|].
  split; [run|]. split; [run|]. vm_compute. discriminate.
Qed.

(** C2: the entries of the status feed of [world_unkeyed] have no
    [station_id]; the two feeds share no identifier, and the call raises the
    [KeyError] of the merge instead of returning an empty table. *)
Lemma status_feed_without_station_id_raises :
  (forall s, In (VStr s) (station_ids (information_of world_unkeyed)) ->
             In (VStr s) (station_ids (status_of world_unkeyed)) -> False) /\
  fst (get_combined_station_data decimal init world_unkeyed)
    = Raise (KeyError "station_id") /\
  ~ exists df, fst (get_combined_station_data decimal init world_unkeyed) = Return df.
Proof.
  split; [|split; [run|]].
  - intros s _ Hb. vm_compute in Hb. destruct Hb as [Hb|[]]. discriminate.
  - intros [df H]. vm_compute in H. discriminate.
Qed.

(** C3: counts from [2^63] up are non-negative, and pandas holds them as
    uint64; with [2^63] bikes and [2^63 + 1] docks the capacity wraps
    around to 1 and the rate is [2^63], far above 1. *)
Lemma unsigned_counts_give_rate_above_1 :
  exists r,
    fst (get_combined_station_data decimal init world_unsigned)
      = Return (snapshot_of world_unsigned) /\
    In r (rows (snapshot_of world_unsigned)) /\
    cell r "num_bikes_available" = VNum (UInt (2 ^ 63)) /\
    cell r "num_docks_available" = VNum (UInt (2 ^ 63 + 1)) /\
    (0 <= 2 ^ 63)%Z /\ (0 <= 2 ^ 63 + 1)%Z /\
    cell r "total_capacity" = VNum (UInt 1) /\
    cell r "utilization_rate" = VNum (Fin (inject_Z (2 ^ 63))) /\
    ~ inject_Z (2 ^ 63) <= 1.
Proof.
  exists (hd [] (rows (snapshot_of world_unsigned))).
  split; [run|]. split; [vm_compute; left; reflexivity|].
  split; [run|]. split; [run|]. split; [discriminate|]. split; [discriminate|].
  split; [run|]. split; [run|]. vm_compute. intro H. now apply H.
Qed.

(** C4: a request that times out does not fail with an error: [fetch_feed]
    returns [None]. *)
Lemma timed_out_request_is_not_raised :
  fst (fetch_feed init "station_status" world_slow) = Return VNone /\
  ~ exists e, fst (fetch_feed init "station_status" world_slow) = Raise e.
Proof.
  split; [run|]. intros [e H]. vm_compute in H. discriminate.
Qed.

(** C5: a payload without [data.stations] does not fail with an error:
    the builder returns the empty table. *)
Lemma absent_station_list_is_not_raised :
  stations_absent (VDict [("data", VDict [])]) /\
  fst (get_station_information init world_no_stations) = Return empty_frame /\
  ~ exists e, fst (get_station_information init world_no_stations) = Raise e.
Proof.
  split; [run|]. split; [run|]. intros [e H]. vm_compute in H. discriminate.
Qed.

(** C6: when the snapshot file cannot be written no table is returned. *)
Lemma unwritable_snapshot_returns_no_table :
  fst (get_combined_station_data decimal init world_disk_full) =
    Raise (OSError "[Errno 28] No space left on device") /\
  ~ exists df, fst (get_combined_station_data decimal init world_disk_full) = Return df.
Proof.
  split; [run|]. intros [df H]. vm_compute in H. discriminate.
Qed.

(** C7: without the dock column an unparsable bike count stays as it is. *)
Lemma unparsable_count_kept_without_dock_column :
  exists df r,
    fst (get_combined_station_data decimal init world_bikes_only) = Return df /\
    In r (rows df) /\
    unparsable decimal (cell r "num_bikes_available") /\
    cell r "num_bikes_available" = VStr "N/A" /\
    cell r "num_bikes_available" <> VNum (Fin 0).
Proof.
  exists (snapshot_of world_bikes_only), (hd [] (rows (snapshot_of world_bikes_only))).
  split; [run|]. split; [vm_compute; left; reflexivity|].
  split; [run|]. split; [run | vm_compute; discriminate].
Qed.

End Witnesses.

(** * What the methods do to the world *)

Module Effects.

Import Pandas PandasFacts IO DataFetch Props EffectProps.

Local Open Scope py_scope.

Lemma emits_ret {A : Type} (P : event -> Prop) (a : A) : emits P (ret a).
Proof.
  intros w o w' [= <- <-]. repeat split; auto.
  exists []. now rewrite app_nil_r.
Qed.

Lemma emits_raise {A : Type} (P : event -> Prop) (e : exn) : emits P (@raise A e).
Proof.
  intros w o w' [= <- <-]. repeat split; auto.
  exists []. now rewrite app_nil_r.
Qed.

Lemma emits_lift {A : Type} (P : event -> Prop) (o : outcome A) : emits P (lift o).
Proof.
  intros w o' w' [= <- <-]. repeat split; auto.
  exists []. now rewrite app_nil_r.
Qed.

Lemma emits_log {A : Type} (P : event -> Prop) (e : event) (o : outcome A) :
  P e -> emits P (fun w => (o, log e w)).
Proof.
  intros He w o' w' [= <- <-]. simpl. repeat split; auto.
  exists [e]. split; [reflexivity | now constructor].
Qed.

Lemma emits_print (P : event -> Prop) (line : string) :
  P (Print line) -> emits P (print line).
Proof. intro H. unfold print. now apply emits_log. Qed.

Lemma emits_now (P : event -> Prop) : emits P now_strftime.
Proof.
  intros w o w' [= <- <-]. simpl. repeat split; auto.
  exists []. now rewrite app_nil_r.
Qed.

Lemma emits_bind {A B : Type} (P : event -> Prop) (m : M A) (k : A -> M B) :
  emits P m -> (forall a, emits P (k a)) -> emits P (bind m k).
Proof.
  intros Hm Hk w o w' H. unfold bind in H.
  destruct (m w) as [[a|e] w1] eqn:E1.
  - destruct (Hm _ _ _ E1) as [N1 [C1 [D1 [T1 [new1 [Tr1 F1]]]]]].
    destruct (Hk a _ _ _ H) as [N2 [C2 [D2 [T2 [new2 [Tr2 F2]]]]]].
    repeat split; try congruence; [lia|].
    exists (new1 ++ new2). split.
    + now rewrite Tr2, Tr1, app_assoc.
    + apply Forall_app. auto.
  - injection H as <- <-. exact (Hm _ _ _ E1).
Qed.

Lemma emits_try {A : Type} (P : event -> Prop) (body : M A) (handler : string -> M A) :
  emits P body -> (forall e, emits P (handler e)) ->
  emits P (try_except_RequestException body handler).
Proof.
  intros Hb Hh w o w' H. unfold try_except_RequestException in H.
  destruct (body w) as [[a|e] w1] eqn:E1.
  - injection H as <- <-. exact (Hb _ _ _ E1).
  - destruct (Hb _ _ _ E1) as [N1 [C1 [D1 [T1 [new1 [Tr1 F1]]]]]].
    destruct e; try (injection H as <- <-; repeat split; eauto).
    destruct (Hh _ _ _ _ H) as [N2 [C2 [D2 [T2 [new2 [Tr2 F2]]]]]].
    repeat split; try congruence; [lia|].
    exists (new1 ++ new2). split.
    + now rewrite Tr2, Tr1, app_assoc.
    + apply Forall_app. auto.
Qed.

Lemma try_bind {A B : Type} (m : M A) (k : A -> M B) (handler : string -> M B)
    (w : World) :
  try_except_RequestException (bind m k) handler w =
  match m w with
  | (Return a, w1) => try_except_RequestException (k a) handler w1
  | (Raise (RequestException _ e), w1) => handler e w1
  | (Raise e, w1) => (Raise e, w1)
  end.
Proof.
  unfold try_except_RequestException, bind.
  destruct (m w) as [[a|e] w1]; [reflexivity|]. now destruct e.
Qed.

Lemma emits_requests_get (P : event -> Prop) (url : string) (timeout : nat) :
  P (HttpGet url timeout) -> emits P (requests_get url timeout).
Proof.
  intros He w o w' H. unfold requests_get in H.
  assert (G : snd (o, w') = log (HttpGet url timeout) w).
  { rewrite <- H. destruct (network w url); [reflexivity|].
    now destruct (timeout <? wait)%nat. }
  simpl in G. subst w'. simpl. repeat split; auto.
  exists [HttpGet url timeout]. split; [reflexivity | now constructor].
Qed.

Lemma emits_raise_for_status (P : event -> Prop) (response : Response) :
  emits P (raise_for_status response).
Proof.
  unfold raise_for_status.
  destruct (_ && _); [apply emits_raise|].
  destruct (_ && _); [apply emits_raise | apply emits_ret].
Qed.

Lemma emits_response_json (P : event -> Prop) (response : Response) :
  emits P (response_json response).
Proof.
  unfold response_json. destruct (content response);
    [apply emits_ret | apply emits_raise].
Qed.

Lemma emits_json_dump (P : event -> Prop) (path : string) (data : value) :
  P (WriteJson path data) -> emits P (json_dump path data).
Proof.
  intros He w o w' H. unfold json_dump in H.
  destruct (disk w path).
  - injection H as <- <-. repeat split; auto. exists []. now rewrite app_nil_r.
  - injection H as <- <-. simpl. repeat split; auto.
    exists [WriteJson path data]. split; [reflexivity | now constructor].
Qed.

Lemma emits_to_csv (P : event -> Prop) (df : DataFrame) (path : string) :
  P (WriteCsv path df) -> emits P (to_csv df path).
Proof.
  intros He w o w' H. unfold to_csv in H.
  destruct (disk w path).
  - injection H as <- <-. repeat split; auto. exists []. now rewrite app_nil_r.
  - injection H as <- <-. simpl. repeat split; auto.
    exists [WriteCsv path df]. split; [reflexivity | now constructor].
Qed.

Lemma prefix_append (a b : string) : prefix a (a ++ b) = true.
Proof.
  induction a as [|c a IH]; simpl; [now destruct b|].
  destruct (ascii_dec c c); [exact IH | congruence].
Qed.

Lemma prefix_path_join (dir name : string) :
  prefix (dir ++ "/") (path_join dir name) = true.
Proof.
  unfold path_join.
  assert (E : (dir ++ "/" ++ name = (dir ++ "/") ++ name)%string).
  { induction dir as [|c dir IH]; simpl; [reflexivity | f_equal; exact IH]. }
  rewrite E. apply prefix_append.
Qed.

Lemma fetch_feed_known (self : BIXIDataFetcher) (feed_name feed_path : string) :
  dict_get Config.BIXI_FEEDS feed_name = Some feed_path ->
  fetch_feed self feed_name =
  try_except_RequestException
    (response <- requests_get (base_url self ++ feed_path) 10 ;;
     after_response self feed_name response)
    (on_request_error feed_name).
Proof. intro H. unfold fetch_feed. now rewrite H. Qed.

Lemma emits_after_response (P : event -> Prop) (self : BIXIDataFetcher)
    (feed_name : string) (response : Response) :
  (forall p data, prefix (data_dir self ++ "/") p = true -> P (WriteJson p data)) ->
  (forall line, P (Print line)) ->
  emits P (after_response self feed_name response).
Proof.
  intros Hw Hp. unfold after_response.
  apply emits_bind; [apply emits_raise_for_status | intros _].
  apply emits_bind; [apply emits_response_json | intro data].
  apply emits_bind; [apply emits_now | intro timestamp].
  apply emits_bind; [apply emits_json_dump, Hw, prefix_path_join | intros _].
  apply emits_bind; [apply emits_lift | intro d].
  apply emits_bind; [apply emits_lift | intro stations].
  apply emits_bind; [apply emits_lift | intro n].
  apply emits_bind; [apply emits_print, Hp | intros _].
  apply emits_ret.
Qed.

Lemma emits_on_request_error (P : event -> Prop) (feed_name e : string) :
  (forall line, P (Print line)) -> emits P (on_request_error feed_name e).
Proof.
  intro Hp. unfold on_request_error.
  apply emits_bind; [apply emits_print, Hp | intros _]. apply emits_ret.
Qed.

Lemma emits_fetch_feed_any (P : event -> Prop) (self : BIXIDataFetcher)
    (feed_name : string) :
  (forall feed_path, P (HttpGet (base_url self ++ feed_path) 10)) ->
  (forall p data, prefix (data_dir self ++ "/") p = true -> P (WriteJson p data)) ->
  (forall line, P (Print line)) ->
  emits P (fetch_feed self feed_name).
Proof.
  intros Hg Hw Hp.
  destruct (dict_get Config.BIXI_FEEDS feed_name) as [feed_path|] eqn:E.
  - rewrite (fetch_feed_known _ _ _ E).
    apply emits_try.
    + apply emits_bind.
      * apply emits_requests_get, Hg.
      * intro response. now apply emits_after_response.
    + intro e. now apply emits_on_request_error.
  - unfold fetch_feed. rewrite E. apply emits_raise.
Qed.

Lemma emits_fetch_feed (self : BIXIDataFetcher) (feed_name : string) :
  emits (local_event self) (fetch_feed self feed_name).
Proof.
  apply emits_fetch_feed_any; simpl; auto.
  intro. split; [reflexivity | apply prefix_append].
Qed.

Lemma get_combined_unfold (str_to_num : string -> option num) (self : BIXIDataFetcher) :
  get_combined_station_data str_to_num self =
  (info_df <- get_station_information self ;;
   status_df <- get_station_status self ;;
   finish_combined str_to_num self info_df status_df).
Proof. reflexivity. Qed.

Lemma emits_finish_combined (P : event -> Prop) (str_to_num : string -> option num)
    (self : BIXIDataFetcher) (info status : DataFrame) :
  (forall p df, prefix (data_dir self ++ "/") p = true -> P (WriteCsv p df)) ->
  (forall line, P (Print line)) ->
  emits P (finish_combined str_to_num self info status).
Proof.
  intros Hw Hp. unfold finish_combined. destruct (empty info || empty status).
  - apply emits_bind; [apply emits_print, Hp | intros _]. apply emits_ret.
  - apply emits_bind; [apply emits_lift | intro m].
    apply emits_bind; [apply emits_lift | intro n].
    apply emits_bind; [apply emits_lift | intro df].
    apply emits_bind; [apply emits_now | intro timestamp].
    apply emits_bind; [apply emits_to_csv, Hw, prefix_path_join | intros _].
    apply emits_bind; [apply emits_print, Hp | intros _].
    apply emits_ret.
Qed.

Lemma emits_get_station (self : BIXIDataFetcher) :
  emits (local_event self) (get_station_information self) /\
  emits (local_event self) (get_station_status self).
Proof.
  split; apply emits_bind; try apply emits_fetch_feed; intro; apply emits_lift.
Qed.

Lemma get_station_writes_no_csv (self : BIXIDataFetcher) :
  emits no_csv (get_station_information self) /\
  emits no_csv (get_station_status self).
Proof.
  split; (apply emits_bind; [|intro; apply emits_lift]);
    apply emits_fetch_feed_any; intros; exact I.
Qed.

(** A request that fails ends in [None], printed and not raised. *)
Lemma request_failure_run (self : BIXIDataFetcher) (feed_name feed_path : string)
    (w : World) :
  dict_get Config.BIXI_FEEDS feed_name = Some feed_path ->
  request_fails (network w (base_url self ++ feed_path)) ->
  exists detail,
    fetch_feed self feed_name w =
    (Return VNone,
     log (Print ("✗ Error fetching " ++ feed_name ++ ": " ++ detail))
       (log (HttpGet (base_url self ++ feed_path) 10) w)).
Proof.
  intros Hfeed Hfail. rewrite (fetch_feed_known _ _ _ Hfeed), try_bind.
  unfold requests_get.
  destruct (network w (base_url self ++ feed_path))
    as [detail | wait status reason content]; [now exists detail|].
  destruct (10 <? wait)%nat eqn:Hwait; [eexists; reflexivity|].
  destruct Hfail as [Hlate | [Hlo Hhi]];
    [apply Nat.ltb_lt in Hlate; congruence|].
  unfold try_except_RequestException, after_response, bind at 1, raise_for_status.
  cbn [status_code].
  destruct (400 <=? status)%nat eqn:H400; [|apply Nat.leb_gt in H400; lia].
  destruct (status <? 500)%nat eqn:H500; cbn [andb]; [eexists; reflexivity|].
  destruct (500 <=? status)%nat eqn:H5;
    [|apply Nat.leb_gt in H5; apply Nat.ltb_ge in H500; lia].
  destruct (status <? 600)%nat eqn:H6; [|apply Nat.ltb_ge in H6; lia].
  eexists. reflexivity.
Qed.

(** *** One request per fetch *)

Lemma gets_app (a b : list event) : gets (a ++ b) = gets a ++ gets b.
Proof. apply filter_app. Qed.

Lemma gets_quiet (t : list event) : Forall quiet t -> gets t = [].
Proof.
  induction 1 as [|e t He _ IH]; [reflexivity|].
  unfold gets in *. simpl. unfold quiet in He. now rewrite He.
Qed.

Lemma gets_cons_get (url : string) (timeout : nat) (t : list event) :
  gets (HttpGet url timeout :: t) = HttpGet url timeout :: gets t.
Proof. reflexivity. Qed.

Lemma quiet_write_json (p : string) (data : value) : quiet (WriteJson p data).
Proof. reflexivity. Qed.

Lemma quiet_print (line : string) : quiet (Print line).
Proof. reflexivity. Qed.

Lemma fetch_feed_one_request (self : BIXIDataFetcher) (feed_name feed_path : string)
    (w w' : World) (o : outcome value) :
  dict_get Config.BIXI_FEEDS feed_name = Some feed_path ->
  fetch_feed self feed_name w = (o, w') ->
  exists rest,
    trace w' = trace w ++ HttpGet (base_url self ++ feed_path) 10 :: rest /\
    Forall quiet rest.
Proof.
  intros Hfeed H. rewrite (fetch_feed_known _ _ _ Hfeed), try_bind in H.
  set (url := (base_url self ++ feed_path)%string) in *.
  assert (Hh : forall e, emits quiet (on_request_error feed_name e))
    by (intro; apply emits_on_request_error, quiet_print).
  assert (Ha : forall r, emits quiet
                 (try_except_RequestException (after_response self feed_name r)
                    (on_request_error feed_name))).
  { intro r. apply emits_try; [|exact Hh].
    apply emits_after_response; intros; reflexivity. }
  assert (G : exists (k : M value), emits quiet k /\
                k (log (HttpGet url 10) w) = (o, w')).
  { unfold requests_get in H. fold url in H.
    destruct (network w url) as [detail | wait status reason content].
    - exists (on_request_error feed_name detail). auto.
    - destruct (10 <? wait)%nat.
      + eexists. split; [apply Hh | exact H].
      + eexists. split; [apply Ha | exact H]. }
  destruct G as [k [Hk Hrun]].
  destruct (Hk _ _ _ Hrun) as [_ [_ [_ [_ [rest [Htr Hq]]]]]].
  exists rest. split; [|assumption].
  rewrite Htr. simpl. now rewrite <- app_assoc.
Qed.

End Effects.

(** * Further properties of [data_fetch.py] *)

Module Retrieval.

Import Pandas PandasFacts IO DataFetch Props EffectProps Effects.

Local Open Scope py_scope.

(** Whatever [get_combined_station_data] does and however it ends, it
    leaves network, clock and disk as they were and only appends to the
    trace: GETs under the base URL with timeout 10, files under the data
    directory, printed lines. *)
Theorem snapshot_effects_are_local
    (str_to_num : string -> option num) (self : BIXIDataFetcher) (w : World) :
  let w' := snd (get_combined_station_data str_to_num self w) in
  network w' = network w /\ clock w' = clock w /\ disk w' = disk w /\
  exists new, trace w' = trace w ++ new /\ Forall (local_event self) new.
Proof.
  assert (E : emits (local_event self) (get_combined_station_data str_to_num self)).
  { rewrite get_combined_unfold.
    apply emits_bind; [apply emits_get_station | intro info].
    apply emits_bind; [apply emits_get_station | intro status].
    apply emits_finish_combined; simpl; auto. }
  destruct (get_combined_station_data str_to_num self w) as [o w'] eqn:H. simpl.
  destruct (E _ _ _ H) as [N [C [D [_ T]]]]. auto.
Qed.

Lemma get_station_one_request (self : BIXIDataFetcher) (feed_name feed_path : string)
    (w w' : World) (o : outcome DataFrame) :
  dict_get Config.BIXI_FEEDS feed_name = Some feed_path ->
  (data <- fetch_feed self feed_name ;; lift (stations_frame data)) w = (o, w') ->
  exists rest,
    trace w' = trace w ++ HttpGet (base_url self ++ feed_path) 10 :: rest /\
    Forall quiet rest.
Proof.
  intros Hfeed H. unfold bind in H.
  destruct (fetch_feed self feed_name w) as [[data|e] w1] eqn:E.
  - unfold lift in H. injection H as _ <-.
    exact (fetch_feed_one_request _ _ _ _ _ _ Hfeed E).
  - injection H as _ <-. exact (fetch_feed_one_request _ _ _ _ _ _ Hfeed E).
Qed.

(** A call of [get_combined_station_data] requests the information feed
    and then the status feed, each once with timeout 10, and nothing else.
    The status feed is requested whenever the information fetch returns,
    so also when the information request has failed; it is left unrequested
    exactly when the information fetch raises, and the call then raises the
    same exception. *)
Theorem snapshot_requests_each_feed_once
    (str_to_num : string -> option num) (self : BIXIDataFetcher) (w : World) :
  let run := get_combined_station_data str_to_num self w in
  let information := HttpGet (base_url self ++ "/en/station_information.json") 10 in
  let status := HttpGet (base_url self ++ "/en/station_status.json") 10 in
  exists new,
    trace (snd run) = trace w ++ new /\
    match fst (get_station_information self w) with
    | Return _ => gets new = [information; status]
    | Raise e => gets new = [information] /\ fst run = Raise e
    end /\
    (request_fails (network w (base_url self ++ "/en/station_information.json")) ->
     gets new = [information; status]).
Proof.
  cbv zeta.
  destruct (get_combined_station_data str_to_num self w) as [o w'] eqn:H. simpl.
  rewrite get_combined_unfold in H. unfold bind at 1 in H.
  destruct (get_station_information self w) as [[info|e] w1] eqn:E1; cbn [fst].
  - destruct (get_station_one_request self "station_information" _ _ _ _ eq_refl E1)
      as [rest1 [T1 Q1]].
    unfold bind at 1 in H.
    destruct (get_station_status self w1) as [[status|e] w2] eqn:E2;
      destruct (get_station_one_request self "station_status" _ _ _ _ eq_refl E2)
        as [rest2 [T2 Q2]].
    + destruct (emits_finish_combined quiet str_to_num self info status
                  ltac:(reflexivity) ltac:(reflexivity) _ _ _ H)
        as [_ [_ [_ [_ [rest3 [T3 Q3]]]]]].
      eexists. split.
      * rewrite T3, T2, T1, <- !app_assoc. reflexivity.
      * assert (G : gets (HttpGet (base_url self ++ "/en/station_information.json") 10
                            :: rest1
                            ++ HttpGet (base_url self ++ "/en/station_status.json") 10
                            :: rest2 ++ rest3)
                    = [HttpGet (base_url self ++ "/en/station_information.json") 10;
                       HttpGet (base_url self ++ "/en/station_status.json") 10]).
        { rewrite gets_cons_get, gets_app, gets_cons_get, gets_app.
          now rewrite (gets_quiet _ Q1), (gets_quiet _ Q2), (gets_quiet _ Q3). }
        split; [exact G | intros _; exact G].
    + injection H as <- <-. eexists. split.
      * rewrite T2, T1, <- !app_assoc. reflexivity.
      * assert (G : gets (HttpGet (base_url self ++ "/en/station_information.json") 10
                            :: rest1
                            ++ HttpGet (base_url self ++ "/en/station_status.json") 10
                            :: rest2)
                    = [HttpGet (base_url self ++ "/en/station_information.json") 10;
                       HttpGet (base_url self ++ "/en/station_status.json") 10]).
        { rewrite gets_cons_get, gets_app, gets_cons_get.
          now rewrite (gets_quiet _ Q1), (gets_quiet _ Q2). }
        split; [exact G | intros _; exact G].
  - destruct (get_station_one_request self "station_information" _ _ _ _ eq_refl E1)
      as [rest1 [T1 Q1]].
    injection H as <- <-. eexists. split; [exact T1|]. split.
    + split; [|reflexivity]. now rewrite gets_cons_get, (gets_quiet _ Q1).
    + intro Hfail. exfalso.
      destruct (request_failure_run self "station_information" _ w eq_refl Hfail)
        as [detail E].
      unfold get_station_information, bind in E1. rewrite E in E1. discriminate.
Qed.

(** *** The paths of [fetch_feed] after an answer *)

Lemma raise_for_status_passes (url reason : string) (status : nat) (content : body) :
  (status < 400 \/ 600 <= status)%nat ->
  raise_for_status (mkResponse url status reason content) = ret tt.
Proof.
  intro H. unfold raise_for_status. cbn [status_code].
  destruct H as [H | H].
  - assert ((400 <=? status)%nat = false) as -> by (apply Nat.leb_gt; lia).
    assert ((500 <=? status)%nat = false) as -> by (apply Nat.leb_gt; lia).
    reflexivity.
  - assert ((status <? 500)%nat = false) as -> by (apply Nat.ltb_ge; lia).
    assert ((status <? 600)%nat = false) as -> by (apply Nat.ltb_ge; lia).
    now rewrite !andb_false_r.
Qed.

(** [fetch_feed] once the server has answered in time with a passing
    status: the run of what follows the response, under the handler. *)
Lemma fetch_feed_answered (self : BIXIDataFetcher) (feed_name feed_path : string)
    (w : World) (content : body) :
  dict_get Config.BIXI_FEEDS feed_name = Some feed_path ->
  answers (network w (base_url self ++ feed_path)) content ->
  exists status reason,
    (status < 400 \/ 600 <= status)%nat /\
    fetch_feed self feed_name w =
    try_except_RequestException
      (after_response self feed_name
         (mkResponse (base_url self ++ feed_path) status reason content))
      (on_request_error feed_name)
      (log (HttpGet (base_url self ++ feed_path) 10) w).
Proof.
  intros Hfeed [wait [status [reason [Hnet [Hwait Hstatus]]]]].
  exists status, reason. split; [assumption|].
  rewrite (fetch_feed_known _ _ _ Hfeed), try_bind. unfold requests_get.
  rewrite Hnet.
  assert ((10 <? wait)%nat = false) as -> by (apply Nat.ltb_ge; lia).
  reflexivity.
Qed.

(** On an answer in time with a passing status and a JSON body of GBFS
    shape, the disk taking the file, [fetch_feed] returns the payload as
    received, having issued one GET with timeout 10, written the payload
    verbatim to [<data_dir>/<feed>_<timestamp>.json] and printed the number
    of station entries. *)
Theorem fetched_payload_is_saved_and_returned
    (self : BIXIDataFetcher) (feed_name feed_path : string) (w : World)
    (data : value) (n : nat) :
  dict_get Config.BIXI_FEEDS feed_name = Some feed_path ->
  answers (network w (base_url self ++ feed_path)) (Json data) ->
  station_count data = Some n ->
  disk w (json_path self feed_name w) = None ->
  fetch_feed self feed_name w =
  (Return data,
   mkWorld (network w) (clock w) (S (ticks w)) (disk w)
     (trace w ++
      [HttpGet (base_url self ++ feed_path) 10;
       WriteJson (json_path self feed_name w) data;
       Print ("✓ Fetched " ++ feed_name ++ " - " ++ str_of_nat n ++ " stations")])).
Proof.
  intros Hfeed Hans Hcount Hdisk.
  destruct (fetch_feed_answered _ _ _ _ _ Hfeed Hans) as [status [reason [Hs ->]]].
  unfold try_except_RequestException, after_response.
  rewrite (raise_for_status_passes _ _ _ _ Hs).
  unfold response_json. cbn [content].
  unfold bind, now_strftime, json_dump, lift, print, log, ret, raise.
  cbn [network clock ticks disk trace].
  unfold json_path in Hdisk. rewrite Hdisk.
  unfold station_count in Hcount.
  destruct data as [| | | | |d]; try discriminate. cbn [Py.get].
  destruct (dict_get d "data") as [[| | | | |d']|]; try discriminate.
  - cbn [Py.get].
    destruct (dict_get d' "stations") as [[| | | |l|]|]; try discriminate;
      injection Hcount as <-;
      cbn [Py.len List.length network clock ticks disk trace]; unfold json_path;
      now rewrite <- !app_assoc.
  - injection Hcount as <-.
    cbn [Py.get dict_get Py.len List.length network clock ticks disk trace].
    unfold json_path. now rewrite <- !app_assoc.
Qed.

(** When the file of the raw feed cannot be written, the [OSError] of the
    write leaves [fetch_feed] (the handler takes request errors only): the
    request has been made, nothing is written or printed.  Out of the first
    fetch of [get_combined_station_data] it ends the call before the status
    feed is requested. *)
Theorem unwritable_raw_feed_raises
    (self : BIXIDataFetcher) (feed_name feed_path : string) (w : World)
    (data : value) (detail : string) :
  dict_get Config.BIXI_FEEDS feed_name = Some feed_path ->
  answers (network w (base_url self ++ feed_path)) (Json data) ->
  disk w (json_path self feed_name w) = Some detail ->
  let w' := tick (log (HttpGet (base_url self ++ feed_path) 10) w) in
  fetch_feed self feed_name w = (Raise (OSError detail), w') /\
  (feed_name = "station_information" ->
   forall str_to_num,
     get_combined_station_data str_to_num self w = (Raise (OSError detail), w')).
Proof.
  intros Hfeed Hans Hdisk w'.
  assert (E : fetch_feed self feed_name w = (Raise (OSError detail), w')).
  { destruct (fetch_feed_answered _ _ _ _ _ Hfeed Hans) as [status [reason [Hs ->]]].
    unfold try_except_RequestException, after_response.
    rewrite (raise_for_status_passes _ _ _ _ Hs).
    unfold response_json. cbn [content].
    unfold bind, now_strftime, json_dump, log, ret, raise.
    cbn [network clock ticks disk trace].
    unfold json_path in Hdisk. now rewrite Hdisk. }
  split; [exact E|]. intros -> str_to_num.
  rewrite get_combined_unfold. unfold bind at 1, get_station_information, bind at 1.
  now rewrite E.
Qed.

(** A JSON body on which [data.get('data', {}).get('stations', [])] cannot
    be evaluated (the payload is not an object, or its [data] is not one)
    makes [fetch_feed] raise an [AttributeError], after the raw file has
    been written and before anything is printed. *)
Theorem payload_without_get_raises
    (self : BIXIDataFetcher) (feed_name feed_path : string) (w : World)
    (data : value) :
  dict_get Config.BIXI_FEEDS feed_name = Some feed_path ->
  answers (network w (base_url self ++ feed_path)) (Json data) ->
  no_get data ->
  disk w (json_path self feed_name w) = None ->
  exists msg,
    fetch_feed self feed_name w =
    (Raise (AttributeError msg),
     mkWorld (network w) (clock w) (S (ticks w)) (disk w)
       (trace w ++
        [HttpGet (base_url self ++ feed_path) 10;
         WriteJson (json_path self feed_name w) data])).
Proof.
  intros Hfeed Hans Hshape Hdisk.
  destruct (fetch_feed_answered _ _ _ _ _ Hfeed Hans) as [status [reason [Hs ->]]].
  unfold try_except_RequestException, after_response.
  rewrite (raise_for_status_passes _ _ _ _ Hs).
  unfold response_json. cbn [content].
  unfold bind, now_strftime, json_dump, lift, print, log, ret, raise.
  cbn [network clock ticks disk trace].
  unfold json_path in Hdisk. rewrite Hdisk.
  unfold no_get in Hshape.
  destruct data as [| | | | |d]; cbn [Py.get];
    try (eexists; unfold json_path; now rewrite <- !app_assoc).
  destruct (dict_get d "data") as [[| | | | |d']|]; try contradiction;
    cbn [Py.get]; eexists; unfold json_path; now rewrite <- !app_assoc.
Qed.

(** An answer in time with a passing status whose body is not JSON is a
    request error like the others: [fetch_feed] prints it and returns
    [None]; no file is written. *)
Theorem body_that_is_not_json_returns_None
    (self : BIXIDataFetcher) (feed_name feed_path : string) (w : World)
    (detail : string) :
  dict_get Config.BIXI_FEEDS feed_name = Some feed_path ->
  answers (network w (base_url self ++ feed_path)) (NotJson detail) ->
  fetch_feed self feed_name w =
  (Return VNone,
   log (Print ("✗ Error fetching " ++ feed_name ++ ": " ++ detail))
     (log (HttpGet (base_url self ++ feed_path) 10) w)).
Proof.
  intros Hfeed Hans.
  destruct (fetch_feed_answered _ _ _ _ _ Hfeed Hans) as [status [reason [Hs ->]]].
  unfold try_except_RequestException, after_response.
  rewrite (raise_for_status_passes _ _ _ _ Hs).
  reflexivity.
Qed.

(** *** Retrieval failures and the snapshot *)

Lemma failed_request_gives_empty_table (self : BIXIDataFetcher)
    (feed_name feed_path : string) (w : World) :
  dict_get Config.BIXI_FEEDS feed_name = Some feed_path ->
  request_fails (network w (base_url self ++ feed_path)) ->
  exists w',
    (data <- fetch_feed self feed_name ;; lift (stations_frame data)) w =
    (Return empty_frame, w') /\
    exists detail,
      trace w' = trace w ++ [HttpGet (base_url self ++ feed_path) 10;
                             Print ("✗ Error fetching " ++ feed_name ++ ": " ++ detail)].
Proof.
  intros Hfeed Hfail.
  destruct (request_failure_run _ _ _ _ Hfeed Hfail) as [detail E].
  eexists. split.
  - unfold bind. rewrite E. reflexivity.
  - exists detail. simpl. now rewrite <- app_assoc.
Qed.

(** When the request for one feed fails and the fetch of the other feed
    returns (as it does, for one, when its own request fails too),
    [get_combined_station_data] raises nothing and returns the empty table:
    it prints the warning, and joins, derives and writes nothing.  (The
    other feed is requested all the same.) *)
Theorem failed_feed_gives_empty_snapshot
    (str_to_num : string -> option num) (self : BIXIDataFetcher) (w : World) :
  let warning := Print "⚠ Warning: Missing station data" in
  (request_fails (network w (base_url self ++ "/en/station_information.json")) ->
   forall status w2,
     get_station_status self (snd (get_station_information self w)) = (Return status, w2) ->
     get_combined_station_data str_to_num self w = (Return empty_frame, log warning w2))
  /\
  (forall info w1,
     get_station_information self w = (Return info, w1) ->
     request_fails (network w1 (base_url self ++ "/en/station_status.json")) ->
     exists detail,
       get_combined_station_data str_to_num self w =
       (Return empty_frame,
        log warning
          (log (Print ("✗ Error fetching station_status: " ++ detail))
             (log (HttpGet (base_url self ++ "/en/station_status.json") 10) w1))))
  /\
  (request_fails (network w (base_url self ++ "/en/station_information.json")) ->
   request_fails (network w (base_url self ++ "/en/station_status.json")) ->
   exists w', get_combined_station_data str_to_num self w
              = (Return empty_frame, log warning w')).
Proof.
  cbv zeta.
  assert (P1 : request_fails (network w (base_url self ++ "/en/station_information.json")) ->
               forall status w2,
                 get_station_status self (snd (get_station_information self w))
                   = (Return status, w2) ->
                 get_combined_station_data str_to_num self w
                   = (Return empty_frame,
                      log (Print "⚠ Warning: Missing station data") w2)).
  { intros Hfail status w2 E2.
    destruct (failed_request_gives_empty_table self "station_information" _ w
                eq_refl Hfail) as [w1 [E1 _]].
    change (get_station_information self w = (Return empty_frame, w1)) in E1.
    rewrite E1 in E2. simpl in E2.
    now rewrite (Run.get_combined_early _ _ _ _ _ _ _ E1 E2 eq_refl). }
  assert (P2 : forall info w1,
             get_station_information self w = (Return info, w1) ->
             request_fails (network w1 (base_url self ++ "/en/station_status.json")) ->
             exists detail,
               get_combined_station_data str_to_num self w =
               (Return empty_frame,
                log (Print "⚠ Warning: Missing station data")
                  (log (Print ("✗ Error fetching station_status: " ++ detail))
                     (log (HttpGet (base_url self ++ "/en/station_status.json") 10)
                        w1)))).
  { intros info w1 E1 Hfail.
    destruct (request_failure_run self "station_status" _ w1 eq_refl Hfail)
      as [detail E].
    exists detail.
    assert (E2 : get_station_status self w1 =
                 (Return empty_frame,
                  log (Print ("✗ Error fetching station_status: " ++ detail))
                    (log (HttpGet (base_url self ++ "/en/station_status.json") 10) w1)))
      by (unfold get_station_status, bind; rewrite E; reflexivity).
    rewrite (Run.get_combined_early _ _ _ _ _ _ _ E1 E2).
    + reflexivity.
    + unfold empty at 2. simpl. apply orb_true_r. }
  split; [exact P1|]. split; [exact P2|].
  intros Hinfo Hstatus.
  destruct (failed_request_gives_empty_table self "station_information" _ w
              eq_refl Hinfo) as [w1 [E1 _]].
  change (get_station_information self w = (Return empty_frame, w1)) in E1.
  destruct (proj1 (emits_get_station self) _ _ _ E1) as [Hnet _].
  rewrite <- Hnet in Hstatus.
  destruct (P2 _ _ E1 Hstatus) as [detail E]. rewrite E. eauto.
Qed.

(** Every table [get_combined_station_data] returns is either the empty
    table of the early exit, after which the warning is the last thing
    printed and no snapshot has been written, or a table that has been
    written, once and as returned, to
    [<data_dir>/combined_stations_<timestamp>.csv]. *)
Theorem returned_table_is_the_one_written
    (str_to_num : string -> option num) (self : BIXIDataFetcher)
    (w w' : World) (df : DataFrame) :
  get_combined_station_data str_to_num self w = (Return df, w') ->
  exists before last,
    trace w' = trace w ++ before ++ last /\
    Forall no_csv before /\
    ((df = empty_frame /\ last = [Print "⚠ Warning: Missing station data"]) \/
     (exists timestamp,
        let path := path_join (data_dir self)
                      ("combined_stations_" ++ timestamp ++ ".csv") in
        last = [WriteCsv path df; Print ("✓ Saved combined data to " ++ path)])).
Proof.
  intro H. rewrite get_combined_unfold in H. unfold bind at 1 in H.
  destruct (get_station_information self w) as [[info|e] w1] eqn:E1; [|discriminate].
  unfold bind at 1 in H.
  destruct (get_station_status self w1) as [[status|e] w2] eqn:E2; [|discriminate].
  destruct (proj1 (get_station_writes_no_csv self) _ _ _ E1)
    as [_ [_ [_ [_ [new1 [T1 F1]]]]]].
  destruct (proj2 (get_station_writes_no_csv self) _ _ _ E2)
    as [_ [_ [_ [_ [new2 [T2 F2]]]]]].
  exists (new1 ++ new2).
  unfold finish_combined in H. destruct (empty info || empty status).
  - unfold bind, print, ret in H. injection H as <- <-.
    eexists. split; [|split; [apply Forall_app; auto | left; split; reflexivity]].
    simpl. now rewrite T2, T1, <- !app_assoc.
  - unfold bind, lift in H.
    destruct (merge info status _ _ _) as [m|]; [|discriminate].
    destruct (normalize_coordinates m) as [n|]; [|discriminate].
    destruct (availability_metrics str_to_num n) as [df0|]; [|discriminate].
    unfold now_strftime, to_csv in H. cbn [disk] in H.
    destruct (disk w2 _); [discriminate|].
    unfold print, ret, log in H. injection H as <- <-.
    eexists. split; [|split; [apply Forall_app; auto | right]].
    + cbn [trace]. rewrite T2, T1, <- !app_assoc. reflexivity.
    + exists (clock w2 (ticks w2)). reflexivity.
Qed.

End Retrieval.

(** * Further properties of the join *)

Module JoinMore.

Import Pandas PandasFacts IO DataFetch Props Normalisation Metrics Join Run Shape Snapshot.

Lemma joined_key (key : string) (to_rename : list string) (lsuffix rsuffix : string)
    (l rr : row) :
  ends_with lsuffix key = false ->
  ends_with rsuffix key = false ->
  mem key to_rename = false ->
  cell (relabel to_rename lsuffix l ++ relabel to_rename rsuffix (row_drop key rr)) key
  = cell l key.
Proof.
  intros Hl Hr Hmem. unfold cell.
  rewrite dict_get_app, (dict_get_relabel _ _ _ _ Hl Hmem).
  destruct (dict_get l key); [reflexivity|].
  now rewrite (dict_get_relabel _ _ _ _ Hr Hmem), dict_get_row_drop_same.
Qed.

Lemma join_rows_complete (key : string) (to_rename : list string)
    (lsuffix rsuffix : string) (left right : list row) (l rr : row) :
  In l left -> In rr right ->
  key_match (cell l key) (cell rr key) = true ->
  In (relabel to_rename lsuffix l ++ relabel to_rename rsuffix (row_drop key rr))
     (join_rows key to_rename lsuffix rsuffix left right).
Proof.
  intros Hl Hrr Hm. unfold join_rows. apply in_flat_map. exists l. split; [assumption|].
  apply in_map_iff. exists rr. split; [reflexivity|]. apply filter_In. auto.
Qed.

Lemma Forall2_map_eq {A B C : Type} (f : A -> C) (g : B -> C) (l : list A) (l' : list B) :
  Forall2 (fun a b => g b = f a) l l' -> map g l' = map f l.
Proof. induction 1; simpl; congruence. Qed.

Lemma station_ids_kept (str_to_num : string -> option num) (m n df : DataFrame) :
  normalize_coordinates m = Return n ->
  availability_metrics str_to_num n = Return df ->
  station_ids df = station_ids m.
Proof.
  intros Hn Hdf. apply Forall2_map_eq. exact (station_id_kept _ _ _ _ Hn Hdf).
Qed.

(** A row with a string identifier makes its table non-empty. *)
Lemma string_id_not_empty (df : DataFrame) (s : string) :
  aligned df -> In (VStr s) (station_ids df) -> empty df = false.
Proof.
  intros A Hin. unfold station_ids in Hin. apply in_map_iff in Hin.
  destruct Hin as [r [Hc Hr]]. unfold empty.
  destruct (rows df) as [|r0 rs] eqn:Er; [contradiction|].
  destruct (columns df) eqn:Ec; [|reflexivity].
  rewrite <- Er in Hr. pose proof (A r Hr) as Hk. rewrite Ec in Hk.
  destruct r; [discriminate Hc | discriminate Hk].
Qed.

(** Every station that both feeds list is in the returned table. *)
Theorem snapshot_holds_every_shared_station
    (str_to_num : string -> option num) (self : BIXIDataFetcher)
    (w w1 w2 w' : World) (info status df : DataFrame) :
  get_station_information self w = (Return info, w1) ->
  get_station_status self w1 = (Return status, w2) ->
  get_combined_station_data str_to_num self w = (Return df, w') ->
  forall s,
    In (VStr s) (station_ids info) ->
    In (VStr s) (station_ids status) ->
    In (VStr s) (station_ids df).
Proof.
  intros E1 E2 Hrun s Hi Hs.
  destruct (get_combined_inv _ _ _ _ _ Hrun)
    as [info' [w1' [status' [w2' [E1' [E2' Hcase]]]]]].
  rewrite E1 in E1'. injection E1' as <- <-.
  rewrite E2 in E2'. injection E2' as <- <-.
  destruct Hcase as [[Em _] | [_ [_ [m [n [Hm [Hn Hdf]]]]]]].
  - rewrite (string_id_not_empty info s), (string_id_not_empty status s) in Em;
      try assumption; try discriminate.
    + exact (fetched_table_aligned _ _ _ _ (or_intror E2)).
    + exact (fetched_table_aligned _ _ _ _ (or_introl E1)).
  - rewrite (station_ids_kept _ _ _ _ Hn Hdf).
    unfold station_ids in *. apply in_map_iff in Hi, Hs.
    destruct Hi as [l [Hl Hinl]]. destruct Hs as [rr [Hrr Hinr]].
    destruct (merge_Return _ _ _ _ _ _ Hm) as [Hrows _].
    apply in_map_iff.
    exists (relabel (shared_labels info status "station_id") "_info" l
            ++ relabel (shared_labels info status "station_id") "_status"
                 (row_drop "station_id" rr)).
    split.
    + rewrite joined_key; auto using key_not_shared.
    + rewrite Hrows. apply join_rows_complete; try assumption.
      rewrite Hl, Hrr. simpl. apply String.eqb_refl.
Qed.

(** *** No station twice *)

Lemma matches_at_most_one (key : string) (l : row) (right : list row) :
  NoDup (map (fun r => cell r key) right) ->
  (List.length (filter (fun r => key_match (cell l key) (cell r key)) right) <= 1)%nat.
Proof.
  induction right as [|a right IH]; simpl; intro H; [lia|].
  apply NoDup_cons_iff in H. destruct H as [Hnotin Hnd].
  destruct (key_match (cell l key) (cell a key)) eqn:Ha; [|auto].
  assert (E : filter (fun r => key_match (cell l key) (cell r key)) right = []).
  { apply key_match_eq in Ha.
    clear IH Hnd. induction right as [|b right IHr]; simpl; [reflexivity|].
    destruct (key_match (cell l key) (cell b key)) eqn:Hb.
    - apply key_match_eq in Hb. exfalso. apply Hnotin. simpl. left. congruence.
    - apply IHr. intro Hin. apply Hnotin. simpl. now right. }
  rewrite E. simpl. lia.
Qed.

Lemma join_ids_NoDup (key : string) (to_rename : list string)
    (lsuffix rsuffix : string) (left right : list row) :
  ends_with lsuffix key = false ->
  ends_with rsuffix key = false ->
  mem key to_rename = false ->
  NoDup (map (fun r => cell r key) left) ->
  NoDup (map (fun r => cell r key) right) ->
  NoDup (map (fun r => cell r key) (join_rows key to_rename lsuffix rsuffix left right)).
Proof.
  intros Hl Hr Hmem Hleft Hright.
  induction left as [|l left IH]; simpl; [constructor|].
  apply NoDup_cons_iff in Hleft. destruct Hleft as [Hnotin Hleft].
  rewrite map_app. apply NoDup_app.
  - pose proof (matches_at_most_one key l right Hright) as Hlen.
    destruct (filter _ right) as [|a [|b rest]]; simpl in *;
      [constructor | repeat constructor; auto | lia].
  - apply IH, Hleft.
  - intros id H1 H2. apply in_map_iff in H1. destruct H1 as [r1 [<- H1]].
    apply in_map_iff in H1. destruct H1 as [rr [<- _]].
    rewrite joined_key in H2 by assumption.
    apply in_map_iff in H2. destruct H2 as [r2 [E2 H2]].
    destruct (join_rows_origin _ _ _ _ _ _ _ Hl Hr Hmem H2)
      as [l' [_ [Hl' [_ [_ [_ Hkey]]]]]].
    apply Hnotin. apply in_map_iff. exists l'. split; [congruence | assumption].
Qed.

(** If no identifier repeats within the information feed, nor within the
    status feed, then no station is twice in the returned table, which has
    at most as many rows as either feed has stations. *)
Theorem distinct_stations_stay_distinct
    (str_to_num : string -> option num) (self : BIXIDataFetcher)
    (w w1 w2 w' : World) (info status df : DataFrame) :
  get_station_information self w = (Return info, w1) ->
  get_station_status self w1 = (Return status, w2) ->
  get_combined_station_data str_to_num self w = (Return df, w') ->
  NoDup (station_ids info) ->
  NoDup (station_ids status) ->
  NoDup (station_ids df) /\
  (List.length (rows df) <= List.length (rows info))%nat /\
  (List.length (rows df) <= List.length (rows status))%nat.
Proof.
  intros E1 E2 Hrun Ni Ns.
  destruct (get_combined_inv _ _ _ _ _ Hrun)
    as [info' [w1' [status' [w2' [E1' [E2' Hcase]]]]]].
  rewrite E1 in E1'. injection E1' as <- <-.
  rewrite E2 in E2'. injection E2' as <- <-.
  destruct Hcase as [[_ ->] | [_ [_ [m [n [Hm [Hn Hdf]]]]]]].
  - simpl. repeat split; [constructor | lia | lia].
  - destruct (merge_Return _ _ _ _ _ _ Hm) as [Hrows _].
    assert (Nd : NoDup (station_ids df)).
    { rewrite (station_ids_kept _ _ _ _ Hn Hdf). unfold station_ids. rewrite Hrows.
      apply join_ids_NoDup; auto using key_not_shared. }
    assert (I : forall id, In id (station_ids df) ->
                  In id (station_ids info) /\ In id (station_ids status)).
    { intros id Hid. rewrite (station_ids_kept _ _ _ _ Hn Hdf) in Hid.
      unfold station_ids in *. apply in_map_iff in Hid.
      destruct Hid as [r [<- Hr]]. rewrite Hrows in Hr.
      destruct (join_rows_origin "station_id" (shared_labels info status "station_id")
                  "_info" "_status" (rows info) (rows status) r eq_refl eq_refl
                  (key_not_shared info status "station_id") Hr)
        as [l [rr [Hl [Hrr [Hmatch [_ Hkey]]]]]].
      apply key_match_eq in Hmatch. rewrite Hkey.
      split; apply in_map_iff; [exists l | exists rr]; auto. }
    split; [exact Nd|].
    rewrite <- (length_map (fun r => cell r "station_id") (rows df)).
    rewrite <- (length_map (fun r => cell r "station_id") (rows info)).
    rewrite <- (length_map (fun r => cell r "station_id") (rows status)).
    split; apply NoDup_incl_length; try exact Nd; intros id Hid; now apply I.
Qed.

End JoinMore.

(** * Further properties of the derived table *)

Module TableMore.

Import Pandas PandasFacts IO DataFetch Props Normalisation Metrics Join Run Shape Snapshot.
Import TableProps JoinMore.

Lemma computed_label_false (c : string) :
  computed_label c = false ->
  c <> "lon" /\ c <> "lat" /\ c <> "num_bikes_available" /\
  c <> "num_docks_available" /\ c <> "total_capacity" /\ c <> "utilization_rate".
Proof.
  unfold computed_label, mem. simpl. intro H.
  repeat (apply orb_false_elim in H; destruct H as [?H H]).
  repeat split; intros ->; discriminate.
Qed.

Lemma copy_if_absent_row (canon alt : string) (df : DataFrame) :
  Forall2 (fun r r' => forall c, c <> canon -> dict_get r' c = dict_get r c)
    (rows df) (rows (copy_if_absent canon alt df)).
Proof.
  unfold copy_if_absent.
  destruct (negb (mem canon (columns df)) && mem alt (columns df)).
  - eapply Forall2_impl; [| apply copy_column_rows].
    intros r r' -> c Hc. now apply dict_get_row_set_other.
  - apply Forall2_refl. reflexivity.
Qed.

(** Normalisation and metrics leave every other cell as the join made it. *)
Lemma other_cells_kept (str_to_num : string -> option num) (m n df : DataFrame) :
  normalize_coordinates m = Return n ->
  availability_metrics str_to_num n = Return df ->
  Forall2 (fun r r' => forall c, computed_label c = false -> dict_get r' c = dict_get r c)
    (rows m) (rows df).
Proof.
  intros Hn Hdf. rewrite normalize_coordinates_eq in Hn. injection Hn as <-.
  set (m1 := copy_if_absent "lon" "longitude" m) in *.
  set (n := copy_if_absent "lat" "latitude" m1) in *.
  assert (K3 : Forall2 (fun r r' => forall c, computed_label c = false ->
                          dict_get r' c = dict_get r c) (rows n) (rows df)).
  { destruct (has_counts n) eqn:Hc; unfold has_counts in Hc.
    - eapply Forall2_impl; [| apply (availability_metrics_rows _ _ _ Hc Hdf)].
      intros r r' [b [d [_ [_ ->]]]] c Hl.
      destruct (computed_label_false _ Hl) as [_ [_ [? [? [? ?]]]]].
      now rewrite !dict_get_row_set_other.
    - rewrite (availability_metrics_skip _ _ Hc) in Hdf. injection Hdf as <-.
      apply Forall2_refl. reflexivity. }
  eapply Forall2_impl;
    [| apply (Forall2_trans _ _ _ _ _
                (Forall2_trans _ _ _ _ _ (copy_if_absent_row "lon" "longitude" m)
                   (copy_if_absent_row "lat" "latitude" m1)) K3)].
  intros r r' [r2 [[r1 [E1 E2]] E3]] c Hl.
  destruct (computed_label_false _ Hl) as [? [? _]].
  rewrite E3, E2, E1; auto.
Qed.

(** Every row of the returned table is made of a row of the information
    feed and a row of the status feed with the same identifier, and a cell
    under a label that only one of the feeds has (and that is neither
    computed nor a suffixed name) is the cell of that feed's row. *)
Theorem attributes_pass_through
    (str_to_num : string -> option num) (self : BIXIDataFetcher)
    (w w1 w2 w' : World) (info status df : DataFrame) :
  get_station_information self w = (Return info, w1) ->
  get_station_status self w1 = (Return status, w2) ->
  get_combined_station_data str_to_num self w = (Return df, w') ->
  forall r', In r' (rows df) ->
    exists l rr,
      In l (rows info) /\ In rr (rows status) /\
      cell rr "station_id" = cell l "station_id" /\
      cell r' "station_id" = cell l "station_id" /\
      forall c,
        computed_label c = false -> c <> "station_id" ->
        ends_with "_info" c = false -> ends_with "_status" c = false ->
        mem c (columns info) && mem c (columns status) = false ->
        dict_get r' c = match dict_get l c with
                        | Some v => Some v
                        | None => dict_get rr c
                        end.
Proof.
  intros E1 E2 Hrun r' Hr'.
  destruct (get_combined_inv _ _ _ _ _ Hrun)
    as [info' [w1' [status' [w2' [E1' [E2' Hcase]]]]]].
  rewrite E1 in E1'. injection E1' as <- <-.
  rewrite E2 in E2'. injection E2' as <- <-.
  destruct Hcase as [[_ ->] | [_ [_ [m [n [Hm [Hn Hdf]]]]]]]; [contradiction|].
  destruct (Forall2_In_r _ _ _ _ (other_cells_kept _ _ _ _ Hn Hdf) Hr')
    as [r [Hr Hkept]].
  destruct (Forall2_In_r _ _ _ _ (station_id_kept _ _ _ _ Hn Hdf) Hr')
    as [r0 [Hr0 Hid]].
  destruct (merge_Return _ _ _ _ _ _ Hm) as [Hrows _]. rewrite Hrows in Hr.
  set (shared := shared_labels info status "station_id") in *.
  destruct (join_rows_origin "station_id" shared "_info" "_status"
              (rows info) (rows status) r eq_refl eq_refl
              (key_not_shared info status "station_id") Hr)
    as [l [rr [Hl [Hrr [Hmatch [Er Hkey]]]]]].
  exists l, rr. apply key_match_eq in Hmatch.
  repeat split; try assumption.
  - unfold cell. rewrite (Hkept "station_id" eq_refl). exact Hkey.
  - intros c Hc Hne Hei Hes Hone.
    assert (Hsh : mem c shared = false).
    { unfold shared, shared_labels. rewrite !mem_filter.
      destruct (mem c (columns info)); [|reflexivity].
      simpl in Hone. now rewrite Hone. }
    rewrite (Hkept c Hc), Er, dict_get_app, (dict_get_relabel _ _ _ _ Hei Hsh).
    destruct (dict_get l c); [reflexivity|].
    now rewrite (dict_get_relabel _ _ _ _ Hes Hsh), dict_get_row_drop_other.
Qed.

(** *** Coercion of the counts, in full *)

(** When the metrics block runs, each count of a returned row is the count
    of the joined row read as a number: a number stays what it was, a text
    becomes the number it reads as, and whatever is missing or does not
    read becomes 0; in a float column it is held as the float of that
    number.  No count of the returned table is NaN. *)
Theorem counts_are_read_as_numbers
    (str_to_num : string -> option num) (self : BIXIDataFetcher)
    (w w1 w2 w' : World) (info status m n df : DataFrame) :
  get_station_information self w = (Return info, w1) ->
  get_station_status self w1 = (Return status, w2) ->
  empty info || empty status = false ->
  merge info status "station_id" "_info" "_status" = Return m ->
  normalize_coordinates m = Return n ->
  has_counts n = true ->
  get_combined_station_data str_to_num self w = (Return df, w') ->
  Forall2
    (fun r r' =>
       exists bikes docks,
         same_number bikes (count_value str_to_num (cell r "num_bikes_available")) /\
         same_number docks (count_value str_to_num (cell r "num_docks_available")) /\
         cell r' "num_bikes_available" = VNum bikes /\
         cell r' "num_docks_available" = VNum docks /\
         is_nan bikes = false /\ is_nan docks = false)
    (rows n) (rows df).
Proof.
  intros E1 E2 Em Hm Hn Hc Hrun.
  destruct (get_combined_inv _ _ _ _ _ Hrun)
    as [info' [w1' [status' [w2' [E1' [E2' Hcase]]]]]].
  rewrite E1 in E1'. injection E1' as <- <-.
  rewrite E2 in E2'. injection E2' as <- <-.
  destruct Hcase as [[Em' _] | [_ [_ [m' [n' [Hm' [Hn' Hdf]]]]]]]; [congruence|].
  rewrite Hm in Hm'. injection Hm' as <-.
  rewrite Hn in Hn'. injection Hn' as <-.
  eapply Forall2_impl; [| apply (availability_metrics_rows _ _ _ Hc Hdf)].
  intros r r' Hd.
  destruct (derived_cells _ _ _ Hd) as [b [d [Sb [Sd [Hb [Hk _]]]]]].
  exists b, d. repeat split; try assumption.
  - apply (same_number_not_nan _ _ Sb), count_value_not_nan.
  - apply (same_number_not_nan _ _ Sd), count_value_not_nan.
Qed.

(** *** The extremes of the rate *)

Lemma inject_Z_eq (x y : Z) : inject_Z x == inject_Z y <-> x = y.
Proof. unfold Qeq. simpl. rewrite !Z.mul_1_r. tauto. Qed.

Lemma rate_extremes (bikes docks : Z) :
  (0 <= bikes)%Z -> (0 <= docks)%Z -> (bikes + docks <= 2 ^ 53)%Z ->
  exists u : Q,
    rate (Int bikes) (num_add (Int bikes) (Int docks)) = Fin u /\
    (u == 0 <-> bikes = 0%Z) /\
    (u == 1 <-> docks = 0%Z /\ (0 < bikes)%Z).
Proof.
  intros Hb0 Hd0 Hs. cbn [num_add].
  rewrite Numbers.wrap_int64_exact
    by (apply Numbers.in_int64_range;
        change (2 ^ 53)%Z with 9007199254740992%Z in Hs; Numbers.powers; lia).
  unfold rate. cbn [num_gt0].
  destruct (Z.ltb_spec 0 (bikes + docks)) as [Hpos | Hz].
  - unfold num_div. cbn [to_float].
    set (x := inject_Z bikes). set (t := inject_Z (bikes + docks)).
    assert (Ht : 0 < t) by (unfold t, Qlt; simpl; lia).
    destruct (unit_quotient x t) as [-> _];
      [apply inject_Z_nonneg; lia | unfold x, t, Qle; simpl; lia | exact Ht |].
    exists (x / t). split; [reflexivity|].
    assert (Hu : x / t * t == x) by (field; intro E; rewrite E in Ht;
                                      now apply Qlt_irrefl in Ht).
    assert (Hne : ~ t == 0) by (intro E; rewrite E in Ht; now apply Qlt_irrefl in Ht).
    split; split.
    + intro H. rewrite H, Qmult_0_l in Hu.
      apply (inject_Z_eq bikes 0). now symmetry.
    + intros ->. destruct (Qmult_integral _ _ Hu) as [Z | Z]; [exact Z | contradiction].
    + intro H. rewrite H, Qmult_1_l in Hu. unfold x, t in Hu.
      apply (proj1 (inject_Z_eq _ _)) in Hu. lia.
    + intros [Hd Hb]. apply (Qmult_inj_r _ _ t Hne). rewrite Hu, Qmult_1_l.
      unfold x, t. apply (proj2 (inject_Z_eq _ _)). lia.
  - exists 0. split; [reflexivity|]. split; split.
    + intros _. lia.
    + reflexivity.
    + intro H. discriminate H.
    + intros [_ Hb]. lia.
Qed.

(** In a returned table with the two count columns, a row whose counts
    are non-negative integers that add up to at most [2^53] has rate 0
    exactly when it has no bike, and rate 1 exactly when it has a bike and
    no free dock. *)
Theorem rate_is_0_when_empty_and_1_when_full
    (str_to_num : string -> option num) (self : BIXIDataFetcher)
    (w w' : World) (df : DataFrame) :
  get_combined_station_data str_to_num self w = (Return df, w') ->
  has_counts df = true ->
  forall r (bikes docks : Z),
    In r (rows df) ->
    cell r "num_bikes_available" = VNum (Int bikes) ->
    cell r "num_docks_available" = VNum (Int docks) ->
    (0 <= bikes)%Z -> (0 <= docks)%Z -> (bikes + docks <= 2 ^ 53)%Z ->
    exists u : Q,
      cell r "utilization_rate" = VNum (Fin u) /\
      (u == 0 <-> bikes = 0%Z) /\
      (u == 1 <-> docks = 0%Z /\ (0 < bikes)%Z).
Proof.
  intros Hrun Hcols r bikes docks Hin Hb Hk Hb0 Hd0 Hs.
  destruct (returned_rows_derived _ _ _ _ _ _ Hrun Hcols Hin) as [r0 Hd].
  destruct (derived_cells _ _ _ Hd) as [b [d [_ [_ [Hb' [Hk' [_ [Hu _]]]]]]]].
  rewrite Hb in Hb'. injection Hb' as <-.
  rewrite Hk in Hk'. injection Hk' as <-.
  destruct (rate_extremes bikes docks Hb0 Hd0 Hs) as [u [Eu Hx]].
  exists u. split; [|exact Hx]. now rewrite Hu, Eu.
Qed.

(** *** Labels the two feeds share *)

Lemma mem_map_renamer (to_rename : list string) (suffix c : string) (l : list string) :
  mem c l = true -> mem (renamer to_rename suffix c) (map (renamer to_rename suffix) l) = true.
Proof. intro H. apply mem_In, in_map, mem_In, H. Qed.

Lemma mem_map_renamer_shared (to_rename : list string) (suffix c : string)
    (l : list string) :
  ends_with suffix c = false -> mem c to_rename = true ->
  mem c (map (renamer to_rename suffix) l) = false.
Proof.
  intros Hend Hsh. destruct (mem c (map _ l)) eqn:E; [|reflexivity].
  apply mem_In, in_map_iff in E. destruct E as [x [Ex _]].
  pose proof (renamer_fixes _ _ _ _ Hend Ex) as ->.
  unfold renamer in Ex. rewrite Hsh in Ex.
  rewrite <- Ex, ends_with_append in Hend. discriminate.
Qed.

Lemma normalize_keeps_columns (m n : DataFrame) (c : string) :
  normalize_coordinates m = Return n ->
  mem c (columns m) = true -> mem c (columns n) = true.
Proof.
  rewrite normalize_coordinates_eq. intros [= <-] H.
  rewrite !copy_if_absent_columns, H. reflexivity.
Qed.

Lemma metrics_keep_columns (str_to_num : string -> option num) (n df : DataFrame)
    (c : string) :
  availability_metrics str_to_num n = Return df ->
  mem c (columns n) = true -> mem c (columns df) = true.
Proof.
  intros Hdf H. destruct (has_counts n) eqn:Hc; unfold has_counts in Hc.
  - rewrite (availability_metrics_columns _ _ _ _ Hc Hdf), H. reflexivity.
  - rewrite (availability_metrics_skip _ _ Hc) in Hdf. now injection Hdf as <-.
Qed.

(** A field that both feeds carry, the identifier apart, is in the returned
    table once as [field_info] and once as [field_status]; and when that
    field is one of the two counts, the returned table has no count column
    of that name, so that the metrics block has not run on it. *)
Theorem shared_fields_get_suffixes
    (str_to_num : string -> option num) (self : BIXIDataFetcher)
    (w w1 w2 w' : World) (info status df : DataFrame) (c : string) :
  get_station_information self w = (Return info, w1) ->
  get_station_status self w1 = (Return status, w2) ->
  empty info || empty status = false ->
  get_combined_station_data str_to_num self w = (Return df, w') ->
  c <> "station_id" ->
  mem c (columns info) = true ->
  mem c (columns status) = true ->
  mem (c ++ "_info")%string (columns df) = true /\
  mem (c ++ "_status")%string (columns df) = true /\
  (c = "num_bikes_available" \/ c = "num_docks_available" ->
   mem c (columns df) = false /\ has_counts df = false).
Proof.
  intros E1 E2 Em Hrun Hne Hi Hs.
  destruct (get_combined_inv _ _ _ _ _ Hrun)
    as [info' [w1' [status' [w2' [E1' [E2' Hcase]]]]]].
  rewrite E1 in E1'. injection E1' as <- <-.
  rewrite E2 in E2'. injection E2' as <- <-.
  destruct Hcase as [[Em' _] | [_ [_ [m [n [Hm [Hn Hdf]]]]]]]; [congruence|].
  destruct (merge_Return _ _ _ _ _ _ Hm) as [_ Hcols].
  set (shared := shared_labels info status "station_id") in *.
  assert (Hrc : mem c (filter (fun c => negb (String.eqb c "station_id"))
                         (columns status)) = true).
  { rewrite mem_filter, Hs.
    assert (String.eqb c "station_id" = false) as -> by now apply String.eqb_neq.
    reflexivity. }
  assert (Hsh : mem c shared = true).
  { unfold shared, shared_labels. now rewrite mem_filter, Hi, Hrc. }
  assert (Hri : renamer shared "_info" c = (c ++ "_info")%string)
    by (unfold renamer; now rewrite Hsh).
  assert (Hrs : renamer shared "_status" c = (c ++ "_status")%string)
    by (unfold renamer; now rewrite Hsh).
  split; [|split].
  - apply (metrics_keep_columns _ _ _ _ Hdf), (normalize_keeps_columns _ _ _ Hn).
    rewrite Hcols, mem_app, <- Hri, (mem_map_renamer _ _ _ _ Hi). reflexivity.
  - apply (metrics_keep_columns _ _ _ _ Hdf), (normalize_keeps_columns _ _ _ Hn).
    rewrite Hcols, mem_app, <- Hrs, (mem_map_renamer _ _ _ _ Hrc). apply orb_true_r.
  - intro Hcount.
    assert (Hei : ends_with "_info" c = false) by (destruct Hcount as [-> | ->]; reflexivity).
    assert (Hes : ends_with "_status" c = false) by (destruct Hcount as [-> | ->]; reflexivity).
    assert (Hmc : mem c (columns m) = false).
    { rewrite Hcols, mem_app, (mem_map_renamer_shared _ _ _ _ Hei Hsh),
        (mem_map_renamer_shared _ _ _ _ Hes Hsh). reflexivity. }
    assert (Hnc : mem c (columns n) = false).
    { rewrite normalize_coordinates_eq in Hn. injection Hn as <-.
      rewrite !copy_if_absent_columns, Hmc.
      destruct Hcount as [-> | ->]; reflexivity. }
    assert (Hcn : has_counts n = false).
    { unfold has_counts. destruct Hcount as [-> | ->]; rewrite Hnc;
        [reflexivity | apply andb_false_r]. }
    unfold has_counts in Hcn.
    rewrite (availability_metrics_skip _ _ Hcn) in Hdf. injection Hdf as <-.
    split; [exact Hnc | exact Hcn].
Qed.

End TableMore.

(** * The script: what [main] prints and when it fails *)

Module ScriptFacts.

Import Pandas PandasFacts IO DataFetch Props Normalisation Metrics Join Run Shape Snapshot.
Import EffectProps TableProps Script TableMore.

Local Open Scope py_scope.

Lemma bind_Return {A B : Type} (m : M A) (k : A -> M B) (w w' : World) (a : A) :
  m w = (Return a, w') -> bind m k w = k a w'.
Proof. unfold bind. now intros ->. Qed.

Lemma bind_Raise {A B : Type} (m : M A) (k : A -> M B) (w w' : World) (e : exn) :
  m w = (Raise e, w') -> bind m k w = (Raise e, w').
Proof. unfold bind. now intros ->. Qed.

Lemma merge_has_key (left right m : DataFrame) (key lsuffix rsuffix : string) :
  merge left right key lsuffix rsuffix = Return m -> mem key (columns m) = true.
Proof.
  intro Hm. destruct (merge_Return _ _ _ _ _ _ Hm) as [_ ->].
  assert (Hl : mem key (columns left) = true).
  { unfold merge in Hm. destruct (mem key (columns left)); [reflexivity|].
    discriminate. }
  rewrite mem_app.
  pose proof (mem_map_renamer (shared_labels left right key) lsuffix key _ Hl) as H.
  unfold renamer at 1 in H. rewrite key_not_shared in H. now rewrite H.
Qed.

(** A table that is returned with rows in it has the identifier column. *)
Lemma returned_has_station_id (str_to_num : string -> option num)
    (self : BIXIDataFetcher) (w w' : World) (df : DataFrame) :
  get_combined_station_data str_to_num self w = (Return df, w') ->
  empty df = false ->
  mem "station_id" (columns df) = true.
Proof.
  intros Hrun Hne.
  destruct (get_combined_inv _ _ _ _ _ Hrun)
    as [info [w1 [status [w2 [_ [_ [[_ ->] | [_ [_ [m [n [Hm [Hn Hdf]]]]]]]]]]]]].
  - discriminate.
  - apply (metrics_keep_columns _ _ _ _ Hdf), (normalize_keeps_columns _ _ _ Hn).
    exact (merge_has_key _ _ _ _ _ _ Hm).
Qed.

Lemma returned_has_rate (str_to_num : string -> option num)
    (self : BIXIDataFetcher) (w w' : World) (df : DataFrame) :
  get_combined_station_data str_to_num self w = (Return df, w') ->
  has_counts df = true ->
  mem "utilization_rate" (columns df) = true.
Proof.
  intros Hrun Hc. destruct (returned_with_counts _ _ _ _ _ Hrun Hc) as [n [Hn Hdf]].
  unfold has_counts in Hn. rewrite (availability_metrics_columns _ _ _ _ Hn Hdf).
  apply orb_true_r.
Qed.

Section WithPandas.

Variable str_to_num : string -> option num.
Variable not_found_message : list string -> list string -> string.
Variable to_string : DataFrame -> string.

Lemma select_missing (df : DataFrame) (labels : list string) (c : string) :
  In c labels -> mem c (columns df) = false ->
  exists msg, df_select not_found_message df labels = Raise (KeyError msg).
Proof.
  intros Hin Hc. unfold df_select.
  destruct (filter _ labels) as [|x missing] eqn:E; [|eauto].
  assert (H : In c (filter (fun c => negb (mem c (columns df))) labels))
    by (apply filter_In; split; [assumption | now rewrite Hc]).
  rewrite E in H. contradiction.
Qed.

Lemma select_present (df : DataFrame) (labels : list string) :
  (forall c, In c labels -> mem c (columns df) = true) ->
  exists sample, df_select not_found_message df labels = Return sample.
Proof.
  intro H. unfold df_select.
  destruct (filter _ labels) as [|x missing] eqn:E; [eauto|].
  assert (Hx : In x (filter (fun c => negb (mem c (columns df))) labels))
    by (rewrite E; now left).
  apply filter_In in Hx. destruct Hx as [Hx Hm]. rewrite (H x Hx) in Hm.
  discriminate.
Qed.

(** When the snapshot that [main] gets has rows, a [name] column and the
    two count columns, [main] raises nothing: it prints the number of
    stations, the heading, and the first five rows of the five selected
    columns. *)
Theorem main_prints_a_sample (w w' : World) (df : DataFrame) :
  get_combined_station_data str_to_num init (log (Print "Fetching BIXI data...") w)
    = (Return df, w') ->
  empty df = false ->
  mem "name" (columns df) = true ->
  has_counts df = true ->
  exists sample,
    df_select not_found_message df
      ["station_id"; "name"; "num_bikes_available"; "num_docks_available";
       "utilization_rate"] = Return sample /\
    main str_to_num not_found_message to_string w =
    (Return tt,
     log (Print (to_string (head 5 sample)))
       (log (Print (nl ++ "Sample data:"))
          (log (Print (nl ++ "✓ Successfully fetched "
                          ++ str_of_nat (List.length (rows df)) ++ " stations")) w'))).
Proof.
  intros Hrun Hne Hname Hc.
  pose proof (returned_has_station_id _ _ _ _ _ Hrun Hne) as Hid.
  pose proof (returned_has_rate _ _ _ _ _ Hrun Hc) as Hrate.
  unfold has_counts in Hc. apply andb_prop in Hc. destruct Hc as [Hb Hd].
  destruct (select_present df
              ["station_id"; "name"; "num_bikes_available"; "num_docks_available";
               "utilization_rate"]) as [sample Hsel].
  { intros c [<- | [<- | [<- | [<- | [<- | []]]]]]; assumption. }
  exists sample. split; [exact Hsel|].
  unfold main.
  rewrite (bind_Return (print "Fetching BIXI data...") _ w _ tt eq_refl), (bind_Return _ _ _ _ _ Hrun), Hne.
  cbn [negb]. unfold bind, print, lift. now rewrite Hsel.
Qed.

(** When the snapshot that [main] gets has rows but no [name] column, or
    lacks one of the two count columns, [main] raises a [KeyError] once it
    has printed the number of stations and the heading. *)
Theorem main_raises_KeyError_without_name_or_counts (w w' : World) (df : DataFrame) :
  get_combined_station_data str_to_num init (log (Print "Fetching BIXI data...") w)
    = (Return df, w') ->
  empty df = false ->
  mem "name" (columns df) && has_counts df = false ->
  exists msg,
    main str_to_num not_found_message to_string w =
    (Raise (KeyError msg),
     log (Print (nl ++ "Sample data:"))
       (log (Print (nl ++ "✓ Successfully fetched "
                       ++ str_of_nat (List.length (rows df)) ++ " stations")) w')).
Proof.
  intros Hrun Hne Hlack.
  assert (Hsel : exists msg,
            df_select not_found_message df
              ["station_id"; "name"; "num_bikes_available"; "num_docks_available";
               "utilization_rate"] = Raise (KeyError msg)).
  { unfold has_counts in Hlack.
    destruct (mem "name" (columns df)) eqn:Hname.
    - destruct (mem "num_bikes_available" (columns df)) eqn:Hb.
      + apply (select_missing df _ "num_docks_available"); [simpl; auto | exact Hlack].
      + apply (select_missing df _ "num_bikes_available"); [simpl; auto | exact Hb].
    - apply (select_missing df _ "name"); [simpl; auto | exact Hname]. }
  destruct Hsel as [msg Hsel]. exists msg.
  unfold main.
  rewrite (bind_Return (print "Fetching BIXI data...") _ w _ tt eq_refl), (bind_Return _ _ _ _ _ Hrun), Hne.
  cbn [negb]. unfold bind, print, lift. now rewrite Hsel.
Qed.

(** When both fetched tables have rows and can be joined (each has the
    [station_id] column, holding texts, and no two labels of a side
    coincide once suffixed), share no station, and the snapshot file can be
    written, the snapshot is written all the same, with no row in it, and
    [main] then reports a failure: its last line is "Failed to fetch data",
    and it raises nothing. *)
Theorem main_reports_failure_when_no_station_is_shared
    (w w1 w2 : World) (info status : DataFrame) :
  get_station_information init (log (Print "Fetching BIXI data...") w)
    = (Return info, w1) ->
  get_station_status init w1 = (Return status, w2) ->
  empty info || empty status = false ->
  joinable info status "station_id" "_info" "_status" ->
  (forall s, In (VStr s) (station_ids info) -> In (VStr s) (station_ids status) ->
             False) ->
  disk w2 (csv_path init w2) = None ->
  exists df,
    rows df = [] /\
    main str_to_num not_found_message to_string w =
    (Return tt,
     mkWorld (network w2) (clock w2) (S (ticks w2)) (disk w2)
       (trace w2 ++ [WriteCsv (csv_path init w2) df;
                     Print ("✓ Saved combined data to " ++ csv_path init w2);
                     Print "✗ Failed to fetch data"])).
Proof.
  intros E1 E2 Em Hjoin Hdisj Hdisk.
  destruct (joinable_merge _ _ _ _ _ Hjoin) as [m Hm].
  destruct (no_shared_station_no_row str_to_num info status m Hdisj Hm)
    as [n [df [Hn [Hdf Hrows]]]].
  exists df. split; [exact Hrows|].
  pose proof (get_combined_run str_to_num init _ _ _ _ _ _ _ _ E1 E2 Em Hm Hn Hdf)
    as Hrun.
  rewrite Hdisk in Hrun.
  unfold main.
  rewrite (bind_Return (print "Fetching BIXI data...") _ w _ tt eq_refl),
    (bind_Return _ _ _ _ _ Hrun).
  assert (empty df = true) as ->
    by (unfold empty; rewrite Hrows; now destruct (columns df)).
  cbn [negb]. unfold print, log. cbn [network clock ticks disk trace].
  now rewrite <- app_assoc.
Qed.

End WithPandas.

End ScriptFacts.

(** * The further properties on sample worlds *)

Module MoreWitnesses.

Import Pandas IO DataFetch Props Examples EffectProps TableProps Script MoreExamples.
Import Retrieval JoinMore TableMore ScriptFacts.

Ltac run := vm_compute; reflexivity.

(** The server of the sample worlds answers in time, with status 200. *)
Ltac answered wait :=
  exists wait, 200%nat, "OK"%string; split; [run | split; [lia | left; lia]].

(** The system information of [world_system] is saved and returned, and
    counted as 0 stations. *)
Lemma fetched_payload_is_saved_and_returned_witness :
  fetch_feed init "system_information" world_system =
  (Return system_information_payload,
   mkWorld (network world_system) (clock world_system) (S (ticks world_system))
     (disk world_system)
     (trace world_system ++
      [HttpGet (base_url init ++ "/en/system_information.json") 10;
       WriteJson (json_path init "system_information" world_system)
         system_information_payload;
       Print ("✓ Fetched " ++ "system_information" ++ " - " ++ str_of_nat 0
                ++ " stations")])).
Proof.
  apply (fetched_payload_is_saved_and_returned init "system_information"
           "/en/system_information.json" world_system system_information_payload 0).
  - run.
  - answered 2%nat.
  - run.
  - run.
Defined.

(** On the read-only disk of [world_read_only] the first fetch raises, and
    so does the snapshot call. *)
Lemma unwritable_raw_feed_raises_witness :
  fetch_feed init "station_information" world_read_only =
    (Raise (OSError "[Errno 13] Permission denied"),
     tick (log (HttpGet (base_url init ++ "/en/station_information.json") 10)
             world_read_only)) /\
  get_combined_station_data decimal init world_read_only =
    (Raise (OSError "[Errno 13] Permission denied"),
     tick (log (HttpGet (base_url init ++ "/en/station_information.json") 10)
             world_read_only)).
Proof.
  destruct (unwritable_raw_feed_raises init "station_information"
              "/en/station_information.json" world_read_only information_feed
              "[Errno 13] Permission denied"
              ltac:(run) ltac:(answered 1%nat) ltac:(run)) as [H1 H2].
  split; [exact H1 | exact (H2 eq_refl decimal)].
Defined.

(** The information feed of [world_null_data] has a null [data]. *)
Lemma payload_without_get_raises_witness :
  exists msg,
    fetch_feed init "station_information" world_null_data =
    (Raise (AttributeError msg),
     mkWorld (network world_null_data) (clock world_null_data)
       (S (ticks world_null_data)) (disk world_null_data)
       (trace world_null_data ++
        [HttpGet (base_url init ++ "/en/station_information.json") 10;
         WriteJson (json_path init "station_information" world_null_data)
           (VDict [("data", VNone)])])).
Proof.
  apply (payload_without_get_raises init "station_information"
           "/en/station_information.json" world_null_data (VDict [("data", VNone)])).
  - run.
  - answered 1%nat.
  - exact I.
  - run.
Defined.

(** The server of [world_html] answers with a page. *)
Lemma body_that_is_not_json_returns_None_witness :
  fetch_feed init "station_status" world_html =
  (Return VNone,
   log (Print ("✗ Error fetching " ++ "station_status" ++ ": "
                 ++ "Expecting value: line 1 column 1 (char 0)"))
     (log (HttpGet (base_url init ++ "/en/station_status.json") 10) world_html)).
Proof.
  apply (body_that_is_not_json_returns_None init "station_status"
           "/en/station_status.json" world_html
           "Expecting value: line 1 column 1 (char 0)").
  - run.
  - answered 1%nat.
Defined.

(** The information feed of [world_information_down] is out of reach; the
    status feed of [world_status_down] answers 503. *)
Lemma failed_feed_gives_empty_snapshot_witness :
  get_combined_station_data decimal init world_information_down =
    (Return empty_frame,
     log (Print "⚠ Warning: Missing station data") (after_status world_information_down))
  /\
  exists detail,
    get_combined_station_data decimal init world_status_down =
    (Return empty_frame,
     log (Print "⚠ Warning: Missing station data")
       (log (Print ("✗ Error fetching station_status: " ++ detail))
          (log (HttpGet (base_url init ++ "/en/station_status.json") 10)
             (after_information world_status_down)))).
Proof.
  split.
  - apply (proj1 (failed_feed_gives_empty_snapshot decimal init world_information_down)
             I (status_of world_information_down)).
    run.
  - apply (proj1 (proj2 (failed_feed_gives_empty_snapshot decimal init
                           world_status_down))
             (information_of world_status_down)).
    + run.
    + right. vm_compute. lia.
Defined.

(** The snapshot of [world_live] is the table written last. *)
Lemma returned_table_is_the_one_written_witness :
  exists before last,
    trace (after_snapshot world_live) = trace world_live ++ before ++ last /\
    Forall no_csv before /\
    ((snapshot_of world_live = empty_frame /\
      last = [Print "⚠ Warning: Missing station data"]) \/
     (exists timestamp,
        let path := path_join (data_dir init)
                      ("combined_stations_" ++ timestamp ++ ".csv") in
        last = [WriteCsv path (snapshot_of world_live);
                Print ("✓ Saved combined data to " ++ path)])).
Proof.
  apply (returned_table_is_the_one_written decimal init world_live
           (after_snapshot world_live) (snapshot_of world_live)).
  run.
Defined.

(** Station 42 is in both feeds of [world_live], and in the snapshot. *)
Lemma snapshot_holds_every_shared_station_witness :
  In (VStr "42") (station_ids (snapshot_of world_live)).
Proof.
  apply (snapshot_holds_every_shared_station decimal init world_live
           (after_information world_live) (after_status world_live)
           (after_snapshot world_live)
           (information_of world_live) (status_of world_live) (snapshot_of world_live)
           ltac:(run) ltac:(run) ltac:(run) "42").
  - vm_compute. left. reflexivity.
  - vm_compute. left. reflexivity.
Defined.

(** The feeds of [world_live] list each station once. *)
Lemma distinct_stations_stay_distinct_witness :
  NoDup (station_ids (snapshot_of world_live)) /\
  (List.length (rows (snapshot_of world_live))
   <= List.length (rows (information_of world_live)))%nat /\
  (List.length (rows (snapshot_of world_live))
   <= List.length (rows (status_of world_live)))%nat.
Proof.
  apply (distinct_stations_stay_distinct decimal init world_live
           (after_information world_live) (after_status world_live)
           (after_snapshot world_live)
           (information_of world_live) (status_of world_live) (snapshot_of world_live)
           ltac:(run) ltac:(run) ltac:(run)).
  - vm_compute. repeat (constructor; [simpl; intuition discriminate|]). constructor.
  - vm_compute. repeat (constructor; [simpl; intuition discriminate|]). constructor.
Defined.

(** The row of station 42 in the snapshot of [world_live]. *)
Lemma attributes_pass_through_witness :
  exists l rr,
    In l (rows (information_of world_live)) /\ In rr (rows (status_of world_live)) /\
    cell rr "station_id" = cell l "station_id" /\
    cell row_parc "station_id" = cell l "station_id" /\
    forall c,
      computed_label c = false -> c <> "station_id" ->
      ends_with "_info" c = false -> ends_with "_status" c = false ->
      mem c (columns (information_of world_live))
      && mem c (columns (status_of world_live)) = false ->
      dict_get row_parc c = match dict_get l c with
                            | Some v => Some v
                            | None => dict_get rr c
                            end.
Proof.
  apply (attributes_pass_through decimal init world_live
           (after_information world_live) (after_status world_live)
           (after_snapshot world_live)
           (information_of world_live) (status_of world_live) (snapshot_of world_live)
           ltac:(run) ltac:(run) ltac:(run) row_parc).
  vm_compute. left. reflexivity.
Defined.

(** The counts of [world_live], where station 8 reports "N/A" bikes and
    "5" docks. *)
Lemma counts_are_read_as_numbers_witness :
  Forall2
    (fun r r' =>
       exists bikes docks,
         same_number bikes (count_value decimal (cell r "num_bikes_available")) /\
         same_number docks (count_value decimal (cell r "num_docks_available")) /\
         cell r' "num_bikes_available" = VNum bikes /\
         cell r' "num_docks_available" = VNum docks /\
         is_nan bikes = false /\ is_nan docks = false)
    (rows (normalized_of world_live)) (rows (snapshot_of world_live)).
Proof.
  apply (counts_are_read_as_numbers decimal init world_live
           (after_information world_live) (after_status world_live)
           (after_snapshot world_live)
           (information_of world_live) (status_of world_live)
           (joined_of world_live) (normalized_of world_live) (snapshot_of world_live)).
  - run.
  - run.
  - run.
  - run.
  - run.
  - run.
  - run.
Defined.

(** Station 42 of [world_extremes] has 10 bikes and no free dock. *)
Lemma rate_is_0_when_empty_and_1_when_full_witness :
  exists u : Q,
    cell row_full "utilization_rate" = VNum (Fin u) /\
    (u == 0 <-> 10%Z = 0%Z) /\
    (u == 1 <-> 0%Z = 0%Z /\ (0 < 10)%Z).
Proof.
  apply (rate_is_0_when_empty_and_1_when_full decimal init world_extremes
           (after_snapshot world_extremes) (snapshot_of world_extremes)
           ltac:(run) ltac:(run) row_full 10%Z 0%Z).
  - vm_compute. left. reflexivity.
  - run.
  - run.
  - lia.
  - lia.
  - vm_compute. discriminate.
Defined.

(** Both feeds of [world_overlap] carry the bike count. *)
Lemma shared_fields_get_suffixes_witness :
  mem ("num_bikes_available" ++ "_info")%string
      (columns (snapshot_of world_overlap)) = true /\
  mem ("num_bikes_available" ++ "_status")%string
      (columns (snapshot_of world_overlap)) = true /\
  ("num_bikes_available" = "num_bikes_available"
   \/ "num_bikes_available" = "num_docks_available" ->
   mem "num_bikes_available" (columns (snapshot_of world_overlap)) = false /\
   has_counts (snapshot_of world_overlap) = false).
Proof.
  apply (shared_fields_get_suffixes decimal init world_overlap
           (after_information world_overlap) (after_status world_overlap)
           (after_snapshot world_overlap)
           (information_of world_overlap) (status_of world_overlap)
           (snapshot_of world_overlap) "num_bikes_available").
  - run.
  - run.
  - run.
  - run.
  - discriminate.
  - run.
  - run.
Defined.

(** [main] on [world_live]. *)
Lemma main_prints_a_sample_witness :
  exists sample,
    df_select plain_message (snapshot_of (announced world_live))
      ["station_id"; "name"; "num_bikes_available"; "num_docks_available";
       "utilization_rate"] = Return sample /\
    main decimal plain_message plain_text world_live =
    (Return tt,
     log (Print (plain_text (head 5 sample)))
       (log (Print (nl ++ "Sample data:"))
          (log (Print (nl ++ "✓ Successfully fetched "
                          ++ str_of_nat
                               (List.length (rows (snapshot_of (announced world_live))))
                          ++ " stations"))
             (after_snapshot (announced world_live))))).
Proof.
  apply (main_prints_a_sample decimal plain_message plain_text world_live
           (after_snapshot (announced world_live))
           (snapshot_of (announced world_live))).
  - run.
  - run.
  - run.
  - run.
Defined.

(** [main] on [world_bikes_only], whose snapshot has no dock count and so
    no rate. *)
Lemma main_raises_KeyError_without_name_or_counts_witness :
  exists msg,
    main decimal plain_message plain_text world_bikes_only =
    (Raise (KeyError msg),
     log (Print (nl ++ "Sample data:"))
       (log (Print (nl ++ "✓ Successfully fetched "
                       ++ str_of_nat
                            (List.length
                               (rows (snapshot_of (announced world_bikes_only))))
                       ++ " stations"))
          (after_snapshot (announced world_bikes_only)))).
Proof.
  apply (main_raises_KeyError_without_name_or_counts decimal plain_message plain_text
           world_bikes_only (after_snapshot (announced world_bikes_only))
           (snapshot_of (announced world_bikes_only))).
  - run.
  - run.
  - run.
Defined.

(** [main] on [world_disjoint], whose feeds share no station. *)
Lemma main_reports_failure_when_no_station_is_shared_witness :
  exists df,
    rows df = [] /\
    main decimal plain_message plain_text world_disjoint =
    (Return tt,
     mkWorld (network (after_status (announced world_disjoint)))
       (clock (after_status (announced world_disjoint)))
       (S (ticks (after_status (announced world_disjoint))))
       (disk (after_status (announced world_disjoint)))
       (trace (after_status (announced world_disjoint)) ++
        [WriteCsv (csv_path init (after_status (announced world_disjoint))) df;
         Print ("✓ Saved combined data to "
                  ++ csv_path init (after_status (announced world_disjoint)));
         Print "✗ Failed to fetch data"])).
Proof.
  apply (main_reports_failure_when_no_station_is_shared decimal plain_message
           plain_text world_disjoint
           (after_information (announced world_disjoint))
           (after_status (announced world_disjoint))
           (information_of (announced world_disjoint))
           (status_of (announced world_disjoint))).
  - run.
  - run.
  - run.
  - split; [run|]. split; [run|]. split; [|split; run].
    intros r [Hr | Hr]; vm_compute in Hr;
      repeat (destruct Hr as [<- | Hr]; [eexists; reflexivity|]); contradiction.
  - intros s Ha Hb. vm_compute in Ha, Hb.
    destruct Hb as [Hb|[]]. injection Hb as <-.
    destruct Ha as [Ha|[Ha|[Ha|[]]]]; discriminate.
  - run.
Defined.

End MoreWitnesses.
